(** * DID:ION creation and Bitcoin anchoring scripts: a shallow embedding

    The development follows the three scripts of the repository:
    - [Creator]  : scripts/2-create-did.js     (class DIDCreator)
    - [Anchorer] : scripts/3-anchor-bitcoin.js (class IONBitcoinAnchorer)
    - [Simple]   : scripts/3-simple-anchor.js  (class SimpleIONAnchorer)

    Conventions.
    - A JavaScript value is a [jsval]; a string is a Rocq [string] whose
      characters stand for code units (the scripts only compare, split and
      concatenate them).
    - A method is a computation in the monad [M St]: it receives the object
      (and the file system it works on) as a state, and either returns or
      throws; field updates made before a [throw] stay in the state, as in
      JavaScript.
    - What the outside world answers (the ION tools, the Fireblocks service,
      the clock, the file system failing) is read from a [World] record.
    - Console output is a presentation matter: it is recorded in the model
      where a statement is about it (the lines of [validateWalletAddresses],
      the lines that open the tiers of [submitToIONNode], the hash printed
      by [createBitcoinTransaction]); elsewhere only the property reads that
      a template performs, and that can throw, are kept.  Colour codes,
      pictographs and rules are left out of the recorded lines. *)

From Stdlib Require Import ZArith Ascii.
From stdpp Require Import base option list gmap strings pretty.

Set Warnings "-register-all".

(** ** JavaScript strings *)

Module JsString.

(** [s.split(c)[0]]: the characters of [s] before the first [c], the whole
    of [s] when [c] does not occur. *)
Fixpoint before_first (c : ascii) (s : string) : string :=
  match s with
  | EmptyString => EmptyString
  | String a s' => if Ascii.eqb a c then EmptyString else String a (before_first c s')
  end.

(** Number of occurrences of a character. *)
Fixpoint count (c : ascii) (s : string) : nat :=
  match s with
  | EmptyString => 0
  | String a s' => (if Ascii.eqb a c then 1 else 0) + count c s'
  end.

(** [s.split(c).pop()]: the characters of [s] after the last [c], the whole
    of [s] when [c] does not occur. *)
Fixpoint after_last (c : ascii) (s : string) : string :=
  match s with
  | EmptyString => EmptyString
  | String a s' =>
      if Ascii.eqb a c || negb (count c s' =? 0)%nat then after_last c s' else String a s'
  end.

(** [s.startsWith(p)] *)
Definition startsWith (s p : string) : bool := String.prefix p s.

(** [s.includes(p)] *)
Fixpoint includes (s p : string) : bool :=
  String.prefix p s ||
  match s with
  | EmptyString => false
  | String _ s' => includes s' p
  end.

(** [s.endsWith(p)] *)
Definition endsWith (s p : string) : bool :=
  (String.length p <=? String.length s)%nat &&
  String.eqb (String.substring (String.length s - String.length p) (String.length p) s) p.

(** [s.substring(0, n)] *)
Definition substring0 (n : nat) (s : string) : string := String.substring 0 n s.

(** [s.replace(/[:.]/g, '-')] *)
Fixpoint dashes (s : string) : string :=
  match s with
  | EmptyString => EmptyString
  | String a s' =>
      String (if Ascii.eqb a ":" || Ascii.eqb a "." then "-"%char else a) (dashes s')
  end.

(** The order of [Array.prototype.sort] without a comparator on strings:
    code unit by code unit.  The strings here are strings of bytes; on ASCII
    names, which are all the scripts write, a byte is a code unit, and what
    is stated about the order is stated for such names. *)
Definition leb (s t : string) : bool := String.leb s t.

Fixpoint insert_sorted (x : string) (l : list string) : list string :=
  match l with
  | [] => [x]
  | y :: l' => if leb x y then x :: y :: l' else y :: insert_sorted x l'
  end.

(** [l.sort()] *)
Definition sort (l : list string) : list string := foldr insert_sorted [] l.

End JsString.

(** ** JavaScript values, property reads and exceptions *)

Inductive jsval : Type :=
  | VUndef
  | VNull
  | VBool (b : bool)
  | VNum (z : Z)
  | VStr (s : string)
  | VArr (items : list jsval)
  | VObj (fields : list (string * jsval)).

(** What [throw] carries: [new Error(message)], or the [TypeError] the engine
    raises on a read from [undefined]/[null] or a call of a non-function. *)
Inductive exn : Type :=
  | JsError (message : string)
  | JsTypeError (message : string).

Definition message (e : exn) : string :=
  match e with JsError m | JsTypeError m => m end.

Inductive outcome (A : Type) : Type :=
  | Returned (a : A)
  | Thrown (e : exn).
Arguments Returned {A} a.
Arguments Thrown {A} e.

Definition returns {A} (o : outcome A) : bool :=
  match o with Returned _ => true | Thrown _ => false end.

(** [!!v] *)
Definition truthy (v : jsval) : bool :=
  match v with
  | VUndef | VNull => false
  | VBool b => b
  | VNum z => negb (z =? 0)%Z
  | VStr s => negb (String.eqb s "")
  | VArr _ | VObj _ => true
  end.

Fixpoint assoc (k : string) (fields : list (string * jsval)) : jsval :=
  match fields with
  | [] => VUndef
  | (k', v) :: rest => if String.eqb k k' then v else assoc k rest
  end.

(** [v.k] for one of the field names the scripts use (none of them is a
    property of a primitive or an array). *)
Definition get (v : jsval) (k : string) : outcome jsval :=
  match v with
  | VUndef => Thrown (JsTypeError ("Cannot read properties of undefined (reading '" +:+ k +:+ "')"))
  | VNull => Thrown (JsTypeError ("Cannot read properties of null (reading '" +:+ k +:+ "')"))
  | VObj fields => Returned (assoc k fields)
  | _ => Returned VUndef
  end.

(** [v?.k] *)
Definition get_opt (v : jsval) (k : string) : jsval :=
  match v with
  | VObj fields => assoc k fields
  | _ => VUndef
  end.

(** [v.split(c)[0]], [v.split(c).pop()] and [v.substring(0, n)]: methods of
    strings only. *)
Definition on_string (name : string) (f : string -> string) (v : jsval) : outcome jsval :=
  match v with
  | VStr s => Returned (VStr (f s))
  | VUndef => Thrown (JsTypeError ("Cannot read properties of undefined (reading '" +:+ name +:+ "')"))
  | VNull => Thrown (JsTypeError ("Cannot read properties of null (reading '" +:+ name +:+ "')"))
  | _ => Thrown (JsTypeError (name +:+ " is not a function"))
  end.

(** Template-literal rendering of the values the scripts interpolate into
    file names and notes. *)
Definition render (v : jsval) : string :=
  match v with
  | VStr s => s
  | VUndef => "undefined"
  | VNull => "null"
  | VBool true => "true"
  | VBool false => "false"
  | VNum z => pretty z
  | VArr _ | VObj _ => "[object Object]"
  end.

(** ** Computations that return or throw, over a state *)

Definition M (St A : Type) : Type := St -> outcome A * St.

Global Instance M_ret {St} : MRet (M St) := λ A a st, (Returned a, st).
Global Instance M_bind {St} : MBind (M St) := λ A B f m st,
  match m st with
  | (Returned a, st') => f a st'
  | (Thrown e, st') => (Thrown e, st')
  end.

Definition throw {St A} (e : exn) : M St A := λ st, (Thrown e, st).
Definition lift {St A} (o : outcome A) : M St A := λ st, (o, st).
Definition read {St A} (f : St -> A) : M St A := λ st, (Returned (f st), st).
Definition modify {St} (f : St -> St) : M St unit := λ st, (Returned tt, f st).

(** [try { body } catch (e) { handler e }] *)
Definition try_catch {St A} (body : M St A) (handler : exn -> M St A) : M St A := λ st,
  match body st with
  | (Returned a, st') => (Returned a, st')
  | (Thrown e, st') => handler e st'
  end.

Definition when {St} (b : bool) (m : M St unit) : M St unit :=
  if b then m else mret tt.

(** ** The file system the scripts see: the [./data] directory and [.env] *)

Record Files : Type := {
  data_dir : option (gmap string string);  (* [./data]: file name to content *)
  env_file : option string                 (* [.env] *)
}.

Definition no_files : Files := {| data_dir := None; env_file := None |}.

(** * scripts/2-create-did.js *)

Module Creator.

(** The object an ION tools [DID] instance is to the script: what its three
    methods answer. *)
Record DID : Type := {
  getURI : outcome jsval;
  generateRequest : Z -> outcome jsval;
  getAllOperations : outcome jsval
}.

Record World : Type := {
  env : gmap string string;                      (* [process.env] *)
  now : nat -> string;                           (* n-th [new Date().toISOString()] *)
  generateKeyPair : nat -> outcome jsval;        (* n-th call of the ION tools function *)
  newDID : jsval -> outcome DID;                 (* [new DID(options)] *)
  stringify : jsval -> string;                   (* [JSON.stringify(v, null, 2)] *)
  mkdir_fails : option exn;                      (* [fs.mkdirSync] *)
  write_fails : string -> option exn;            (* [fs.writeFileSync], by path *)
  read_fails : string -> option exn;             (* [fs.readFileSync], by path *)
  regexp_test : string -> string -> bool;        (* [new RegExp(`^${key}=.*$`, 'm').test(content)] *)
  regexp_replace : string -> string -> string -> string
                                                 (* [content.replace(thatRegExp, replacement)] *)
}.

(** The fields of a [DIDCreator], with the console, the clock readings made
    so far, the key pairs asked for so far and the files. *)
Record t : Type := {
  investorId : string;
  btcAddress : option string;
  ethAddress : option string;
  solAddress : option string;
  didInstance : option DID;
  didKeys : jsval;
  longFormDid : jsval;
  shortFormDid : jsval;
  errors : gmap string string;
  console : list string;           (* the lines of [validateWalletAddresses] *)
  ticks : nat;                     (* readings of the clock made so far *)
  keyPairs : nat;                  (* key pairs asked for so far *)
  files : Files
}.

Definition set_didInstance (d : option DID) (c : t) : t :=
  {| investorId := investorId c; btcAddress := btcAddress c; ethAddress := ethAddress c;
     solAddress := solAddress c; didInstance := d; didKeys := didKeys c;
     longFormDid := longFormDid c; shortFormDid := shortFormDid c; errors := errors c;
     console := console c; ticks := ticks c; keyPairs := keyPairs c; files := files c |}.

Definition set_didKeys (k : jsval) (c : t) : t :=
  {| investorId := investorId c; btcAddress := btcAddress c; ethAddress := ethAddress c;
     solAddress := solAddress c; didInstance := didInstance c; didKeys := k;
     longFormDid := longFormDid c; shortFormDid := shortFormDid c; errors := errors c;
     console := console c; ticks := ticks c; keyPairs := keyPairs c; files := files c |}.

Definition set_longFormDid (v : jsval) (c : t) : t :=
  {| investorId := investorId c; btcAddress := btcAddress c; ethAddress := ethAddress c;
     solAddress := solAddress c; didInstance := didInstance c; didKeys := didKeys c;
     longFormDid := v; shortFormDid := shortFormDid c; errors := errors c;
     console := console c; ticks := ticks c; keyPairs := keyPairs c; files := files c |}.

Definition set_shortFormDid (v : jsval) (c : t) : t :=
  {| investorId := investorId c; btcAddress := btcAddress c; ethAddress := ethAddress c;
     solAddress := solAddress c; didInstance := didInstance c; didKeys := didKeys c;
     longFormDid := longFormDid c; shortFormDid := v; errors := errors c;
     console := console c; ticks := ticks c; keyPairs := keyPairs c; files := files c |}.

(** [this.errors[stage] = error.message] *)
Definition set_error (stage : string) (e : exn) (c : t) : t :=
  {| investorId := investorId c; btcAddress := btcAddress c; ethAddress := ethAddress c;
     solAddress := solAddress c; didInstance := didInstance c; didKeys := didKeys c;
     longFormDid := longFormDid c; shortFormDid := shortFormDid c;
     errors := <[stage := message e]> (errors c);
     console := console c; ticks := ticks c; keyPairs := keyPairs c; files := files c |}.

(** [console.log(line)] *)
Definition log (line : string) (c : t) : t :=
  {| investorId := investorId c; btcAddress := btcAddress c; ethAddress := ethAddress c;
     solAddress := solAddress c; didInstance := didInstance c; didKeys := didKeys c;
     longFormDid := longFormDid c; shortFormDid := shortFormDid c; errors := errors c;
     console := console c ++ [line]; ticks := ticks c; keyPairs := keyPairs c; files := files c |}.

Definition set_ticks (n : nat) (c : t) : t :=
  {| investorId := investorId c; btcAddress := btcAddress c; ethAddress := ethAddress c;
     solAddress := solAddress c; didInstance := didInstance c; didKeys := didKeys c;
     longFormDid := longFormDid c; shortFormDid := shortFormDid c; errors := errors c;
     console := console c; ticks := n; keyPairs := keyPairs c; files := files c |}.

Definition set_keyPairs (n : nat) (c : t) : t :=
  {| investorId := investorId c; btcAddress := btcAddress c; ethAddress := ethAddress c;
     solAddress := solAddress c; didInstance := didInstance c; didKeys := didKeys c;
     longFormDid := longFormDid c; shortFormDid := shortFormDid c; errors := errors c;
     console := console c; ticks := ticks c; keyPairs := n; files := files c |}.

Definition set_files (f : Files) (c : t) : t :=
  {| investorId := investorId c; btcAddress := btcAddress c; ethAddress := ethAddress c;
     solAddress := solAddress c; didInstance := didInstance c; didKeys := didKeys c;
     longFormDid := longFormDid c; shortFormDid := shortFormDid c; errors := errors c;
     console := console c; ticks := ticks c; keyPairs := keyPairs c; files := f |}.

(** [process.env.NAME || fallback] *)
Definition env_or (w : World) (name fallback : string) : string :=
  match env w !! name with
  | Some v => if String.eqb v "" then fallback else v
  | None => fallback
  end.

(** [constructor()] *)
Definition new (w : World) (f : Files) : t :=
  {| investorId := env_or w "INVESTOR_ID" "investor-001";
     btcAddress := env w !! "BTC_WALLET_ADDRESS";
     ethAddress := env w !! "ETH_WALLET_ADDRESS";
     solAddress := env w !! "SOL_WALLET_ADDRESS";
     didInstance := None;
     didKeys := VObj [];
     longFormDid := VNull;
     shortFormDid := VNull;
     errors := ∅;
     console := [];
     ticks := 0;
     keyPairs := 0;
     files := f |}.

(** An address as a JavaScript value: [undefined] when the variable is unset. *)
Definition address_value (a : option string) : jsval :=
  match a with Some s => VStr s | None => VUndef end.

(** [!address] *)
Definition absent (a : option string) : bool := negb (truthy (address_value a)).

(** ** [validateWalletAddresses] *)

Definition requiredAddresses (c : t) : list (string * option string) :=
  [ ("Bitcoin Testnet", btcAddress c);
    ("Ethereum Sepolia", ethAddress c);
    ("Solana Devnet", solAddress c) ].

(** The lines one turn of the [for ... of Object.entries(requiredAddresses)]
    loop prints. *)
Definition address_lines (network : string) (address : option string) : list string :=
  if absent address then ["Missing " +:+ network +:+ " address"]
  else
    let a := render (address_value address) in
    [network +:+ ": " +:+ a]
    ++ (if String.eqb network "Bitcoin Testnet" && negb (JsString.startsWith a "tb1")
        then ["Warning: BTC address format unusual"] else [])
    ++ (if String.eqb network "Ethereum Sepolia" && negb (JsString.startsWith a "0x")
        then ["Warning: ETH address format unusual"] else []).

(** The loop: [allValid] and the console after the entries [l]. *)
Fixpoint check_addresses (l : list (string * option string)) (allValid : bool) (c : t)
  : bool * t :=
  match l with
  | [] => (allValid, c)
  | (network, address) :: rest =>
      let c' := foldl (λ c line, log line c) c (address_lines network address) in
      check_addresses rest (if absent address then false else allValid) c'
  end.

Definition missing_addresses : exn :=
  JsError "Missing required wallet addresses. Run wallet extraction first.".

Definition validateWalletAddresses : M t bool := λ c,
  let c := log "STEP 1: Validating Wallet Addresses" c in
  let '(allValid, c) := check_addresses (requiredAddresses c) true c in
  if negb allValid then (Thrown missing_addresses, c)
  else (Returned true, log "All wallet addresses validated" c).

(** ** The stages that talk to the ION tools *)

Section Stages.
Variable w : World.

(** [try { body } catch (error) { this.errors[stage] = error.message; throw error; }] *)
Definition recording {A} (stage : string) (body : M t A) : M t A :=
  try_catch body (λ e, _ ← modify (set_error stage e); throw e).

(** [await generateKeyPair()] *)
Definition next_key_pair : M t jsval := λ c,
  (generateKeyPair w (keyPairs c), set_keyPairs (S (keyPairs c)) c).

(** [new Date().toISOString()] *)
Definition clock : M t string := λ c, (Returned (now w (ticks c)), set_ticks (S (ticks c)) c).

(** [this.didInstance], for a method call on it *)
Definition instance (method : string) : M t DID := λ c,
  match didInstance c with
  | Some d => (Returned d, c)
  | None =>
      (Thrown (JsTypeError ("Cannot read properties of null (reading '" +:+ method +:+ "')")), c)
  end.

Definition key_entry (keys pub priv : jsval) : list (string * jsval) :=
  [("keyPair", keys); ("publicKeyJwk", pub); ("privateKeyJwk", priv)].

Definition generateDIDKeys : M t jsval :=
  recording "keyGeneration" (
    authnKeys ← next_key_pair;
    updateKeys ← next_key_pair;
    recoveryKeys ← next_key_pair;
    authnPub ← lift (get authnKeys "publicJwk");
    authnPriv ← lift (get authnKeys "privateJwk");
    updatePub ← lift (get updateKeys "publicJwk");
    updatePriv ← lift (get updateKeys "privateJwk");
    recoveryPub ← lift (get recoveryKeys "publicJwk");
    recoveryPriv ← lift (get recoveryKeys "privateJwk");
    let keys := VObj [
      ("authentication", VObj (("id", VStr "auth-key-1") :: key_entry authnKeys authnPub authnPriv));
      ("update", VObj (key_entry updateKeys updatePub updatePriv));
      ("recovery", VObj (key_entry recoveryKeys recoveryPub recoveryPriv)) ] in
    _ ← modify (set_didKeys keys);
    _ ← lift (get authnPub "kty");
    _ ← lift (get authnPub "crv");
    mret keys).

(** [this.didKeys.<role>.<field>] *)
Definition key_field (role field : string) : M t jsval :=
  keys ← read didKeys;
  entry ← lift (get keys role);
  lift (get entry field).

Definition did_options (c : t) (authId authPub : jsval) : jsval :=
  VObj [("content", VObj [
    ("publicKeys", VArr [VObj [
       ("id", authId);
       ("type", VStr "EcdsaSecp256k1VerificationKey2019");
       ("publicKeyJwk", authPub);
       ("purposes", VArr [VStr "authentication"]) ]]);
    ("services", VArr [VObj [
       ("id", VStr "investor-profile");
       ("type", VStr "InvestorProfile");
       ("serviceEndpoint", VObj [
          ("id", VStr (investorId c));
          ("btc", address_value (btcAddress c));
          ("eth", address_value (ethAddress c));
          ("sol", address_value (solAddress c)) ]) ]]) ])].

Definition createDIDInstance : M t DID :=
  recording "didCreation" (
    authId ← key_field "authentication" "id";
    authPub ← key_field "authentication" "publicKeyJwk";
    c ← read id;
    d ← lift (newDID w (did_options c authId authPub));
    _ ← modify (set_didInstance (Some d));
    mret d).

(** ** [generateLongFormDID] *)

Definition generateLongFormDID : M t jsval :=
  recording "longFormDid" (
    d ← instance "getURI";
    uri ← lift (getURI d);
    _ ← modify (set_longFormDid uri);
    short ← lift (on_string "split" (JsString.before_first "?") uri);
    _ ← modify (set_shortFormDid short);
    _ ← lift (on_string "substring" (JsString.substring0 80) uri);
    mret uri).

Definition getCreateRequest : M t jsval :=
  recording "createRequest" (
    d ← instance "generateRequest";
    createRequest ← lift (generateRequest d 0);
    _ ← lift (get createRequest "type");
    _ ← lift (get createRequest "suffixData");
    _ ← lift (get createRequest "delta");
    mret createRequest).

(** ** [saveDIDData] *)

(** [if (!fs.existsSync(dataDir)) fs.mkdirSync(dataDir, { recursive: true })] *)
Definition ensure_data_dir : M t unit := λ c,
  match data_dir (files c) with
  | Some _ => (Returned tt, c)
  | None =>
      match mkdir_fails w with
      | Some e => (Thrown e, c)
      | None => (Returned tt, set_files {| data_dir := Some ∅; env_file := env_file (files c) |} c)
      end
  end.

(** [fs.writeFileSync(`./data/${name}`, content)] *)
Definition write_data (name content : string) : M t unit := λ c,
  match write_fails w ("./data/" +:+ name), data_dir (files c) with
  | Some e, _ => (Thrown e, c)
  | None, Some d =>
      (Returned tt,
       set_files {| data_dir := Some (<[name := content]> d); env_file := env_file (files c) |} c)
  | None, None =>
      (Thrown (JsError ("ENOENT: no such file or directory, open './data/" +:+ name +:+ "'")), c)
  end.

Definition didDataFile (investor timestamp : string) : string :=
  "did-" +:+ investor +:+ "-" +:+ timestamp +:+ ".json".
Definition didKeysFile (investor timestamp : string) : string :=
  "did-keys-" +:+ investor +:+ "-" +:+ timestamp +:+ ".json".
Definition didPublicFile (investor : string) : string :=
  "did-public-" +:+ investor +:+ ".json".

Definition did_pair (c : t) : jsval :=
  VObj [("longForm", longFormDid c); ("shortForm", shortFormDid c)].

Definition saveDIDData : M t jsval :=
  recording "saveData" (
    _ ← ensure_data_dir;
    iso ← clock;
    let timestamp := JsString.dashes iso in
    short ← read shortFormDid;
    didIdentifier ← lift (on_string "split" (JsString.after_last ":") short);
    createRequest ← getCreateRequest;
    d ← instance "getAllOperations";
    allOperations ← lift (getAllOperations d);
    created ← clock;
    c ← read id;
    let metadata := VObj [
      ("created", VStr created);
      ("investorId", VStr (investorId c));
      ("didIdentifier", didIdentifier);
      ("wallets", VObj [
         ("bitcoin", address_value (btcAddress c));
         ("ethereum", address_value (ethAddress c));
         ("solana", address_value (solAddress c)) ]) ] in
    authId ← key_field "authentication" "id";
    authPub ← key_field "authentication" "publicKeyJwk";
    authPriv ← key_field "authentication" "privateKeyJwk";
    updatePub ← key_field "update" "publicKeyJwk";
    updatePriv ← key_field "update" "privateKeyJwk";
    recoveryPub ← key_field "recovery" "publicKeyJwk";
    recoveryPriv ← key_field "recovery" "privateKeyJwk";
    let keys := VObj [
      ("authentication", VObj [("id", authId); ("publicKeyJwk", authPub); ("privateKeyJwk", authPriv)]);
      ("update", VObj [("publicKeyJwk", updatePub); ("privateKeyJwk", updatePriv)]);
      ("recovery", VObj [("publicKeyJwk", recoveryPub); ("privateKeyJwk", recoveryPriv)]) ] in
    let didData := VObj [
      ("metadata", metadata);
      ("did", did_pair c);
      ("keys", keys);
      ("operations", VObj [("createRequest", createRequest); ("allOperations", allOperations)]) ] in
    _ ← write_data (didDataFile (investorId c) timestamp) (stringify w didData);
    _ ← write_data (didKeysFile (investorId c) timestamp) (stringify w keys);
    authPub' ← key_field "authentication" "publicKeyJwk";
    updatePub' ← key_field "update" "publicKeyJwk";
    recoveryPub' ← key_field "recovery" "publicKeyJwk";
    let publicData := VObj [
      ("did", did_pair c);
      ("publicKeys", VObj [
         ("authentication", authPub'); ("update", updatePub'); ("recovery", recoveryPub') ]);
      ("metadata", metadata);
      ("createRequest", createRequest) ] in
    _ ← write_data (didPublicFile (investorId c)) (stringify w publicData);
    mret (VObj [
      ("didDataFile", VStr ("./data/" +:+ didDataFile (investorId c) timestamp));
      ("didKeysFile", VStr ("./data/" +:+ didKeysFile (investorId c) timestamp));
      ("didPublicFile", VStr ("./data/" +:+ didPublicFile (investorId c)));
      ("didData", didData) ])).

(** ** [updateEnvFile] *)

Definition newline : string := String (ascii_of_nat 10) EmptyString.

(** [fs.existsSync('.env') ? fs.readFileSync('.env', 'utf8') : ''] *)
Definition read_env : M t string := λ c,
  match env_file (files c) with
  | Some content =>
      match read_fails w ".env" with
      | Some e => (Thrown e, c)
      | None => (Returned content, c)
      end
  | None => (Returned "", c)
  end.

(** [fs.writeFileSync('.env', content)] *)
Definition write_env (content : string) : M t unit := λ c,
  match write_fails w ".env" with
  | Some e => (Thrown e, c)
  | None => (Returned tt, set_files {| data_dir := data_dir (files c); env_file := Some content |} c)
  end.

(** One turn of the loop over [Object.entries(updates)]. *)
Definition apply_update (envContent : string) (entry : string * jsval) : string :=
  let '(key, value) := entry in
  if regexp_test w key envContent
  then regexp_replace w key envContent (key +:+ "=" +:+ render value)
  else envContent +:+ newline +:+ key +:+ "=" +:+ render value.

(** The [displayValue] of the closing [forEach]. *)
Definition display_value (entry : string * jsval) : outcome jsval :=
  let '(key, value) := entry in
  if JsString.includes key "LONG_FORM"
  then on_string "substring" (JsString.substring0 50) value
  else Returned value.

Fixpoint display_all (entries : list (string * jsval)) : outcome unit :=
  match entries with
  | [] => Returned tt
  | entry :: rest =>
      match display_value entry with
      | Returned _ => display_all rest
      | Thrown e => Thrown e
      end
  end.

(** What stands between [try {] and [} catch] in [updateEnvFile]. *)
Definition updateEnvFile_body : M t unit :=
  envContent ← read_env;
  short ← read shortFormDid;
  didIdentifier ← lift (on_string "split" (JsString.after_last ":") short);
  long ← read longFormDid;
  created ← clock;
  authId ← key_field "authentication" "id";
  let updates := [
    ("DID_LONG_FORM", long);
    ("DID_SHORT_FORM", short);
    ("DID_IDENTIFIER", didIdentifier);
    ("DID_CREATED_AT", VStr created);
    ("DID_AUTH_KEY_ID", authId) ] in
  _ ← write_env (foldl apply_update envContent updates);
  lift (display_all updates).

Definition updateEnvFile : M t unit :=
  try_catch updateEnvFile_body (λ e, modify (set_error "envUpdate" e)).

(** ** [generateSummary], [run] and [main] *)

Record Summary : Type := {
  success : jsval;
  summary_investorId : string;
  did : jsval;
  shortForm : jsval;
  errorCount : nat;
  summary_errors : gmap string string;
  wallets : jsval;
  mainError : option string
}.

Definition generateSummary : M t Summary :=
  c ← read id;
  let errorCount := size (errors c) in
  (* [errorCount === 0 && this.longFormDid] *)
  let success := if (errorCount =? 0)%nat then longFormDid c else VBool false in
  _ ← (if truthy success
       then
         _ ← lift (on_string "substring" (JsString.substring0 80) (longFormDid c));
         _ ← key_field "authentication" "id";
         mret tt
       else mret tt);
  mret {| success := success;
          summary_investorId := investorId c;
          did := longFormDid c;
          shortForm := shortFormDid c;
          errorCount := errorCount;
          summary_errors := errors c;
          wallets := VObj [
            ("bitcoin", address_value (btcAddress c));
            ("ethereum", address_value (ethAddress c));
            ("solana", address_value (solAddress c)) ];
          mainError := None |}.

(** [summary.success = false; summary.mainError = error.message] *)
Definition failed (e : exn) (s : Summary) : Summary :=
  {| success := VBool false;
     summary_investorId := summary_investorId s;
     did := did s;
     shortForm := shortForm s;
     errorCount := errorCount s;
     summary_errors := summary_errors s;
     wallets := wallets s;
     mainError := Some (message e) |}.

Definition run : M t Summary :=
  try_catch (
    _ ← validateWalletAddresses;
    _ ← generateDIDKeys;
    _ ← createDIDInstance;
    _ ← generateLongFormDID;
    _ ← saveDIDData;
    _ ← updateEnvFile;
    generateSummary)
  (λ e, summary ← generateSummary; mret (failed e summary)).

(** The status [main] hands to [process.exit]. *)
Definition exit_status (result : outcome Summary) : Z :=
  match result with
  | Returned summary => if truthy (success summary) then 0 else 1
  | Thrown _ => 1
  end.

Definition main (f : Files) : Z * t :=
  let '(result, c) := run (new w f) in (exit_status result, c).

End Stages.

End Creator.

(** * scripts/3-anchor-bitcoin.js *)

Module Anchorer.

(** What [fetch] resolves to. *)
Record Response : Type := {
  ok : bool;
  status : Z;
  statusText : string;
  json : outcome jsval
}.

(** A promise that nobody awaits: the value it would resolve to. *)
Inductive promise (A : Type) : Type := Promise (value : A).
Arguments Promise {A} value.

Record World : Type := {
  env : gmap string string;                      (* [process.env] *)
  now : nat -> string;                           (* n-th reading of the clock, ISO text *)
  now_ms : nat -> Z;                             (* n-th reading of the clock, [Date.now()] *)
  parse : string -> outcome jsval;               (* [JSON.parse] *)
  stringify : jsval -> string;                   (* [JSON.stringify] *)
  digest : string -> string;                     (* hex of [crypto.subtle.digest('SHA-256', _)] *)
  key_file : string -> option string;            (* the Fireblocks secret key file, by path *)
  newFireblocks : outcome unit;                  (* [new Fireblocks(config)] *)
  getVaultAccount : string -> outcome jsval;
  anchor : jsval -> jsval -> outcome jsval;      (* ION tools [anchor(request, options)] *)
  fetch : string -> string -> outcome Response;  (* POST of a body to a URL *)
  createTransaction : jsval -> outcome jsval;
  getTransaction : nat -> jsval -> outcome jsval;(* n-th status query, for a [txId] *)
  mkdir_fails : option exn;
  write_fails : string -> option exn;
  read_fails : string -> option exn;
  regexp_test : string -> string -> bool;
  regexp_replace : string -> string -> string -> string
}.

(** Calls that leave the process. *)
Inductive call : Type :=
  | CallVault (vaultAccountId : string)
  | CallAnchor (request options : jsval)
  | CallFetch (url body : string)
  | CallCreateTransaction (request : jsval)
  | CallGetTransaction (txId : jsval)
  | CallSleep (ms : Z).

(** The fields the constructor fills from the environment and never changes. *)
Record Config : Type := {
  investorId : string;
  didLongForm : option string;
  didShortForm : option string;
  didIdentifier : option string;
  btcAddress : option string;
  vaultAccountId : string;
  ionNodeEndpoint : string;
  challengeEndpoint : string;
  solutionEndpoint : string
}.

Record t : Type := {
  config : Config;
  fireblocksSDK : bool;            (* [false]: still [null] *)
  didData : jsval;
  createRequest : jsval;
  anchorResponse : jsval;
  bitcoinTransaction : jsval;
  errors : gmap string string;
  console : list string;           (* the lines that open a tier, and the printed hash *)
  calls : list call;               (* the calls made so far, oldest first *)
  ticks : nat;                     (* readings of the clock made so far *)
  queries : nat;                   (* status queries sent so far *)
  files : Files
}.

Definition set_fireblocksSDK (b : bool) (c : t) : t :=
  {| config := config c; fireblocksSDK := b; didData := didData c;
     createRequest := createRequest c; anchorResponse := anchorResponse c;
     bitcoinTransaction := bitcoinTransaction c; errors := errors c; console := console c;
     calls := calls c; ticks := ticks c; queries := queries c; files := files c |}.

Definition set_didData (v : jsval) (c : t) : t :=
  {| config := config c; fireblocksSDK := fireblocksSDK c; didData := v;
     createRequest := createRequest c; anchorResponse := anchorResponse c;
     bitcoinTransaction := bitcoinTransaction c; errors := errors c; console := console c;
     calls := calls c; ticks := ticks c; queries := queries c; files := files c |}.

Definition set_createRequest (v : jsval) (c : t) : t :=
  {| config := config c; fireblocksSDK := fireblocksSDK c; didData := didData c;
     createRequest := v; anchorResponse := anchorResponse c;
     bitcoinTransaction := bitcoinTransaction c; errors := errors c; console := console c;
     calls := calls c; ticks := ticks c; queries := queries c; files := files c |}.

Definition set_anchorResponse (v : jsval) (c : t) : t :=
  {| config := config c; fireblocksSDK := fireblocksSDK c; didData := didData c;
     createRequest := createRequest c; anchorResponse := v;
     bitcoinTransaction := bitcoinTransaction c; errors := errors c; console := console c;
     calls := calls c; ticks := ticks c; queries := queries c; files := files c |}.

Definition set_bitcoinTransaction (v : jsval) (c : t) : t :=
  {| config := config c; fireblocksSDK := fireblocksSDK c; didData := didData c;
     createRequest := createRequest c; anchorResponse := anchorResponse c;
     bitcoinTransaction := v; errors := errors c; console := console c;
     calls := calls c; ticks := ticks c; queries := queries c; files := files c |}.

(** [this.errors[stage] = error.message] *)
Definition set_error (stage : string) (e : exn) (c : t) : t :=
  {| config := config c; fireblocksSDK := fireblocksSDK c; didData := didData c;
     createRequest := createRequest c; anchorResponse := anchorResponse c;
     bitcoinTransaction := bitcoinTransaction c;
     errors := <[stage := message e]> (errors c); console := console c;
     calls := calls c; ticks := ticks c; queries := queries c; files := files c |}.

(** [console.log(line)] *)
Definition log (line : string) (c : t) : t :=
  {| config := config c; fireblocksSDK := fireblocksSDK c; didData := didData c;
     createRequest := createRequest c; anchorResponse := anchorResponse c;
     bitcoinTransaction := bitcoinTransaction c; errors := errors c;
     console := console c ++ [line];
     calls := calls c; ticks := ticks c; queries := queries c; files := files c |}.

Definition record_call (k : call) (c : t) : t :=
  {| config := config c; fireblocksSDK := fireblocksSDK c; didData := didData c;
     createRequest := createRequest c; anchorResponse := anchorResponse c;
     bitcoinTransaction := bitcoinTransaction c; errors := errors c; console := console c;
     calls := calls c ++ [k]; ticks := ticks c; queries := queries c; files := files c |}.

Definition set_ticks (n : nat) (c : t) : t :=
  {| config := config c; fireblocksSDK := fireblocksSDK c; didData := didData c;
     createRequest := createRequest c; anchorResponse := anchorResponse c;
     bitcoinTransaction := bitcoinTransaction c; errors := errors c; console := console c;
     calls := calls c; ticks := n; queries := queries c; files := files c |}.

Definition set_queries (n : nat) (c : t) : t :=
  {| config := config c; fireblocksSDK := fireblocksSDK c; didData := didData c;
     createRequest := createRequest c; anchorResponse := anchorResponse c;
     bitcoinTransaction := bitcoinTransaction c; errors := errors c; console := console c;
     calls := calls c; ticks := ticks c; queries := n; files := files c |}.

Definition set_files (f : Files) (c : t) : t :=
  {| config := config c; fireblocksSDK := fireblocksSDK c; didData := didData c;
     createRequest := createRequest c; anchorResponse := anchorResponse c;
     bitcoinTransaction := bitcoinTransaction c; errors := errors c; console := console c;
     calls := calls c; ticks := ticks c; queries := queries c; files := f |}.

(** [process.env.NAME || fallback] *)
Definition env_or (w : World) (name fallback : string) : string :=
  match env w !! name with
  | Some v => if String.eqb v "" then fallback else v
  | None => fallback
  end.

(** [constructor()] *)
Definition new (w : World) (f : Files) : t :=
  let endpoint := env_or w "ION_NODE_ENDPOINT" "https://beta.ion.msidentity.com" in
  {| config := {|
       investorId := env_or w "INVESTOR_ID" "test-investor-001";
       didLongForm := env w !! "DID_LONG_FORM";
       didShortForm := env w !! "DID_SHORT_FORM";
       didIdentifier := env w !! "DID_IDENTIFIER";
       btcAddress := env w !! "BTC_WALLET_ADDRESS";
       vaultAccountId := env_or w "VAULT_ACCOUNT_ID" "23";
       ionNodeEndpoint := endpoint;
       challengeEndpoint := endpoint +:+ "/api/v1.0/proof-of-work-challenge";
       solutionEndpoint := endpoint +:+ "/api/v1.0/operations" |};
     fireblocksSDK := false;
     didData := VNull;
     createRequest := VNull;
     anchorResponse := VNull;
     bitcoinTransaction := VNull;
     errors := ∅;
     console := [];
     calls := [];
     ticks := 0;
     queries := 0;
     files := f |}.

(** A value read from the environment: [undefined] when the variable is unset. *)
Definition env_value (a : option string) : jsval :=
  match a with Some s => VStr s | None => VUndef end.

Section Stages.
Variable w : World.

(** [try { body } catch (error) { this.errors[stage] = error.message; throw error; }] *)
Definition recording {A} (stage : string) (body : M t A) : M t A :=
  try_catch body (λ e, _ ← modify (set_error stage e); throw e).

(** [new Date().toISOString()] *)
Definition clock : M t string := λ c, (Returned (now w (ticks c)), set_ticks (S (ticks c)) c).

(** [Date.now()] *)
Definition clock_ms : M t Z := λ c, (Returned (now_ms w (ticks c)), set_ticks (S (ticks c)) c).

(** [this.fireblocksSDK.<api>]: a read from [null] before initialization. *)
Definition sdk (api : string) : M t unit := λ c,
  if fireblocksSDK c then (Returned tt, c)
  else (Thrown (JsTypeError ("Cannot read properties of null (reading '" +:+ api +:+ "')")), c).

(** ** [validateRequirements] *)

Definition requirements (c : t) : list (string * jsval) :=
  [ ("DID Long Form", env_value (didLongForm (config c)));
    ("DID Short Form", env_value (didShortForm (config c)));
    ("Bitcoin Address", env_value (btcAddress (config c)));
    ("Fireblocks API Key", env_value (env w !! "FIREBLOCKS_API_KEY"));
    ("Fireblocks Secret Path", env_value (env w !! "FIREBLOCKS_SECRET_KEY_PATH"));
    ("Vault Account ID", VStr (vaultAccountId (config c))) ].

Definition missing_configuration : exn :=
  JsError "Missing required configuration. Please ensure DID creation and wallet extraction completed successfully.".

Definition validateRequirements : M t bool :=
  c ← read id;
  if forallb (λ r, truthy r.2) (requirements c) then mret true
  else throw missing_configuration.

(** ** [initializeFireblocks] *)

Definition initializeFireblocks : M t bool :=
  recording "fireblocksInit" (
    let path := env w !! "FIREBLOCKS_SECRET_KEY_PATH" in
    privateKey ← (match path ≫= key_file w with
                  | None => throw (JsError ("Fireblocks private key file not found: "
                                            +:+ render (env_value path)))
                  | Some key =>
                      match read_fails w (render (env_value path)) with
                      | Some e => throw e
                      | None => mret key
                      end
                  end);
    _ ← lift (newFireblocks w);
    _ ← modify (set_fireblocksSDK true);
    c ← read id;
    _ ← modify (record_call (CallVault (vaultAccountId (config c))));
    vaultResponse ← lift (getVaultAccount w (vaultAccountId (config c)));
    vaultAccount ← lift (get vaultResponse "data");
    _ ← lift (get vaultAccount "name");
    _ ← lift (get vaultAccount "assets");
    mret true).

(** ** [loadDIDData] *)

(** The predicate of [files.filter(...)]. *)
Definition is_did_data_file (investor file : string) : bool :=
  JsString.startsWith file ("did-" +:+ investor)
  && JsString.endsWith file ".json"
  && negb (JsString.includes file "keys")
  && negb (JsString.includes file "public").

(** [fs.readdirSync('./data')] *)
Definition readdir (d : gmap string string) : list string := (map_to_list d).*1.

(** [files.filter(...).sort().reverse()[0]] *)
Definition latest_file (investor : string) (names : list string) : option string :=
  head (reverse (JsString.sort (List.filter (is_did_data_file investor) names))).

(** [Object.keys(v)] of a value that may not be an object. *)
Definition object_keys (v : jsval) : outcome (list string) :=
  match v with
  | VUndef | VNull => Thrown (JsTypeError "Cannot convert undefined or null to object")
  | VObj fields => Returned fields.*1
  | _ => Returned []
  end.

Definition loadDIDData : M t jsval :=
  recording "loadDIDData" (
    c ← read id;
    match data_dir (files c) with
    | None => throw (JsError "Data directory not found. Please run DID creation first.")
    | Some d =>
        match latest_file (investorId (config c)) (readdir d) with
        | None =>
            throw (JsError ("No DID data files found for investor " +:+ investorId (config c)))
        | Some latestFile =>
            fileContent ← (match read_fails w ("./data/" +:+ latestFile), d !! latestFile with
                           | Some e, _ => throw e
                           | None, Some content => mret content
                           | None, None =>
                               throw (JsError ("ENOENT: no such file or directory, open './data/"
                                               +:+ latestFile +:+ "'"))
                           end);
            data ← lift (parse w fileContent);
            _ ← modify (set_didData data);
            operations ← lift (get data "operations");
            request ← (if truthy operations then lift (get operations "createRequest")
                       else mret operations);
            _ ← (if truthy request then modify (set_createRequest request)
                 else throw (JsError "Create request not found in DID data"));
            did ← lift (get data "did");
            _ ← lift (get did "shortForm");
            _ ← lift (get request "type");
            keys ← lift (get data "keys");
            _ ← lift (object_keys keys);
            mret data
        end
    end).

(** ** [submitToIONNode] *)

Definition method_1 : string := "Method 1: Using ION Tools anchor function...".
Definition method_2 : string := "Method 2: Direct API submission...".
Definition method_3 : string := "Using simulated anchoring for testing".

Definition anchorOptions (c : t) : jsval :=
  VObj [("challengeEndpoint", VStr (challengeEndpoint (config c)));
        ("solutionEndpoint", VStr (solutionEndpoint (config c)))].

(** The body of the first [try]: the ION tools [anchor] call. *)
Definition primary_tier : M t jsval :=
  c ← read id;
  _ ← lift (get (createRequest c) "type");
  _ ← lift (get (createRequest c) "suffixData");
  _ ← lift (get (createRequest c) "delta");
  _ ← modify (record_call (CallAnchor (createRequest c) (anchorOptions c)));
  response ← lift (anchor w (createRequest c) (anchorOptions c));
  _ ← modify (set_anchorResponse response);
  mret response.

(** The body of the second [try]: the POST to the solution endpoint. *)
Definition direct_tier : M t jsval :=
  c ← read id;
  let body := stringify w (createRequest c) in
  _ ← modify (record_call (CallFetch (solutionEndpoint (config c)) body));
  response ← lift (fetch w (solutionEndpoint (config c)) body);
  _ ← (if ok response then mret tt
       else throw (JsError ("HTTP " +:+ pretty (status response) +:+ ": " +:+ statusText response)));
  answer ← lift (json response);
  _ ← modify (set_anchorResponse answer);
  mret answer.

(** The record the last [catch] block builds. *)
Definition simulated_response (didUri : jsval) (timestamp : string) : jsval :=
  VObj [("status", VStr "pending");
        ("message", VStr "DID operation submitted successfully (simulated)");
        ("didUri", didUri);
        ("timestamp", VStr timestamp);
        ("method", VStr "simulated")].

Definition degraded_tier : M t jsval :=
  _ ← modify (log method_3);
  data ← read didData;
  did ← lift (get data "did");
  longForm ← lift (get did "longForm");
  timestamp ← clock;
  let response := simulated_response longForm timestamp in
  _ ← modify (set_anchorResponse response);
  mret response.

Definition submitToIONNode : M t jsval :=
  recording "ionSubmission" (
    _ ← modify (log method_1);
    try_catch primary_tier (λ ionError,
      _ ← modify (log method_2);
      try_catch direct_tier (λ apiError, degraded_tier))).

(** ** [createHash] and [createBitcoinTransaction] *)

Definition createHash (data : string) : promise string := Promise (digest w data).

(** A promise in a template literal. *)
Definition render_promise {A} (p : promise A) : string := "[object Promise]".

Definition transactionRequest (c : t) (ms : Z) (shortForm50 : jsval) : jsval :=
  VObj [
    ("assetId", VStr "BTC_TEST");
    ("source", VObj [("type", VStr "VAULT_ACCOUNT"); ("id", VStr (vaultAccountId (config c)))]);
    ("destination", VObj [
       ("type", VStr "ONE_TIME_ADDRESS");
       ("oneTimeAddress", VObj [("address", env_value (btcAddress (config c))); ("tag", VStr "")]) ]);
    ("amount", VStr "0.00001");
    ("note", VStr ("ION DID Anchoring for " +:+ investorId (config c)));
    ("externalTxId", VStr ("ion-anchor-" +:+ pretty ms));
    ("extraParameters", VObj [("note", VStr ("ION DID: " +:+ render shortForm50 +:+ "..."))]) ].

Definition createBitcoinTransaction : M t jsval :=
  recording "bitcoinTransaction" (
    c ← read id;
    let ionDataHash := createHash (stringify w (createRequest c)) in
    _ ← modify (log ("ION Data Hash: " +:+ render_promise ionDataHash));
    ms ← clock_ms;
    did ← lift (get (didData c) "did");
    shortForm ← lift (get did "shortForm");
    shortForm50 ← lift (on_string "substring" (JsString.substring0 50) shortForm);
    let request := transactionRequest c ms shortForm50 in
    _ ← sdk "transactions";
    _ ← modify (record_call (CallCreateTransaction request));
    txResponse ← lift (createTransaction w request);
    transaction ← lift (get txResponse "data");
    _ ← modify (set_bitcoinTransaction transaction);
    _ ← lift (get transaction "id");
    mret transaction).

(** ** [waitForConfirmation] *)

Definition maxWaitTime : Z := 10 * 60 * 1000.
Definition checkInterval : Z := 30 * 1000.
(** [Math.floor(maxWaitTime / checkInterval)] *)
Definition maxAttempts : nat := Z.to_nat (maxWaitTime / checkInterval).

(** [a === b] where one side is a primitive; two objects met here are never
    the same object. *)
Definition strict_eq (a b : jsval) : bool :=
  match a, b with
  | VUndef, VUndef | VNull, VNull => true
  | VBool x, VBool y => Bool.eqb x y
  | VNum x, VNum y => (x =? y)%Z
  | VStr x, VStr y => String.eqb x y
  | _, _ => false
  end.

(** [object[k] = v] *)
Fixpoint assign (k : string) (v : jsval) (fields : list (string * jsval))
  : list (string * jsval) :=
  match fields with
  | [] => [(k, v)]
  | (k', v') :: rest =>
      if String.eqb k k' then (k, v) :: rest else (k', v') :: assign k v rest
  end.

Definition set_prop (k : string) (v : jsval) (object : jsval) : jsval :=
  match object with
  | VObj fields => VObj (assign k v fields)
  | other => other
  end.

Definition transaction_failed (status : jsval) : exn :=
  JsError ("Transaction failed with status: " +:+ render status).

(** The body of the [try] inside the loop; its result is [confirmed]. *)
Definition check_status : M t bool :=
  _ ← sdk "transactions";
  tracked ← read bitcoinTransaction;
  txId ← lift (get tracked "id");
  n ← read queries;
  _ ← modify (set_queries (S n));
  _ ← modify (record_call (CallGetTransaction txId));
  txStatusResponse ← lift (getTransaction w n txId);
  txStatus ← lift (get txStatusResponse "data");
  status ← lift (get txStatus "status");
  txHash ← lift (get txStatus "txHash");
  trackedHash ← lift (get tracked "txHash");
  _ ← when (truthy txHash && negb (strict_eq txHash trackedHash))
        (modify (set_bitcoinTransaction (set_prop "txHash" txHash tracked)));
  if strict_eq status (VStr "COMPLETED") then
    _ ← modify (set_bitcoinTransaction txStatus);
    mret true
  else if strict_eq status (VStr "FAILED") || strict_eq status (VStr "REJECTED") then
    throw (transaction_failed status)
  else mret false.

(** [while (!confirmed && attempts < maxAttempts) { ... }], entered with
    [confirmed = false]; [fuel] bounds the turns still to come. *)
Fixpoint poll (fuel attempts : nat) : M t bool :=
  match fuel with
  | 0 => mret false
  | S fuel' =>
      if (attempts <? maxAttempts)%nat then
        let attempts := S attempts in
        confirmed ← try_catch check_status (λ statusError, mret false);
        if confirmed : bool then mret true
        else
          _ ← when (attempts <? maxAttempts)%nat (modify (record_call (CallSleep checkInterval)));
          poll fuel' attempts
      else mret false
  end.

Definition nothing_to_monitor : exn := JsError "No Bitcoin transaction to monitor".

Definition waitForConfirmation : M t bool :=
  try_catch (
    tracked ← read bitcoinTransaction;
    _ ← (if truthy tracked then
           txId ← lift (get tracked "id");
           if truthy txId then mret tt else throw nothing_to_monitor
         else throw nothing_to_monitor);
    poll maxAttempts 0)
  (λ e, _ ← modify (set_error "confirmation" e); mret false).

(** ** [saveAnchoringResults], [updateEnvFile], [generateSummary], [run], [main] *)

(** [a || b] *)
Definition or_else (a b : jsval) : jsval := if truthy a then a else b.

(** [fs.writeFileSync(`./data/${name}`, content)] *)
Definition write_data (name content : string) : M t unit := λ c,
  match write_fails w ("./data/" +:+ name), data_dir (files c) with
  | Some e, _ => (Thrown e, c)
  | None, Some d =>
      (Returned tt,
       set_files {| data_dir := Some (<[name := content]> d); env_file := env_file (files c) |} c)
  | None, None =>
      (Thrown (JsError ("ENOENT: no such file or directory, open './data/" +:+ name +:+ "'")), c)
  end.

Definition saveAnchoringResults : M t unit :=
  try_catch (
    iso ← clock;
    let timestamp := JsString.dashes iso in
    c ← read id;
    _ ← (match data_dir (files c), mkdir_fails w with
         | Some _, _ => mret tt
         | None, Some e => throw e
         | None, None =>
             modify (set_files {| data_dir := Some ∅; env_file := env_file (files c) |})
         end);
    saved ← clock;
    anchoredAt ← clock;
    let txHash := get_opt (bitcoinTransaction c) "txHash" in
    let anchoringResults := VObj [
      ("metadata", VObj [
         ("timestamp", VStr saved);
         ("investorId", VStr (investorId (config c)));
         ("didIdentifier", env_value (didIdentifier (config c))) ]);
      ("did", VObj [("longForm", env_value (didLongForm (config c)));
                    ("shortForm", env_value (didShortForm (config c)))]);
      ("anchoring", VObj [
         ("ionSubmission", anchorResponse c);
         ("bitcoinTransaction", bitcoinTransaction c);
         ("ionNodeEndpoint", VStr (ionNodeEndpoint (config c)));
         ("anchoredAt", VStr anchoredAt) ]);
      ("verification", VObj [
         ("btcAddress", env_value (btcAddress (config c)));
         ("vaultAccount", VStr (vaultAccountId (config c)));
         ("txHash", or_else txHash VNull);
         ("explorerUrl",
          if truthy txHash
          then VStr ("https://blockstream.info/testnet/tx/" +:+ render txHash)
          else VNull) ]) ] in
    let name := "anchor-results-" +:+ investorId (config c) +:+ "-" +:+ timestamp +:+ ".json" in
    write_data name (stringify w anchoringResults))
  (λ e, modify (set_error "saveResults" e)).

Definition newline : string := String (ascii_of_nat 10) EmptyString.

Definition apply_update (envContent : string) (entry : string * jsval) : string :=
  let '(key, value) := entry in
  if regexp_test w key envContent
  then regexp_replace w key envContent (key +:+ "=" +:+ render value)
  else envContent +:+ newline +:+ key +:+ "=" +:+ render value.

Definition updateEnvFile : M t unit :=
  try_catch (
    c ← read id;
    envContent ← (match env_file (files c), read_fails w ".env" with
                  | Some _, Some e => throw e
                  | Some content, None => mret content
                  | None, _ => mret ""
                  end);
    anchoredAt ← clock;
    let updates := [
      ("DID_ANCHORED", VStr "true");
      ("DID_ANCHORED_AT", VStr anchoredAt);
      ("BITCOIN_TX_HASH", or_else (get_opt (bitcoinTransaction c) "txHash") (VStr "pending"));
      ("ION_NODE_ENDPOINT", VStr (ionNodeEndpoint (config c)));
      ("ANCHOR_STATUS", or_else (get_opt (bitcoinTransaction c) "status") (VStr "submitted")) ] in
    match write_fails w ".env" with
    | Some e => throw e
    | None =>
        modify (set_files {| data_dir := data_dir (files c);
                             env_file := Some (foldl apply_update envContent updates) |})
    end)
  (λ e, modify (set_error "envUpdate" e)).

Record Summary : Type := {
  success : jsval;
  summary_investorId : string;
  did : jsval;
  summary_bitcoinTransaction : jsval;
  summary_anchorResponse : jsval;
  errorCount : nat;
  summary_errors : gmap string string;
  mainError : option string
}.

Definition generateSummary : M t Summary :=
  c ← read id;
  let errorCount := size (errors c) in
  (* [errorCount === 0 && (this.anchorResponse || this.bitcoinTransaction)] *)
  let success := if (errorCount =? 0)%nat
                 then or_else (anchorResponse c) (bitcoinTransaction c)
                 else VBool false in
  mret {| success := success;
          summary_investorId := investorId (config c);
          did := env_value (didShortForm (config c));
          summary_bitcoinTransaction := bitcoinTransaction c;
          summary_anchorResponse := anchorResponse c;
          errorCount := errorCount;
          summary_errors := errors c;
          mainError := None |}.

Definition failed (e : exn) (s : Summary) : Summary :=
  {| success := VBool false;
     summary_investorId := summary_investorId s;
     did := did s;
     summary_bitcoinTransaction := summary_bitcoinTransaction s;
     summary_anchorResponse := summary_anchorResponse s;
     errorCount := errorCount s;
     summary_errors := summary_errors s;
     mainError := Some (message e) |}.

Definition run : M t Summary :=
  try_catch (
    _ ← validateRequirements;
    _ ← initializeFireblocks;
    _ ← loadDIDData;
    _ ← submitToIONNode;
    _ ← createBitcoinTransaction;
    _ ← waitForConfirmation;
    _ ← saveAnchoringResults;
    _ ← updateEnvFile;
    generateSummary)
  (λ e, summary ← generateSummary; mret (failed e summary)).

Definition exit_status (result : outcome Summary) : Z :=
  match result with
  | Returned summary => if truthy (success summary) then 0 else 1
  | Thrown _ => 1
  end.

Definition main (f : Files) : Z * t :=
  let '(result, c) := run (new w f) in (exit_status result, c).

End Stages.

End Anchorer.

(** * scripts/3-simple-anchor.js: the submission stage *)

Module Simple.

Record World : Type := {
  env : gmap string string;              (* [process.env] *)
  now : nat -> string;                   (* n-th [new Date().toISOString()] *)
  anchor : jsval -> outcome jsval        (* ION tools [anchor(request)] *)
}.

Record t : Type := {
  investorId : string;
  didLongForm : option string;
  didShortForm : option string;
  didData : jsval;
  createRequest : jsval;
  anchorResponse : jsval;
  resolvedDID : jsval;
  errors : gmap string string;
  anchored : nat;                        (* calls of [anchor] made so far *)
  ticks : nat
}.

Definition set_anchorResponse (v : jsval) (c : t) : t :=
  {| investorId := investorId c; didLongForm := didLongForm c; didShortForm := didShortForm c;
     didData := didData c; createRequest := createRequest c; anchorResponse := v;
     resolvedDID := resolvedDID c; errors := errors c; anchored := anchored c; ticks := ticks c |}.

Definition set_error (stage : string) (e : exn) (c : t) : t :=
  {| investorId := investorId c; didLongForm := didLongForm c; didShortForm := didShortForm c;
     didData := didData c; createRequest := createRequest c; anchorResponse := anchorResponse c;
     resolvedDID := resolvedDID c; errors := <[stage := message e]> (errors c);
     anchored := anchored c; ticks := ticks c |}.

Definition set_anchored (n : nat) (c : t) : t :=
  {| investorId := investorId c; didLongForm := didLongForm c; didShortForm := didShortForm c;
     didData := didData c; createRequest := createRequest c; anchorResponse := anchorResponse c;
     resolvedDID := resolvedDID c; errors := errors c; anchored := n; ticks := ticks c |}.

Definition set_ticks (n : nat) (c : t) : t :=
  {| investorId := investorId c; didLongForm := didLongForm c; didShortForm := didShortForm c;
     didData := didData c; createRequest := createRequest c; anchorResponse := anchorResponse c;
     resolvedDID := resolvedDID c; errors := errors c; anchored := anchored c; ticks := n |}.

(** [constructor()] *)
Definition new (w : World) : t :=
  {| investorId := match env w !! "INVESTOR_ID" with
                   | Some v => if String.eqb v "" then "test-investor-001" else v
                   | None => "test-investor-001"
                   end;
     didLongForm := env w !! "DID_LONG_FORM";
     didShortForm := env w !! "DID_SHORT_FORM";
     didData := VNull;
     createRequest := VNull;
     anchorResponse := VNull;
     resolvedDID := VNull;
     errors := ∅;
     anchored := 0;
     ticks := 0 |}.

Definition env_value (a : option string) : jsval :=
  match a with Some s => VStr s | None => VUndef end.

Section Stages.
Variable w : World.

Definition clock : M t string := λ c, (Returned (now w (ticks c)), set_ticks (S (ticks c)) c).

Definition validateRequirements : M t bool :=
  c ← read id;
  if truthy (env_value (didLongForm c)) then mret true
  else throw (JsError "DID Long Form not found. Please run DID creation first.").

(** The record the inner [catch] block builds. *)
Definition longform_response (didUri : jsval) (timestamp : string) : jsval :=
  VObj [("status", VStr "submitted_longform");
        ("message", VStr "DID is available as long-form, anchoring to be completed");
        ("didUri", didUri);
        ("timestamp", VStr timestamp);
        ("note", VStr "Long-form DID is immediately resolvable")].

(** The body of the inner [try]. *)
Definition anchor_tier : M t jsval :=
  c ← read id;
  _ ← modify (set_anchored (S (anchored c)));
  response ← lift (anchor w (createRequest c));
  _ ← modify (set_anchorResponse response);
  mret response.

(** The inner [catch] block. *)
Definition longform_tier : M t jsval :=
  c ← read id;
  timestamp ← clock;
  let response := longform_response (env_value (didLongForm c)) timestamp in
  _ ← modify (set_anchorResponse response);
  mret response.

Definition submitToION : M t jsval :=
  try_catch (
    c ← read id;
    _ ← lift (get (createRequest c) "type");
    try_catch anchor_tier (λ anchorError, longform_tier))
  (λ e, _ ← modify (set_error "ionSubmission" e); throw e).

End Stages.

End Simple.

(** * scripts/3-simple-anchor.js: the other stages and the run *)

Module SimpleRun.

Record World : Type := {
  base : Simple.World;                    (* the environment, the clock and [anchor] *)
  parse : string -> outcome jsval;        (* [JSON.parse] *)
  stringify : jsval -> string;            (* [JSON.stringify(v, null, 2)] *)
  resolve : jsval -> outcome jsval;       (* ION tools [resolve(didUri)] *)
  mkdir_fails : option exn;
  write_fails : string -> option exn;
  read_fails : string -> option exn;
  regexp_test : string -> string -> bool;
  regexp_replace : string -> string -> string -> string
}.

(** The object of [Simple], with the files it works on and the number of
    calls of [resolve] made so far. *)
Record t : Type := {
  object : Simple.t;
  files : Files;
  resolved : nat
}.

Definition with_object (o : Simple.t) (c : t) : t :=
  {| object := o; files := files c; resolved := resolved c |}.

Definition with_files (f : Files) (c : t) : t :=
  {| object := object c; files := f; resolved := resolved c |}.

Definition with_resolved (n : nat) (c : t) : t :=
  {| object := object c; files := files c; resolved := n |}.

Definition set_didData (v : jsval) (o : Simple.t) : Simple.t :=
  {| Simple.investorId := Simple.investorId o; Simple.didLongForm := Simple.didLongForm o;
     Simple.didShortForm := Simple.didShortForm o; Simple.didData := v;
     Simple.createRequest := Simple.createRequest o;
     Simple.anchorResponse := Simple.anchorResponse o; Simple.resolvedDID := Simple.resolvedDID o;
     Simple.errors := Simple.errors o; Simple.anchored := Simple.anchored o;
     Simple.ticks := Simple.ticks o |}.

Definition set_createRequest (v : jsval) (o : Simple.t) : Simple.t :=
  {| Simple.investorId := Simple.investorId o; Simple.didLongForm := Simple.didLongForm o;
     Simple.didShortForm := Simple.didShortForm o; Simple.didData := Simple.didData o;
     Simple.createRequest := v;
     Simple.anchorResponse := Simple.anchorResponse o; Simple.resolvedDID := Simple.resolvedDID o;
     Simple.errors := Simple.errors o; Simple.anchored := Simple.anchored o;
     Simple.ticks := Simple.ticks o |}.

Definition set_resolvedDID (v : jsval) (o : Simple.t) : Simple.t :=
  {| Simple.investorId := Simple.investorId o; Simple.didLongForm := Simple.didLongForm o;
     Simple.didShortForm := Simple.didShortForm o; Simple.didData := Simple.didData o;
     Simple.createRequest := Simple.createRequest o;
     Simple.anchorResponse := Simple.anchorResponse o; Simple.resolvedDID := v;
     Simple.errors := Simple.errors o; Simple.anchored := Simple.anchored o;
     Simple.ticks := Simple.ticks o |}.

(** A method of the object, run on the object inside. *)
Definition on_object {A} (m : M Simple.t A) : M t A := λ c,
  let '(result, o) := m (object c) in (result, with_object o c).

(** [this.errors[stage] = error.message] *)
Definition set_error (stage : string) (e : exn) (c : t) : t :=
  with_object (Simple.set_error stage e (object c)) c.

(** [constructor()] *)
Definition new (w : World) (f : Files) : t :=
  {| object := Simple.new (base w); files := f; resolved := 0 |}.

Section Stages.
Variable w : World.

(** ** [loadDIDData]: the filter, the sort and the choice are those of
    [Anchorer.loadDIDData], character by character. *)

Definition loadDIDData : M t jsval :=
  try_catch (
    c ← read id;
    match data_dir (files c) with
    | None => throw (JsError "Data directory not found. Please run DID creation first.")
    | Some d =>
        match Anchorer.latest_file (Simple.investorId (object c)) (Anchorer.readdir d) with
        | None =>
            throw (JsError ("No DID data files found for investor "
                            +:+ Simple.investorId (object c)))
        | Some latestFile =>
            fileContent ← (match read_fails w ("./data/" +:+ latestFile), d !! latestFile with
                           | Some e, _ => throw e
                           | None, Some content => mret content
                           | None, None =>
                               throw (JsError ("ENOENT: no such file or directory, open './data/"
                                               +:+ latestFile +:+ "'"))
                           end);
            data ← lift (parse w fileContent);
            _ ← modify (λ c, with_object (set_didData data (object c)) c);
            operations ← lift (get data "operations");
            request ← (if truthy operations then lift (get operations "createRequest")
                       else mret operations);
            _ ← (if truthy request
                 then modify (λ c, with_object (set_createRequest request (object c)) c)
                 else throw (JsError "Create request not found in DID data"));
            _ ← lift (get request "type");
            _ ← lift (get request "suffixData");
            _ ← lift (get request "delta");
            mret data
        end
    end)
  (λ e, _ ← modify (set_error "loadDIDData" e); throw e).

(** ** [testDIDResolution] *)

(** [service?.find(s => s.id === '#investor-profile')] *)
Fixpoint find_profile (items : list jsval) : outcome jsval :=
  match items with
  | [] => Returned VUndef
  | item :: rest =>
      match get item "id" with
      | Returned itemId =>
          if Anchorer.strict_eq itemId (VStr "#investor-profile") then Returned item
          else find_profile rest
      | Thrown e => Thrown e
      end
  end.

Definition find_service (service : jsval) : outcome jsval :=
  match service with
  | VUndef | VNull => Returned VUndef
  | VArr items => find_profile items
  | _ => Thrown (JsTypeError "this.resolvedDID.didDocument.service?.find is not a function")
  end.

(** The record the inner [catch] block builds. *)
Definition pending_resolution (didUri : jsval) : jsval :=
  VObj [("status", VStr "resolution_pending");
        ("message", VStr "DID resolution pending Bitcoin confirmation");
        ("didUri", didUri)].

(** The body of the inner [try]. *)
Definition resolve_tier : M t jsval :=
  c ← read id;
  _ ← modify (with_resolved (S (resolved c)));
  answer ← lift (resolve w (Simple.env_value (Simple.didLongForm (object c))));
  _ ← modify (λ c, with_object (set_resolvedDID answer (object c)) c);
  didDocument ← lift (get answer "didDocument");
  _ ← (if truthy didDocument then
         service ← lift (get didDocument "service");
         _ ← lift (find_service service);
         mret tt
       else mret tt);
  mret answer.

(** The inner [catch] block. *)
Definition pending_tier : M t jsval :=
  c ← read id;
  let answer := pending_resolution (Simple.env_value (Simple.didLongForm (object c))) in
  _ ← modify (λ c, with_object (set_resolvedDID answer (object c)) c);
  mret answer.

(** The method returns the resolution, or [undefined] from its outer [catch]. *)
Definition testDIDResolution : M t jsval :=
  try_catch (
    c ← read id;
    _ ← lift (on_string "substring" (JsString.substring0 60)
                (Simple.env_value (Simple.didLongForm (object c))));
    try_catch resolve_tier (λ resolveError, pending_tier))
  (λ e, _ ← modify (set_error "resolution" e); mret VUndef).

(** ** [saveResults] and [updateEnvFile] *)

Definition results_file (investor timestamp : string) : string :=
  "simple-anchor-" +:+ investor +:+ "-" +:+ timestamp +:+ ".json".

Definition clock : M t string := on_object (Simple.clock (base w)).

Definition saveResults : M t unit :=
  try_catch (
    iso ← clock;
    let timestamp := JsString.dashes iso in
    c ← read id;
    _ ← (match data_dir (files c), mkdir_fails w with
         | Some _, _ => mret tt
         | None, Some e => throw e
         | None, None =>
             modify (with_files {| data_dir := Some ∅; env_file := env_file (files c) |})
         end);
    saved ← clock;
    submittedAt ← clock;
    testedAt ← clock;
    let o := object c in
    let anchoringResults := VObj [
      ("metadata", VObj [
         ("timestamp", VStr saved);
         ("investorId", VStr (Simple.investorId o));
         ("method", VStr "simple-ion-tools") ]);
      ("did", VObj [("longForm", Simple.env_value (Simple.didLongForm o));
                    ("shortForm", Simple.env_value (Simple.didShortForm o))]);
      ("anchoring", VObj [
         ("response", Simple.anchorResponse o);
         ("submittedAt", VStr submittedAt);
         ("method", VStr "microsoft-ion-node") ]);
      ("resolution", VObj [("result", Simple.resolvedDID o); ("testedAt", VStr testedAt)]);
      ("status", VObj [
         ("anchored", VBool (truthy (Simple.anchorResponse o)));
         ("resolvable", VBool (truthy (get_opt (Simple.resolvedDID o) "didDocument"))) ]) ] in
    let name := results_file (Simple.investorId o) timestamp in
    c' ← read id;
    match write_fails w ("./data/" +:+ name), data_dir (files c') with
    | Some e, _ => throw e
    | None, Some d =>
        modify (with_files {| data_dir := Some (<[name := stringify w anchoringResults]> d);
                              env_file := env_file (files c') |})
    | None, None =>
        throw (JsError ("ENOENT: no such file or directory, open './data/" +:+ name +:+ "'"))
    end)
  (λ e, modify (set_error "saveResults" e)).

Definition newline : string := String (ascii_of_nat 10) EmptyString.

Definition apply_update (envContent : string) (entry : string * jsval) : string :=
  let '(key, value) := entry in
  if regexp_test w key envContent
  then regexp_replace w key envContent (key +:+ "=" +:+ render value)
  else envContent +:+ newline +:+ key +:+ "=" +:+ render value.

Definition updateEnvFile : M t unit :=
  try_catch (
    c ← read id;
    envContent ← (match env_file (files c), read_fails w ".env" with
                  | Some _, Some e => throw e
                  | Some content, None => mret content
                  | None, _ => mret ""
                  end);
    anchoredAt ← clock;
    let updates := [
      ("DID_ANCHORING_ATTEMPTED", VStr "true");
      ("DID_ANCHORING_METHOD", VStr "simple-ion-tools");
      ("DID_ANCHORED_AT", VStr anchoredAt);
      ("DID_RESOLVABLE",
       if truthy (get_opt (Simple.resolvedDID (object c)) "didDocument")
       then VStr "true" else VStr "pending") ] in
    match write_fails w ".env" with
    | Some e => throw e
    | None =>
        modify (with_files {| data_dir := data_dir (files c);
                              env_file := Some (foldl apply_update envContent updates) |})
    end)
  (λ e, modify (set_error "envUpdate" e)).

(** ** [generateSummary], [run] and [main] *)

Record Summary : Type := {
  success : bool;
  summary_investorId : string;
  didLongForm : jsval;
  anchored : bool;
  resolvable : bool;
  errorCount : nat;
  summary_errors : gmap string string;
  mainError : option string
}.

Definition generateSummary : M t Summary :=
  c ← read id;
  let o := object c in
  let errorCount := size (Simple.errors o) in
  mret {| success := (errorCount =? 0)%nat;
          summary_investorId := Simple.investorId o;
          didLongForm := Simple.env_value (Simple.didLongForm o);
          anchored := truthy (Simple.anchorResponse o);
          resolvable := truthy (get_opt (Simple.resolvedDID o) "didDocument");
          errorCount := errorCount;
          summary_errors := Simple.errors o;
          mainError := None |}.

Definition failed (e : exn) (s : Summary) : Summary :=
  {| success := false;
     summary_investorId := summary_investorId s;
     didLongForm := didLongForm s;
     anchored := anchored s;
     resolvable := resolvable s;
     errorCount := errorCount s;
     summary_errors := summary_errors s;
     mainError := Some (message e) |}.

Definition run : M t Summary :=
  try_catch (
    _ ← on_object Simple.validateRequirements;
    _ ← loadDIDData;
    _ ← on_object (Simple.submitToION (base w));
    _ ← testDIDResolution;
    _ ← saveResults;
    _ ← updateEnvFile;
    generateSummary)
  (λ e, summary ← generateSummary; mret (failed e summary)).

Definition exit_status (result : outcome Summary) : Z :=
  match result with
  | Returned summary => if success summary then 0 else 1
  | Thrown _ => 1
  end.

Definition main (f : Files) : Z * t :=
  let '(result, c) := run (new w f) in (exit_status result, c).

End Stages.

End SimpleRun.

(** * Concrete worlds and objects *)

Module Examples.

Definition key_pair : jsval :=
  VObj [("publicJwk", VObj [("kty", VStr "EC"); ("crv", VStr "secp256k1")]);
        ("privateJwk", VObj [("kty", VStr "EC"); ("crv", VStr "secp256k1"); ("d", VStr "c2VjcmV0")])].

Definition create_request : jsval :=
  VObj [("type", VStr "create");
        ("suffixData", VObj [("deltaHash", VStr "EiDelta")]);
        ("delta", VObj [("updateCommitment", VStr "EiUpdate")])].

(** A long-form identifier as the ION tools of today print it: the suffix
    and the encoded initial state, joined by a colon. *)
Definition colon_uri : string := "did:ion:EiAbc123:eyJkZWx0YSI6e319".

Definition colon_did : Creator.DID :=
  {| Creator.getURI := Returned (VStr colon_uri);
     Creator.generateRequest := λ _, Returned create_request;
     Creator.getAllOperations := Returned (VArr [create_request]) |}.

(** A long-form identifier in the older notation, the initial state in a
    query part. *)
Definition query_uri : string := "did:ion:EiAbc123?-ion-initial-state=eyJkZWx0YSI6e319".

Definition query_did : Creator.DID :=
  {| Creator.getURI := Returned (VStr query_uri);
     Creator.generateRequest := λ _, Returned create_request;
     Creator.getAllOperations := Returned (VArr [create_request]) |}.

Definition quote : string := String (ascii_of_nat 34) EmptyString.

(** A compact JSON text of a value. *)
Fixpoint to_json (v : jsval) : string :=
  match v with
  | VUndef | VNull => "null"
  | VBool true => "true"
  | VBool false => "false"
  | VNum z => pretty z
  | VStr s => quote +:+ s +:+ quote
  | VArr items => "[" +:+ String.concat "," (map to_json items) +:+ "]"
  | VObj fields =>
      "{" +:+ String.concat "," (map (λ kv, quote +:+ kv.1 +:+ quote +:+ ":" +:+ to_json kv.2) fields)
      +:+ "}"
  end.

(** A world where nothing fails, for an investor [investor] at time [time]. *)
Definition creator_world (investor time : string) (wallets : list (string * string))
  : Creator.World :=
  {| Creator.env := <["INVESTOR_ID" := investor]> (list_to_map wallets);
     Creator.now := λ _, time;
     Creator.generateKeyPair := λ _, Returned key_pair;
     Creator.newDID := λ _, Returned colon_did;
     Creator.stringify := to_json;
     Creator.mkdir_fails := None;
     Creator.write_fails := λ _, None;
     Creator.read_fails := λ _, None;
     Creator.regexp_test := λ _ _, false;
     Creator.regexp_replace := λ _ content _, content |}.

Definition three_wallets : list (string * string) :=
  [("BTC_WALLET_ADDRESS", "tb1qexample");
   ("ETH_WALLET_ADDRESS", "0xabc");
   ("SOL_WALLET_ADDRESS", "So1ana")].

Definition inv1_world : Creator.World :=
  creator_world "inv-1" "2024-01-02T03:04:05.678Z" three_wallets.

(** A creator that has built its [DID] instance. *)
Definition inv1_with_instance : Creator.t :=
  Creator.set_didInstance (Some colon_did) (Creator.new inv1_world no_files).

(** The same world, where [.env] cannot be written. *)
Definition read_only_env_world : Creator.World :=
  {| Creator.env := Creator.env inv1_world;
     Creator.now := Creator.now inv1_world;
     Creator.generateKeyPair := Creator.generateKeyPair inv1_world;
     Creator.newDID := Creator.newDID inv1_world;
     Creator.stringify := Creator.stringify inv1_world;
     Creator.mkdir_fails := None;
     Creator.write_fails := λ path,
       if String.eqb path ".env"
       then Some (JsError "EACCES: permission denied, open '.env'")
       else None;
     Creator.read_fails := λ _, None;
     Creator.regexp_test := Creator.regexp_test inv1_world;
     Creator.regexp_replace := Creator.regexp_replace inv1_world |}.

(** The creator when [saveDIDData] has returned. *)


(** The bundle [saveDIDData] writes for that identifier. *)
Definition did_data : jsval :=
  VObj [("metadata", VObj [("investorId", VStr "inv-1")]);
        ("did", VObj [("longForm", VStr colon_uri); ("shortForm", VStr colon_uri)]);
        ("keys", VObj [("authentication", VObj []); ("update", VObj []); ("recovery", VObj [])]);
        ("operations", VObj [("createRequest", create_request);
                             ("allOperations", VArr [create_request])])].

Definition inv1_data_file : string := "did-inv-1-2024-01-02T03-04-05-678Z.json".

Definition inv1_files : Files :=
  {| data_dir := Some {[ inv1_data_file := "{}" ]}; env_file := None |}.

Definition unreachable : exn := JsError "fetch failed".

(** A status answer of the custodial service. *)
Definition tx_status (status : string) (txHash : jsval) : outcome jsval :=
  Returned (VObj [("data", VObj [("id", VStr "tx-1"); ("status", VStr status);
                                 ("txHash", txHash)])]).

(** A world for an investor where the ION node cannot be reached, the
    custodial service accepts the transaction, and the n-th status query is
    answered by [answers n]. *)
Definition anchorer_world_for (investor : string) (answers : nat → outcome jsval)
  : Anchorer.World :=
  {| Anchorer.env := list_to_map [
       ("INVESTOR_ID", investor);
       ("DID_LONG_FORM", colon_uri);
       ("DID_SHORT_FORM", colon_uri);
       ("BTC_WALLET_ADDRESS", "tb1qexample");
       ("FIREBLOCKS_API_KEY", "key");
       ("FIREBLOCKS_SECRET_KEY_PATH", "./fireblock.pem") ];
     Anchorer.now := λ _, "2024-01-02T04:00:00.000Z";
     Anchorer.now_ms := λ _, 1704168000000%Z;
     Anchorer.parse := λ _, Returned did_data;
     Anchorer.stringify := λ _, "{}";
     Anchorer.digest := λ _, "9f86d081884c7d659a2feaa0c55ad015a3bf4f1b2b0b822cd15d6c15b0f00a08";
     Anchorer.key_file := λ path, if String.eqb path "./fireblock.pem" then Some "pem" else None;
     Anchorer.newFireblocks := Returned tt;
     Anchorer.getVaultAccount := λ _, Returned (VObj [("data", VObj [("name", VStr "vault")])]);
     Anchorer.anchor := λ _ _, Thrown unreachable;
     Anchorer.fetch := λ _ _, Thrown unreachable;
     Anchorer.createTransaction := λ _,
       Returned (VObj [("data", VObj [("id", VStr "tx-1"); ("status", VStr "SUBMITTED")])]);
     Anchorer.getTransaction := λ n _, answers n;
     Anchorer.mkdir_fails := None;
     Anchorer.write_fails := λ _, None;
     Anchorer.read_fails := λ _, None;
     Anchorer.regexp_test := λ _ _, false;
     Anchorer.regexp_replace := λ _ content _, content |}.

Definition anchorer_world : (nat → outcome jsval) → Anchorer.World := anchorer_world_for "inv-1".

Definition always (status : string) : nat → outcome jsval := λ _, tx_status status VUndef.

Definition offline_world : Anchorer.World := anchorer_world (always "PENDING").

(** The anchorer as its constructor leaves it, with the saved bundle on disk. *)
Definition fresh_anchorer : Anchorer.t := Anchorer.new offline_world inv1_files.

(** The same after [loadDIDData]. *)
Definition loaded_anchorer : Anchorer.t := (Anchorer.loadDIDData offline_world fresh_anchorer).2.

(** Answers read from a list, ['PENDING'] ever after. *)
Definition script (l : list (outcome jsval)) : nat → outcome jsval :=
  λ n, default (tx_status "PENDING" VUndef) (l !! n).

(** The anchorer when [createBitcoinTransaction] has returned. *)
Definition started (w : Anchorer.World) : Anchorer.t :=
  ((_ ← Anchorer.validateRequirements w;
    _ ← Anchorer.initializeFireblocks w;
    _ ← Anchorer.loadDIDData w;
    _ ← Anchorer.submitToIONNode w;
    Anchorer.createBitcoinTransaction w) (Anchorer.new w inv1_files)).2.


(** The files two runs of script 2 leave for one investor, the first at
    03:04:05.678 on 2 January 2024 and the second a month later. *)
Definition two_saves (investor : string) : Files :=
  Creator.files
    (Creator.main (creator_world investor "2024-02-03T04:05:06.789Z" three_wallets)
       (Creator.files
          (Creator.main (creator_world investor "2024-01-02T03:04:05.678Z" three_wallets)
             no_files).2)).2.

(** The files after a run for [inv-1] in 2025 and one for [inv-10] in 2020. *)
Definition two_investors : Files :=
  Creator.files
    (Creator.main (creator_world "inv-10" "2020-01-01T00:00:00.000Z" three_wallets)
       (Creator.files
          (Creator.main (creator_world "inv-1" "2025-01-01T00:00:00.000Z" three_wallets)
             no_files).2)).2.

Definition failing_world : Anchorer.World := anchorer_world (always "FAILED").

Definition failed_then_completed_world : Anchorer.World :=
  anchorer_world (script [tx_status "FAILED" VUndef; tx_status "COMPLETED" (VStr "abc")]).

Definition three_ticks_world : Anchorer.World :=
  anchorer_world (script [tx_status "PENDING" VUndef; tx_status "PENDING" VUndef;
                          tx_status "COMPLETED" (VStr "abc")]).

(** The hash arrives with the first answer; the answer that reports the
    completion carries none. *)
Definition hash_then_none_world : Anchorer.World :=
  anchorer_world (script [tx_status "PENDING" (VStr "abc");
                          Returned (VObj [("data", VObj [("id", VStr "tx-1");
                                                         ("status", VStr "COMPLETED")])])]).

(** The first status query fails on the network, the second is answered
    ['COMPLETED']. *)
Definition transient_world : Anchorer.World :=
  anchorer_world (script [Thrown unreachable; tx_status "COMPLETED" (VStr "abc")]).

(** No status query gets through. *)
Definition outage_world : Anchorer.World := anchorer_world (λ _, Thrown unreachable).

(** The simple anchorer with its request loaded, and a world whose ION node
    cannot be reached. *)
Definition simple_world : Simple.World :=
  {| Simple.env := list_to_map [("INVESTOR_ID", "inv-1"); ("DID_LONG_FORM", colon_uri)];
     Simple.now := λ _, "2024-01-02T04:00:00.000Z";
     Simple.anchor := λ _, Thrown unreachable |}.

(** The creator of the examples when [generateLongFormDID] has returned. *)
Definition inv1_before_save : Creator.t :=
  ((_ ← Creator.validateWalletAddresses;
    _ ← Creator.generateDIDKeys inv1_world;
    _ ← Creator.createDIDInstance inv1_world;
    Creator.generateLongFormDID) (Creator.new inv1_world no_files)).2.

(** What [saveDIDData] then returns. *)
Definition inv1_saved_result : jsval :=
  match (Creator.saveDIDData inv1_world inv1_before_save).1 with
  | Returned r => r
  | Thrown _ => VUndef
  end.

(** A [DID] instance whose create request cannot be generated. *)
Definition broken_did : Creator.DID :=
  {| Creator.getURI := Returned (VStr colon_uri);
     Creator.generateRequest := λ _, Thrown (JsError "request failed");
     Creator.getAllOperations := Returned (VArr []) |}.

(** A creator that holds it, with its identifier derived. *)
Definition broken_request : Creator.t :=
  Creator.set_shortFormDid (VStr colon_uri)
    (Creator.set_longFormDid (VStr colon_uri)
       (Creator.set_didInstance (Some broken_did) (Creator.new inv1_world no_files))).

(** The world of [no_wallets]. *)
Definition no_wallets_world : Creator.World :=
  creator_world "inv-1" "2024-01-02T03:04:05.678Z" [].

(** The world of the examples with [INVESTOR_ID] not set. *)
Definition unnamed_creator_world : Creator.World :=
  {| Creator.env := list_to_map three_wallets;
     Creator.now := Creator.now inv1_world;
     Creator.generateKeyPair := Creator.generateKeyPair inv1_world;
     Creator.newDID := Creator.newDID inv1_world;
     Creator.stringify := Creator.stringify inv1_world;
     Creator.mkdir_fails := None;
     Creator.write_fails := λ _, None;
     Creator.read_fails := λ _, None;
     Creator.regexp_test := Creator.regexp_test inv1_world;
     Creator.regexp_replace := Creator.regexp_replace inv1_world |}.

Definition unnamed_before_save : Creator.t :=
  ((_ ← Creator.validateWalletAddresses;
    _ ← Creator.generateDIDKeys unnamed_creator_world;
    _ ← Creator.createDIDInstance unnamed_creator_world;
    Creator.generateLongFormDID) (Creator.new unnamed_creator_world no_files)).2.

(** The anchorer world [w] with another environment, another [JSON.parse]
    and another place for the key file. *)
Definition anchorer_with (env : gmap string string) (parse : string → outcome jsval)
    (key_file : string → option string) (w : Anchorer.World) : Anchorer.World :=
  {| Anchorer.env := env;
     Anchorer.now := Anchorer.now w;
     Anchorer.now_ms := Anchorer.now_ms w;
     Anchorer.parse := parse;
     Anchorer.stringify := Anchorer.stringify w;
     Anchorer.digest := Anchorer.digest w;
     Anchorer.key_file := key_file;
     Anchorer.newFireblocks := Anchorer.newFireblocks w;
     Anchorer.getVaultAccount := Anchorer.getVaultAccount w;
     Anchorer.anchor := Anchorer.anchor w;
     Anchorer.fetch := Anchorer.fetch w;
     Anchorer.createTransaction := Anchorer.createTransaction w;
     Anchorer.getTransaction := Anchorer.getTransaction w;
     Anchorer.mkdir_fails := Anchorer.mkdir_fails w;
     Anchorer.write_fails := Anchorer.write_fails w;
     Anchorer.read_fails := Anchorer.read_fails w;
     Anchorer.regexp_test := Anchorer.regexp_test w;
     Anchorer.regexp_replace := Anchorer.regexp_replace w |}.


(** [INVESTOR_ID] is not set. *)
Definition unnamed_anchorer_world : Anchorer.World :=
  anchorer_with (delete "INVESTOR_ID" (Anchorer.env offline_world)) (Anchorer.parse offline_world)
    (Anchorer.key_file offline_world) offline_world.

(** Nothing is configured. *)
Definition unconfigured_world : Anchorer.World :=
  anchorer_with ∅ (Anchorer.parse offline_world) (Anchorer.key_file offline_world) offline_world.

(** The key file is not where the configuration says. *)
Definition no_key_world : Anchorer.World :=
  anchorer_with (Anchorer.env offline_world) (Anchorer.parse offline_world) (λ _, None)
    offline_world.

(** A world for the simple script where neither the ION node nor the
    resolver can be reached. *)
Definition simple_run_world : SimpleRun.World :=
  {| SimpleRun.base := simple_world;
     SimpleRun.parse := λ _, Returned did_data;
     SimpleRun.stringify := to_json;
     SimpleRun.resolve := λ _, Thrown unreachable;
     SimpleRun.mkdir_fails := None;
     SimpleRun.write_fails := λ _, None;
     SimpleRun.read_fails := λ _, None;
     SimpleRun.regexp_test := λ _ _, false;
     SimpleRun.regexp_replace := λ _ content _, content |}.

(** An anchorer that holds a create request but has loaded no DID data. *)
Definition unloaded_with_request : Anchorer.t :=
  Anchorer.set_createRequest create_request fresh_anchorer.

(** The same with an empty environment. *)
Definition blank_simple_world : SimpleRun.World :=
  {| SimpleRun.base := {| Simple.env := ∅;
                          Simple.now := Simple.now simple_world;
                          Simple.anchor := Simple.anchor simple_world |};
     SimpleRun.parse := SimpleRun.parse simple_run_world;
     SimpleRun.stringify := SimpleRun.stringify simple_run_world;
     SimpleRun.resolve := SimpleRun.resolve simple_run_world;
     SimpleRun.mkdir_fails := None;
     SimpleRun.write_fails := λ _, None;
     SimpleRun.read_fails := λ _, None;
     SimpleRun.regexp_test := SimpleRun.regexp_test simple_run_world;
     SimpleRun.regexp_replace := SimpleRun.regexp_replace simple_run_world |}.

End Examples.

(** * Vocabulary for the statements about the pipelines *)

Module Pipeline.

(** The stages [run] of script 2 goes through before [updateEnvFile]. *)
Definition identity_stages (w : Creator.World) : M Creator.t jsval :=
  _ ← Creator.validateWalletAddresses;
  _ ← Creator.generateDIDKeys w;
  _ ← Creator.createDIDInstance w;
  _ ← Creator.generateLongFormDID;
  Creator.saveDIDData w.

(** A character of [new Date().toISOString().replace(/[:.]/g, '-')]. *)
Definition stamp_char (a : ascii) : bool :=
  ((48 <=? nat_of_ascii a) && (nat_of_ascii a <=? 57))%nat
  || Ascii.eqb a "-" || Ascii.eqb a "T" || Ascii.eqb a "Z".

(** A time stamp as [saveDIDData] puts it into a file name, for a year of
    four digits: 24 characters, digits and [-], [T], [Z]. *)
Definition is_stamp (ts : string) : bool :=
  (String.length ts =? 24)%nat && forallb stamp_char (String.list_ascii_of_string ts).


(** The stages [run] of script 3 goes through before [waitForConfirmation]. *)
Definition anchoring_stages (w : Anchorer.World) : M Anchorer.t jsval :=
  _ ← Anchorer.validateRequirements w;
  _ ← Anchorer.initializeFireblocks w;
  _ ← Anchorer.loadDIDData w;
  _ ← Anchorer.submitToIONNode w;
  Anchorer.createBitcoinTransaction w.

(** A decimal digit. *)
Definition digit (a : ascii) : bool :=
  ((48 <=? nat_of_ascii a) && (nat_of_ascii a <=? 57))%nat.

(** A string of the given shape: [None] stands for a digit, [Some c] for
    the character [c]. *)
Fixpoint has_shape (shape : list (option ascii)) (s : string) : bool :=
  match shape, s with
  | [], EmptyString => true
  | None :: shape', String a s' => digit a && has_shape shape' s'
  | Some c :: shape', String a s' => Ascii.eqb a c && has_shape shape' s'
  | _, _ => false
  end.

(** [YYYY-MM-DDTHH:mm:ss.sssZ], what [toISOString] prints for a year of four
    digits. *)
Definition iso_shape : list (option ascii) :=
  [None; None; None; None; Some "-"; None; None; Some "-"; None; None; Some "T";
   None; None; Some ":"; None; None; Some ":"; None; None; Some "."; None; None; None;
   Some "Z"]%char.

Definition is_iso (s : string) : bool := has_shape iso_shape s.

(** A name of ASCII characters only.  On such names the order of
    [JsString.sort], which compares bytes, is the order of
    [Array.prototype.sort], which compares UTF-16 code units. *)
Definition plain (name : string) : bool :=
  forallb (λ a, (nat_of_ascii a <? 128)%nat) (String.list_ascii_of_string name).

End Pipeline.

(** * Vocabulary for the statements about polling *)

Module Polling.

(** The n-th status query for [txId] is answered with a record of these fields. *)
Definition answers (w : Anchorer.World) (n : nat) (txId : jsval)
    (data : list (string * jsval)) : Prop :=
  ∃ response,
    Anchorer.getTransaction w n txId = Returned response
    ∧ get response "data" = Returned (VObj data).

(** The answer reports the status ['COMPLETED']. *)
Definition completed (data : list (string * jsval)) : bool :=
  Anchorer.strict_eq (assoc "status" data) (VStr "COMPLETED").

(** The object tracks the transaction [txId] through an initialized SDK: the
    state [createBitcoinTransaction] leaves when it returns. *)
Definition monitoring (c : Anchorer.t) (txId : jsval) : Prop :=
  Anchorer.fireblocksSDK c = true
  ∧ truthy txId = true
  ∧ ∃ fields, Anchorer.bitcoinTransaction c = VObj fields ∧ assoc "id" fields = txId.

(** [this.bitcoinTransaction.txHash], [undefined] when there is none. *)
Definition tracked_hash (c : Anchorer.t) : jsval :=
  get_opt (Anchorer.bitcoinTransaction c) "txHash".

(** The object after the query was sent and the answer's hash merged. *)
Definition after_check (c : Anchorer.t) (fields data : list (string * jsval)) : Anchorer.t :=
  let asked :=
    Anchorer.record_call (Anchorer.CallGetTransaction (assoc "id" fields))
      (Anchorer.set_queries (S (Anchorer.queries c)) c) in
  let txHash := assoc "txHash" data in
  if truthy txHash && negb (Anchorer.strict_eq txHash (assoc "txHash" fields))
  then Anchorer.set_bitcoinTransaction (VObj (Anchorer.assign "txHash" txHash fields)) asked
  else asked.

(** The n-th status query for [txId] settles nothing: it throws, or it is
    answered with a record that does not report ['COMPLETED']. *)
Definition unsettled (w : Anchorer.World) (n : nat) (txId : jsval) : Prop :=
  (∃ e, Anchorer.getTransaction w n txId = Thrown e)
  ∨ (∃ data, answers w n txId data ∧ completed data = false).

(** [n] status queries, each followed by the wait of one interval. *)
Fixpoint rounds (txId : jsval) (n : nat) : list Anchorer.call :=
  match n with
  | 0 => []
  | S n' =>
      Anchorer.CallGetTransaction txId :: Anchorer.CallSleep Anchorer.checkInterval
      :: rounds txId n'
  end.

End Polling.

(** * Vocabulary for the statement about the fallback chain *)

Module Fallback.

(** The first tier raises: the create request cannot be read, or [anchor]
    throws. *)
Definition primary_raises (w : Anchorer.World) (c : Anchorer.t) : Prop :=
  (∃ e, get (Anchorer.createRequest c) "type" = Thrown e)
  ∨ (∃ e, Anchorer.anchor w (Anchorer.createRequest c) (Anchorer.anchorOptions c) = Thrown e).

(** The calls the first tier makes: [anchor], unless the request cannot be
    read. *)
Definition primary_calls (c : Anchorer.t) : list Anchorer.call :=
  match get (Anchorer.createRequest c) "type" with
  | Returned _ => [Anchorer.CallAnchor (Anchorer.createRequest c) (Anchorer.anchorOptions c)]
  | Thrown _ => []
  end.

(** The POST of the second tier. *)
Definition direct_call (w : Anchorer.World) (c : Anchorer.t) : Anchorer.call :=
  Anchorer.CallFetch (Anchorer.solutionEndpoint (Anchorer.config c))
    (Anchorer.stringify w (Anchorer.createRequest c)).

(** The answer to that POST. *)
Definition posted (w : Anchorer.World) (c : Anchorer.t) : outcome Anchorer.Response :=
  Anchorer.fetch w (Anchorer.solutionEndpoint (Anchorer.config c))
    (Anchorer.stringify w (Anchorer.createRequest c)).

(** The second tier raises: [fetch] throws, or the answer is not [ok], or
    its body cannot be read. *)
Definition direct_raises (w : Anchorer.World) (c : Anchorer.t) : Prop :=
  (∃ e, posted w c = Thrown e)
  ∨ (∃ r, posted w c = Returned r
          ∧ (Anchorer.ok r = false ∨ ∃ e, Anchorer.json r = Thrown e)).

End Fallback.

(** * Facts about the string operations *)

Section StringFacts.
Import JsString.

Lemma before_first_prefix c s : String.prefix (before_first c s) s = true.
Proof.
  induction s as [|a s IH]; simpl; [done|].
  destruct (Ascii.eqb a c); simpl; [done|].
  destruct (ascii_dec a a); [done|congruence].
Qed.

Lemma before_first_count c s : count c (before_first c s) = 0.
Proof.
  induction s as [|a s IH]; simpl; [done|].
  destruct (Ascii.eqb a c) eqn:E; simpl; [done|]. by rewrite E.
Qed.

Lemma before_first_id c s : count c s = 0 → before_first c s = s.
Proof.
  induction s as [|a s IH]; simpl; [done|].
  destruct (Ascii.eqb a c); [done|]. intros H. by rewrite IH.
Qed.

Lemma before_first_idempotent c s : before_first c (before_first c s) = before_first c s.
Proof. apply before_first_id, before_first_count. Qed.

Lemma before_first_split c s :
  count c s ≠ 0 → ∃ rest, s = before_first c s +:+ String c rest.
Proof.
  induction s as [|a s IH]; simpl; [done|].
  destruct (Ascii.eqb_spec a c) as [->|Hne]; simpl.
  - intros _. by exists s.
  - intros H. destruct (IH H) as [rest Hrest]. exists rest.
    change (String a s = String a (before_first c s +:+ String c rest)). by f_equal.
Qed.

Lemma before_first_strict c s : before_first c s ≠ s ↔ count c s ≠ 0.
Proof.
  split.
  - intros H Hc. by apply H, before_first_id.
  - intros H Heq. apply H. rewrite <-Heq. apply before_first_count.
Qed.

Lemma before_first_empty c s :
  before_first c s = "" ↔ s = "" ∨ ∃ rest, s = String c rest.
Proof.
  destruct s as [|a s]; simpl.
  - split; [by left|done].
  - destruct (Ascii.eqb_spec a c) as [->|Hne].
    + split; [right; by exists s|done].
    + split; [done|]. intros [H|[rest H]]; [done|]. congruence.
Qed.

End StringFacts.

(** * [generateLongFormDID]: the short form *)

Ltac unfold_monad :=
  unfold mbind, M_bind, mret, M_ret, lift, read, modify, throw, try_catch, when, id in *.

Section LongForm.
Import JsString.

(** A run that returns stored a string, and its short form next to it. *)
Lemma generateLongFormDID_returns c uri c' :
  Creator.generateLongFormDID c = (Returned uri, c') →
  ∃ long, uri = VStr long
          ∧ Creator.longFormDid c' = VStr long
          ∧ Creator.shortFormDid c' = VStr (before_first "?" long)
          ∧ Creator.errors c' = Creator.errors c.
Proof.
  unfold Creator.generateLongFormDID, Creator.recording, Creator.instance. unfold_monad.
  destruct (Creator.didInstance c) as [d|]; [|done].
  destruct (Creator.getURI d) as [v|e]; [|done].
  destruct v; simpl; try done.
  intros [= <- <-]. eexists; split_and!; done.
Qed.

(** What the line computes: after a run of [generateLongFormDID] that
    returns, [shortFormDid] is [longFormDid] up to its first question mark,
    and all of it when it has none.  It is a prefix of [longFormDid] free of
    question marks, a strict one exactly when [longFormDid] has a question
    mark (then [longFormDid] is the short form, a question mark and a rest),
    empty exactly when [longFormDid] is empty or starts with a question
    mark, and deriving a short form from it again gives it back. *)
Theorem generateLongFormDID_short_form c uri c' :
  Creator.generateLongFormDID c = (Returned uri, c') →
  ∃ long short,
    Creator.longFormDid c' = VStr long
    ∧ Creator.shortFormDid c' = VStr short
    ∧ short = before_first "?" long
    ∧ String.prefix short long = true
    ∧ count "?" short = 0
    ∧ (short ≠ long ↔ count "?" long ≠ 0)
    ∧ (count "?" long ≠ 0 → ∃ rest, long = short +:+ String "?" rest)
    ∧ (short = "" ↔ long = "" ∨ ∃ rest, long = String "?" rest)
    ∧ before_first "?" short = short.
Proof.
  intros Hrun.
  destruct (generateLongFormDID_returns _ _ _ Hrun) as (long & _ & Hlong & Hshort & _).
  exists long, (before_first "?" long). split_and!; try done.
  - apply before_first_prefix.
  - apply before_first_count.
  - apply before_first_strict.
  - apply before_first_split.
  - apply before_first_empty.
  - apply before_first_idempotent.
Qed.

(** The theorem at a run that returns: the creator of the examples. *)
Lemma generateLongFormDID_short_form_witness :
  ∃ long short,
    Creator.longFormDid (Creator.generateLongFormDID Examples.inv1_with_instance).2 = VStr long
    ∧ Creator.shortFormDid (Creator.generateLongFormDID Examples.inv1_with_instance).2 = VStr short
    ∧ short = before_first "?" long
    ∧ String.prefix short long = true
    ∧ count "?" short = 0
    ∧ (short ≠ long ↔ count "?" long ≠ 0)
    ∧ (count "?" long ≠ 0 → ∃ rest, long = short +:+ String "?" rest)
    ∧ (short = "" ↔ long = "" ∨ ∃ rest, long = String "?" rest)
    ∧ before_first "?" short = short.
Proof.
  apply (generateLongFormDID_short_form Examples.inv1_with_instance (VStr Examples.colon_uri)).
  vm_compute. reflexivity.
Defined.

(** C1, the code at a failing input: the identifier the ION tools hand out,
    the suffix and the encoded state joined by a colon.  The run returns; the
    line meant to extract the short form finds no question mark to split at
    and keeps the whole string: the short form is the long form itself, no
    strict prefix of it, and the long form holds no question mark.  The same
    line on an identifier in the older notation, with the state in a query
    part, gives the strict prefix that stands before the question mark. *)
Lemma generateLongFormDID_without_question_mark :
  (Creator.generateLongFormDID Examples.inv1_with_instance).1 = Returned (VStr Examples.colon_uri)
  ∧ Creator.longFormDid (Creator.generateLongFormDID Examples.inv1_with_instance).2
    = VStr Examples.colon_uri
  ∧ Creator.shortFormDid (Creator.generateLongFormDID Examples.inv1_with_instance).2
    = VStr Examples.colon_uri
  ∧ count "?" Examples.colon_uri = 0
  ∧ Creator.shortFormDid (Creator.generateLongFormDID Examples.inv1_with_instance).2
    = Creator.longFormDid (Creator.generateLongFormDID Examples.inv1_with_instance).2
  ∧ Creator.shortFormDid (Creator.main Examples.inv1_world no_files).2
    = Creator.longFormDid (Creator.main Examples.inv1_world no_files).2
  ∧ Creator.shortFormDid
      (Creator.generateLongFormDID
         (Creator.set_didInstance (Some Examples.query_did) Examples.inv1_with_instance)).2
    = VStr "did:ion:EiAbc123"
  ∧ count "?" Examples.query_uri = 1.
Proof. vm_compute. done. Qed.

(** On an identifier with a query part the short form is what precedes it,
    and the identifier saved from it is its last segment. *)
Example generateLongFormDID_with_query :
  Creator.shortFormDid
    (Creator.generateLongFormDID
       (Creator.set_didInstance (Some Examples.query_did) Examples.inv1_with_instance)).2
  = VStr "did:ion:EiAbc123"
  ∧ after_last ":" "did:ion:EiAbc123" = "EiAbc123".
Proof. vm_compute. done. Qed.

End LongForm.

(** * [validateWalletAddresses] *)

Section Validate.

Lemma foldl_log_console lines c :
  Creator.console (foldl (λ c line, Creator.log line c) c lines) = Creator.console c ++ lines.
Proof.
  revert c. induction lines as [|l lines IH]; intros c; simpl.
  - by rewrite app_nil_r.
  - rewrite IH. simpl. by rewrite <-app_assoc.
Qed.

Lemma foldl_log_errors lines c :
  Creator.errors (foldl (λ c line, Creator.log line c) c lines) = Creator.errors c.
Proof. revert c. induction lines as [|l lines IH]; intros c; simpl; [done|]. by rewrite IH. Qed.

(** What the loop leaves: the verdict, and one group of lines per entry. *)
Lemma check_addresses_spec l v c :
  (Creator.check_addresses l v c).1 = v && forallb (λ e, negb (Creator.absent e.2)) l
  ∧ Creator.console (Creator.check_addresses l v c).2
    = Creator.console c ++ flat_map (λ e, Creator.address_lines e.1 e.2) l
  ∧ Creator.errors (Creator.check_addresses l v c).2 = Creator.errors c.
Proof.
  revert v c. induction l as [|[network address] l IH]; intros v c; simpl.
  - by rewrite andb_true_r, app_nil_r.
  - destruct (IH (if Creator.absent address then false else v)
                 (foldl (λ c line, Creator.log line c) c (Creator.address_lines network address)))
      as (-> & -> & ->).
    rewrite foldl_log_console, foldl_log_errors, <-app_assoc.
    split_and!; [|done|done].
    destruct (Creator.absent address), v; simpl; done.
Qed.

(** The whole method: result, console and error collection. *)
Lemma validateWalletAddresses_spec c :
  let entries := Creator.requiredAddresses c in
  let allValid := forallb (λ e, negb (Creator.absent e.2)) entries in
  (Creator.validateWalletAddresses c).1
  = (if allValid then Returned true else Thrown Creator.missing_addresses)
  ∧ Creator.console (Creator.validateWalletAddresses c).2
    = Creator.console c ++ ["STEP 1: Validating Wallet Addresses"]
      ++ flat_map (λ e, Creator.address_lines e.1 e.2) entries
      ++ (if allValid then ["All wallet addresses validated"] else [])
  ∧ Creator.errors (Creator.validateWalletAddresses c).2 = Creator.errors c.
Proof.
  intros entries allValid. unfold Creator.validateWalletAddresses.
  set (c0 := Creator.log "STEP 1: Validating Wallet Addresses" c).
  pose proof (check_addresses_spec (Creator.requiredAddresses c0) true c0) as (Hv & Hc & He).
  destruct (Creator.check_addresses (Creator.requiredAddresses c0) true c0) as [v c1].
  cbn [fst snd] in Hv, Hc, He.
  change (Creator.requiredAddresses c0) with entries in Hv, Hc.
  rewrite andb_true_l in Hv. fold allValid in Hv. subst v.
  change (Creator.console c0) with (Creator.console c ++ ["STEP 1: Validating Wallet Addresses"]) in Hc.
  change (Creator.errors c0) with (Creator.errors c) in He.
  destruct allValid; cbn [negb fst snd Creator.log Creator.console Creator.errors];
    rewrite ?Hc, ?He, <-?app_assoc, ?app_nil_r; done.
Qed.



End Validate.

(** * [submitToIONNode] and [submitToION]: the fallback chain *)

Section Submission.
Variable w : Anchorer.World.

(** A value that can be read once can be read again, under any name. *)
Lemma get_returns v k x k' : get v k = Returned x → ∃ y, get v k' = Returned y.
Proof. destruct v; simpl; try done; eauto. Qed.

(** After a [loadDIDData] that returns, [this.didData.did] can be read from. *)
Lemma loadDIDData_did c0 data c :
  Anchorer.loadDIDData w c0 = (Returned data, c) →
  Anchorer.didData c = data
  ∧ truthy (Anchorer.createRequest c) = true
  ∧ ∃ did longForm, get data "did" = Returned did ∧ get did "longForm" = Returned longForm.
Proof.
  unfold Anchorer.loadDIDData, Anchorer.recording. unfold_monad.
  destruct (data_dir (Anchorer.files c0)) as [d|]; [|done].
  destruct (Anchorer.latest_file _ _) as [latestFile|]; [|done].
  destruct (Anchorer.read_fails w _); [done|].
  destruct (d !! latestFile) as [content|]; [|done].
  destruct (Anchorer.parse w content) as [parsed|]; [|done].
  destruct (get parsed "operations") as [operations|]; [|done].
  destruct (truthy operations) eqn:Hops.
  - destruct (get operations "createRequest") as [request|]; [|done].
    destruct (truthy request) eqn:Hreq; [|done].
    destruct (get parsed "did") as [did|] eqn:Hdid; [|done].
    destruct (get did "shortForm") as [short|] eqn:Hshort; [|done].
    destruct (get request "type"); [|done].
    destruct (get parsed "keys") as [keys|]; [|done].
    destruct (Anchorer.object_keys keys); [|done].
    intros [= <- <-]. split_and!; [done|done|].
    destruct (get_returns _ _ _ "longForm" Hshort) as [longForm HlongForm]. eauto.
  - rewrite Hops. done.
Qed.

(** A value that is truthy can be read from. *)
Lemma get_truthy v k : truthy v = true → ∃ y, get v k = Returned y.
Proof. destruct v; simpl; try done; eauto. Qed.

(** The first two tiers touch nothing but [anchorResponse] and the list of
    calls, to which they add their one call. *)
Lemma primary_tier_frame c :
  let c' := (Anchorer.primary_tier w c).2 in
  Anchorer.didData c' = Anchorer.didData c
  ∧ Anchorer.console c' = Anchorer.console c
  ∧ Anchorer.errors c' = Anchorer.errors c
  ∧ Anchorer.ticks c' = Anchorer.ticks c
  ∧ Anchorer.config c' = Anchorer.config c
  ∧ Anchorer.createRequest c' = Anchorer.createRequest c
  ∧ (truthy (Anchorer.createRequest c) = true →
     Anchorer.calls c' = Anchorer.calls c
       ++ [Anchorer.CallAnchor (Anchorer.createRequest c) (Anchorer.anchorOptions c)]).
Proof.
  unfold Anchorer.primary_tier. unfold_monad.
  destruct (get (Anchorer.createRequest c) "type") eqn:Htype.
  - destruct (get_returns _ _ _ "suffixData" Htype) as [? ->].
    destruct (get_returns _ _ _ "delta" Htype) as [? ->].
    destruct (Anchorer.anchor w _ _); simpl; split_and!; done.
  - simpl. split_and!; try done. intros Ht.
    destruct (get_truthy _ "type" Ht) as [? Hget]. congruence.
Qed.

Lemma direct_tier_frame c :
  let c' := (Anchorer.direct_tier w c).2 in
  Anchorer.didData c' = Anchorer.didData c
  ∧ Anchorer.console c' = Anchorer.console c
  ∧ Anchorer.errors c' = Anchorer.errors c
  ∧ Anchorer.ticks c' = Anchorer.ticks c
  ∧ Anchorer.config c' = Anchorer.config c
  ∧ Anchorer.createRequest c' = Anchorer.createRequest c
  ∧ Anchorer.calls c' = Anchorer.calls c
      ++ [Anchorer.CallFetch (Anchorer.solutionEndpoint (Anchorer.config c))
            (Anchorer.stringify w (Anchorer.createRequest c))].
Proof.
  unfold Anchorer.direct_tier. unfold_monad.
  destruct (Anchorer.fetch w _ _) as [response|]; simpl; [|done].
  destruct (Anchorer.ok response); simpl; [|done].
  destruct (Anchorer.json response); simpl; done.
Qed.

(** The last tier returns whenever [this.didData.did] can be read from. *)
Lemma degraded_tier_returns c did longForm :
  get (Anchorer.didData c) "did" = Returned did →
  get did "longForm" = Returned longForm →
  let response := Anchorer.simulated_response longForm (Anchorer.now w (Anchorer.ticks c)) in
  ∃ c', Anchorer.degraded_tier w c = (Returned response, c')
        ∧ Anchorer.anchorResponse c' = response
        ∧ Anchorer.errors c' = Anchorer.errors c
        ∧ Anchorer.console c' = Anchorer.console c ++ [Anchorer.method_3]
        ∧ Anchorer.calls c' = Anchorer.calls c.
Proof.
  intros Hdid Hlong response. unfold Anchorer.degraded_tier, Anchorer.clock. unfold_monad.
  cbn [Anchorer.log Anchorer.didData]. rewrite Hdid, Hlong.
  eexists. split; [reflexivity|]. done.
Qed.

End Submission.

Section Tiers.
Import Fallback.
Variable w : Anchorer.World.

Lemma primary_tier_raises c :
  primary_raises w c →
  ∃ e c1, Anchorer.primary_tier w c = (Thrown e, c1)
          ∧ Anchorer.calls c1 = Anchorer.calls c ++ primary_calls c.
Proof.
  unfold primary_raises, primary_calls, Anchorer.primary_tier. unfold_monad.
  intros [[e He]|[e He]].
  - rewrite He. eexists _, _. split; [reflexivity|]. by rewrite app_nil_r.
  - destruct (get (Anchorer.createRequest c) "type") as [ty|e'] eqn:Htype.
    + destruct (get_returns _ _ _ "suffixData" Htype) as [? ->].
      destruct (get_returns _ _ _ "delta" Htype) as [? ->].
      cbn [Anchorer.record_call Anchorer.createRequest Anchorer.anchorOptions Anchorer.config].
      rewrite He. eexists _, _. split; [reflexivity|]. done.
    + eexists _, _. split; [reflexivity|]. by rewrite app_nil_r.
Qed.

Lemma primary_tier_answers c ty response :
  get (Anchorer.createRequest c) "type" = Returned ty →
  Anchorer.anchor w (Anchorer.createRequest c) (Anchorer.anchorOptions c) = Returned response →
  Anchorer.primary_tier w c
  = (Returned response,
     Anchorer.set_anchorResponse response
       (Anchorer.record_call
          (Anchorer.CallAnchor (Anchorer.createRequest c) (Anchorer.anchorOptions c)) c)).
Proof.
  intros Htype Hanchor. unfold Anchorer.primary_tier. unfold_monad. rewrite Htype.
  destruct (get_returns _ _ _ "suffixData" Htype) as [? ->].
  destruct (get_returns _ _ _ "delta" Htype) as [? ->].
  cbn [Anchorer.record_call Anchorer.createRequest Anchorer.anchorOptions Anchorer.config].
  by rewrite Hanchor.
Qed.

Lemma direct_tier_raises c :
  direct_raises w c → ∃ e c2, Anchorer.direct_tier w c = (Thrown e, c2).
Proof.
  unfold direct_raises, posted, Anchorer.direct_tier. unfold_monad.
  cbn [Anchorer.record_call Anchorer.config Anchorer.createRequest].
  intros [[e He]|(r & Hr & [Hok|[e He]])].
  - rewrite He. by eexists _, _.
  - rewrite Hr, Hok. by eexists _, _.
  - rewrite Hr. destruct (Anchorer.ok r); [|by eexists _, _]. rewrite He. by eexists _, _.
Qed.

(** C3, as the code has it, on what [anchor], [fetch] and the loaded data
    answer.  The tiers come strictly in order.  If the request can be read
    and [anchor] answers, that answer is returned and nothing else is tried.
    If the first tier raises, the POST is made, and its body is returned if
    the answer is [ok] and can be read.  If the second tier raises too, the
    local record is built from [this.didData.did.longForm]: where that can
    be read - as it can after [loadDIDData] returned - the method returns the
    record, a value that is not null with status ['pending'], kept in
    [anchorResponse], and records no error; where it cannot, the last tier
    throws the error of that read, which is recorded under [ionSubmission]
    and thrown on. *)
Theorem submitToIONNode_tiers c :
  (∀ ty response,
     get (Anchorer.createRequest c) "type" = Returned ty →
     Anchorer.anchor w (Anchorer.createRequest c) (Anchorer.anchorOptions c)
     = Returned response →
     ∃ c', Anchorer.submitToIONNode w c = (Returned response, c')
           ∧ Anchorer.anchorResponse c' = response
           ∧ Anchorer.errors c' = Anchorer.errors c
           ∧ Anchorer.console c' = Anchorer.console c ++ [Anchorer.method_1]
           ∧ Anchorer.calls c' = Anchorer.calls c
               ++ [Anchorer.CallAnchor (Anchorer.createRequest c) (Anchorer.anchorOptions c)])
  ∧ (∀ r answer,
       primary_raises w c →
       posted w c = Returned r → Anchorer.ok r = true → Anchorer.json r = Returned answer →
       ∃ c', Anchorer.submitToIONNode w c = (Returned answer, c')
             ∧ Anchorer.anchorResponse c' = answer
             ∧ Anchorer.errors c' = Anchorer.errors c
             ∧ Anchorer.console c'
               = Anchorer.console c ++ [Anchorer.method_1; Anchorer.method_2]
             ∧ Anchorer.calls c' = Anchorer.calls c ++ primary_calls c ++ [direct_call w c])
  ∧ (∀ did longForm,
       primary_raises w c → direct_raises w c →
       get (Anchorer.didData c) "did" = Returned did →
       get did "longForm" = Returned longForm →
       let response := Anchorer.simulated_response longForm (Anchorer.now w (Anchorer.ticks c)) in
       ∃ c', Anchorer.submitToIONNode w c = (Returned response, c')
             ∧ truthy response = true
             ∧ response ≠ VNull
             ∧ get response "status" = Returned (VStr "pending")
             ∧ Anchorer.anchorResponse c' = response
             ∧ Anchorer.errors c' = Anchorer.errors c
             ∧ Anchorer.console c'
               = Anchorer.console c ++ [Anchorer.method_1; Anchorer.method_2; Anchorer.method_3]
             ∧ Anchorer.calls c' = Anchorer.calls c ++ primary_calls c ++ [direct_call w c])
  ∧ (∀ e,
       primary_raises w c → direct_raises w c →
       (get (Anchorer.didData c) "did" = Thrown e
        ∨ ∃ did, get (Anchorer.didData c) "did" = Returned did
                 ∧ get did "longForm" = Thrown e) →
       ∃ c', Anchorer.submitToIONNode w c = (Thrown e, c')
             ∧ Anchorer.errors c' = <["ionSubmission" := message e]> (Anchorer.errors c)
             ∧ Anchorer.calls c' = Anchorer.calls c ++ primary_calls c ++ [direct_call w c])
  ∧ (∀ c0 data,
       Anchorer.loadDIDData w c0 = (Returned data, c) →
       ∃ did longForm, get (Anchorer.didData c) "did" = Returned did
                       ∧ get did "longForm" = Returned longForm).
Proof.
  set (c0' := Anchorer.log Anchorer.method_1 c).
  pose proof (primary_tier_frame w c0') as (P1 & P2 & P3 & P4 & P5 & P6 & _).
  assert (∀ e1 c1,
    Anchorer.primary_tier w c0' = (Thrown e1, c1) →
    Anchorer.calls c1 = Anchorer.calls c ++ primary_calls c →
    let c1' := Anchorer.log Anchorer.method_2 c1 in
    Anchorer.submitToIONNode w c
    = (let '(r, c2) := Anchorer.direct_tier w c1' in
       match r with
       | Returned answer => (Returned answer, c2)
       | Thrown _ =>
           let '(r3, c3) := Anchorer.degraded_tier w c2 in
           match r3 with
           | Returned v => (Returned v, c3)
           | Thrown e => (Thrown e, Anchorer.set_error "ionSubmission" e c3)
           end
       end)
    ∧ Anchorer.didData c1' = Anchorer.didData c
    ∧ Anchorer.errors c1' = Anchorer.errors c
    ∧ Anchorer.ticks c1' = Anchorer.ticks c
    ∧ Anchorer.console c1' = Anchorer.console c ++ [Anchorer.method_1; Anchorer.method_2]
    ∧ Anchorer.calls c1' ++ [Anchorer.CallFetch
                               (Anchorer.solutionEndpoint (Anchorer.config c1'))
                               (Anchorer.stringify w (Anchorer.createRequest c1'))]
      = Anchorer.calls c ++ primary_calls c ++ [direct_call w c]
    ∧ posted w c1' = posted w c) as Hsecond.
  { intros e1 c1 H1 Hcalls c1'. rewrite H1 in P1, P2, P3, P4, P5, P6. cbn [snd] in *.
    split_and!.
    - unfold Anchorer.submitToIONNode, Anchorer.recording.
      unfold mbind, M_bind, try_catch, modify, throw. fold c0'. rewrite H1. fold c1'.
      destruct (Anchorer.direct_tier w c1') as [[answer|e2] c2]; [done|].
      destruct (Anchorer.degraded_tier w c2) as [[v|e3] c3]; done.
    - unfold c1'. cbn [Anchorer.log Anchorer.didData]. by rewrite P1.
    - unfold c1'. cbn [Anchorer.log Anchorer.errors]. by rewrite P3.
    - unfold c1'. cbn [Anchorer.log Anchorer.ticks]. by rewrite P4.
    - unfold c1'. cbn [Anchorer.log Anchorer.console]. rewrite P2. unfold c0'.
      cbn [Anchorer.log Anchorer.console]. by rewrite <-app_assoc.
    - unfold c1', direct_call. cbn [Anchorer.log Anchorer.calls Anchorer.config
        Anchorer.createRequest]. rewrite P5, P6, Hcalls. unfold c0'.
      cbn [Anchorer.log Anchorer.config Anchorer.createRequest]. by rewrite <-app_assoc.
    - unfold posted, c1'. cbn [Anchorer.log Anchorer.config Anchorer.createRequest].
      rewrite P5, P6. done. }
  assert (primary_raises w c →
          ∃ e1 c1, Anchorer.primary_tier w c0' = (Thrown e1, c1)
                   ∧ Anchorer.calls c1 = Anchorer.calls c ++ primary_calls c) as Hfirst.
  { intros Hraises. apply (primary_tier_raises c0'). exact Hraises. }
  split_and!.
  - intros ty response Htype Hanchor.
    destruct (primary_tier_frame w c0') as (_ & _ & _ & _ & _ & _ & Hcalls).
    unfold Anchorer.submitToIONNode, Anchorer.recording.
    unfold mbind, M_bind, try_catch, modify. fold c0'.
    rewrite (primary_tier_answers c0' ty response Htype Hanchor).
    eexists. split; [reflexivity|]. done.
  - intros r answer Hp Hr Hok Hjson.
    destruct (Hfirst Hp) as (e1 & c1 & H1 & Hc1).
    destruct (Hsecond e1 c1 H1 Hc1) as (-> & D & E & T & Co & Ca & Po).
    set (c1' := Anchorer.log Anchorer.method_2 c1) in *.
    rewrite <-Po in Hr.
    assert (Anchorer.direct_tier w c1'
            = (Returned answer,
               Anchorer.set_anchorResponse answer
                 (Anchorer.record_call
                    (Anchorer.CallFetch (Anchorer.solutionEndpoint (Anchorer.config c1'))
                       (Anchorer.stringify w (Anchorer.createRequest c1'))) c1'))) as ->.
    { unfold Anchorer.direct_tier. unfold_monad. unfold posted in Hr.
      cbn [Anchorer.record_call Anchorer.config Anchorer.createRequest].
      by rewrite Hr, Hok, Hjson. }
    eexists. split; [reflexivity|]. split_and!; done.
  - intros did longForm Hp Hd Hdid Hlong response.
    destruct (Hfirst Hp) as (e1 & c1 & H1 & Hc1).
    destruct (Hsecond e1 c1 H1 Hc1) as (-> & D & E & T & Co & Ca & Po).
    set (c1' := Anchorer.log Anchorer.method_2 c1) in *.
    pose proof (direct_tier_frame w c1') as (D1 & D2 & D3 & D4 & _ & _ & D7).
    destruct (direct_tier_raises c1') as (e2 & c2 & H2).
    { unfold direct_raises. rewrite Po. exact Hd. }
    rewrite H2 in D1, D2, D3, D4, D7 |- *. cbn [snd] in *.
    destruct (degraded_tier_returns w c2 did longForm) as (c3 & H3 & R3 & E3 & Co3 & Ca3).
    { by rewrite D1, D. } { done. }
    rewrite D4, T in H3, R3. rewrite H3.
    exists c3. split_and!; try done.
    + by rewrite E3, D3.
    + rewrite Co3, D2, Co, <-app_assoc. done.
    + by rewrite Ca3, D7.
  - intros e Hp Hd Hdata.
    destruct (Hfirst Hp) as (e1 & c1 & H1 & Hc1).
    destruct (Hsecond e1 c1 H1 Hc1) as (-> & D & E & T & Co & Ca & Po).
    set (c1' := Anchorer.log Anchorer.method_2 c1) in *.
    pose proof (direct_tier_frame w c1') as (D1 & D2 & D3 & D4 & _ & _ & D7).
    destruct (direct_tier_raises c1') as (e2 & c2 & H2).
    { unfold direct_raises. rewrite Po. exact Hd. }
    rewrite H2 in D1, D2, D3, D4, D7 |- *. cbn [snd] in *.
    assert (Anchorer.degraded_tier w c2 = (Thrown e, Anchorer.log Anchorer.method_3 c2)) as ->.
    { unfold Anchorer.degraded_tier, Anchorer.clock. unfold_monad.
      cbn [Anchorer.log Anchorer.didData]. rewrite D1, D.
      destruct Hdata as [->|(did & -> & ->)]; done. }
    eexists. split; [reflexivity|].
    cbn [Anchorer.set_error Anchorer.log Anchorer.errors Anchorer.calls].
    split; [by rewrite D3, E|by rewrite D7].
  - intros c0 data Hload.
    destruct (loadDIDData_did w _ _ _ Hload) as (Hdata & _ & did & longForm & Hdid & Hlong).
    subst data. by exists did, longForm.
Qed.

End Tiers.

(** The third case of the theorem at an anchorer that has loaded its DID
    data, in a world where the ION node cannot be reached. *)
Lemma submitToIONNode_tiers_witness :
  ∃ c', Anchorer.submitToIONNode Examples.offline_world Examples.loaded_anchorer
        = (Returned (Anchorer.simulated_response (VStr Examples.colon_uri)
                       "2024-01-02T04:00:00.000Z"), c')
        ∧ truthy (Anchorer.simulated_response (VStr Examples.colon_uri)
                    "2024-01-02T04:00:00.000Z") = true
        ∧ Anchorer.simulated_response (VStr Examples.colon_uri) "2024-01-02T04:00:00.000Z"
          ≠ VNull
        ∧ get (Anchorer.simulated_response (VStr Examples.colon_uri)
                 "2024-01-02T04:00:00.000Z") "status" = Returned (VStr "pending")
        ∧ Anchorer.anchorResponse c'
          = Anchorer.simulated_response (VStr Examples.colon_uri) "2024-01-02T04:00:00.000Z"
        ∧ Anchorer.errors c' = Anchorer.errors Examples.loaded_anchorer
        ∧ Anchorer.console c'
          = Anchorer.console Examples.loaded_anchorer
            ++ [Anchorer.method_1; Anchorer.method_2; Anchorer.method_3]
        ∧ Anchorer.calls c'
          = Anchorer.calls Examples.loaded_anchorer
            ++ Fallback.primary_calls Examples.loaded_anchorer
            ++ [Fallback.direct_call Examples.offline_world Examples.loaded_anchorer].
Proof.
  destruct (submitToIONNode_tiers Examples.offline_world Examples.loaded_anchorer)
    as (_ & _ & Hdegraded & _).
  apply (Hdegraded (VObj [("longForm", VStr Examples.colon_uri);
                          ("shortForm", VStr Examples.colon_uri)])
           (VStr Examples.colon_uri)).
  - right. exists Examples.unreachable. reflexivity.
  - left. exists Examples.unreachable. reflexivity.
  - reflexivity.
  - reflexivity.
Defined.

(** C3 as stated fails where no DID data is loaded: the request is read and
    [anchor] throws, [fetch] throws, and then the last tier throws as well,
    on its read of [this.didData.did]; the error is recorded and leaves the
    method. *)
Lemma submitToIONNode_throws_without_data :
  get (Anchorer.createRequest Examples.unloaded_with_request) "type" = Returned (VStr "create")
  ∧ Anchorer.anchor Examples.offline_world
      (Anchorer.createRequest Examples.unloaded_with_request)
      (Anchorer.anchorOptions Examples.unloaded_with_request) = Thrown Examples.unreachable
  ∧ Fallback.posted Examples.offline_world Examples.unloaded_with_request
    = Thrown Examples.unreachable
  ∧ (Anchorer.submitToIONNode Examples.offline_world Examples.unloaded_with_request).1
    = Thrown (JsTypeError "Cannot read properties of null (reading 'did')")
  ∧ Anchorer.errors
      (Anchorer.submitToIONNode Examples.offline_world Examples.unloaded_with_request).2
    !! "ionSubmission"
    = Some "Cannot read properties of null (reading 'did')".
Proof. vm_compute. done. Qed.



(** C4, as the code has it: the record the last tier of [submitToIONNode]
    builds has [status] 'pending' and [method] 'simulated', the one
    [submitToION] builds has [status] 'submitted_longform'; each carries the
    long-form DID as [didUri] (read from the loaded DID data in the first,
    from the environment in the second) and the clock reading as
    [timestamp], and becomes [anchorResponse].  The last tier of
    [submitToION] always returns; that of [submitToIONNode] throws only when
    [this.didData.did.longForm] cannot be read. *)
Theorem degraded_records :
  (∀ w c,
     match Anchorer.degraded_tier w c with
     | (Returned response, c') =>
         ∃ did longForm,
           get (Anchorer.didData c) "did" = Returned did
           ∧ get did "longForm" = Returned longForm
           ∧ get response "status" = Returned (VStr "pending")
           ∧ get response "method" = Returned (VStr "simulated")
           ∧ get response "didUri" = Returned longForm
           ∧ get response "timestamp" = Returned (VStr (Anchorer.now w (Anchorer.ticks c)))
           ∧ Anchorer.anchorResponse c' = response
     | (Thrown _, _) =>
         ∀ did, get (Anchorer.didData c) "did" = Returned did → returns (get did "longForm") = false
     end)
  ∧ (∀ w c,
       ∃ response c',
         Simple.longform_tier w c = (Returned response, c')
         ∧ get response "status" = Returned (VStr "submitted_longform")
         ∧ get response "didUri" = Returned (Simple.env_value (Simple.didLongForm c))
         ∧ get response "timestamp" = Returned (VStr (Simple.now w (Simple.ticks c)))
         ∧ Simple.anchorResponse c' = response).
Proof.
  split.
  - intros w c. unfold Anchorer.degraded_tier, Anchorer.clock. unfold_monad.
    cbn [Anchorer.log Anchorer.didData].
    destruct (get (Anchorer.didData c) "did") as [did|] eqn:Hdid; [|done].
    destruct (get did "longForm") as [longForm|] eqn:Hlong.
    + exists did, longForm. split_and!; done.
    + intros did' [= <-]. by rewrite Hlong.
  - intros w c. unfold Simple.longform_tier, Simple.clock. unfold_monad.
    eexists _, _. split; [reflexivity|]. split_and!; done.
Qed.

(** C4 as stated fails in [submitToIONNode]: with the ION node out of reach
    the third tier produces the result (its console line is the last one),
    and the [status] of that result is 'pending', which is neither
    'simulated' nor 'submitted_longform'. *)
Lemma simulated_record_is_pending :
  (Anchorer.submitToIONNode Examples.offline_world Examples.loaded_anchorer).1
  = Returned (Anchorer.simulated_response (VStr Examples.colon_uri) "2024-01-02T04:00:00.000Z")
  ∧ last (Anchorer.console
            (Anchorer.submitToIONNode Examples.offline_world Examples.loaded_anchorer).2)
    = Some Anchorer.method_3
  ∧ get (Anchorer.simulated_response (VStr Examples.colon_uri) "2024-01-02T04:00:00.000Z") "status"
    = Returned (VStr "pending")
  ∧ String.eqb "pending" "simulated" = false
  ∧ String.eqb "pending" "submitted_longform" = false.
Proof. vm_compute. done. Qed.

(** With the ION node out of reach, [submitToION] answers with its own record. *)
Example submitToION_offline :
  (Simple.submitToION Examples.simple_world
     (Simple.set_anchorResponse VNull
        {| Simple.investorId := "inv-1"; Simple.didLongForm := Some Examples.colon_uri;
           Simple.didShortForm := None; Simple.didData := Examples.did_data;
           Simple.createRequest := Examples.create_request; Simple.anchorResponse := VNull;
           Simple.resolvedDID := VNull; Simple.errors := ∅; Simple.anchored := 0;
           Simple.ticks := 0 |})).1
  = Returned (Simple.longform_response (VStr Examples.colon_uri) "2024-01-02T04:00:00.000Z").
Proof. vm_compute. reflexivity. Qed.

(** * [waitForConfirmation] *)

Section Confirmation.
Import Polling.
Variable w : Anchorer.World.

Lemma assoc_assign_eq k v fields : assoc k (Anchorer.assign k v fields) = v.
Proof.
  induction fields as [|[k' v'] fields IH]; simpl.
  - by rewrite String.eqb_refl.
  - destruct (String.eqb k k') eqn:E; simpl; rewrite ?String.eqb_refl, ?E; done.
Qed.

Lemma assoc_assign_ne k k' v fields :
  k ≠ k' → assoc k' (Anchorer.assign k v fields) = assoc k' fields.
Proof.
  intros Hne. induction fields as [|[k0 v0] fields IH]; simpl.
  - destruct (String.eqb_spec k' k); [congruence|done].
  - destruct (String.eqb_spec k k0) as [->|Hk]; simpl.
    + destruct (String.eqb_spec k' k0); [congruence|done].
    + destruct (String.eqb_spec k' k0); [done|apply IH].
Qed.

(** One status check whose answer is a record: the hash is merged, and then
    the status decides. *)
Lemma check_status_answered c fields data :
  Anchorer.fireblocksSDK c = true →
  Anchorer.bitcoinTransaction c = VObj fields →
  answers w (Anchorer.queries c) (assoc "id" fields) data →
  Anchorer.check_status w c =
    if completed data
    then (Returned true, Anchorer.set_bitcoinTransaction (VObj data) (after_check c fields data))
    else if Anchorer.strict_eq (assoc "status" data) (VStr "FAILED")
            || Anchorer.strict_eq (assoc "status" data) (VStr "REJECTED")
         then (Thrown (Anchorer.transaction_failed (assoc "status" data)), after_check c fields data)
         else (Returned false, after_check c fields data).
Proof.
  intros Hsdk Htracked (response & Hquery & Hdata).
  unfold Anchorer.check_status, Anchorer.sdk, after_check, completed. unfold_monad.
  rewrite Hsdk, Htracked. cbn [get].
  cbn [Anchorer.set_queries Anchorer.record_call Anchorer.queries]. rewrite Hquery, Hdata.
  cbn [get].
  destruct (truthy (assoc "txHash" data)
            && negb (Anchorer.strict_eq (assoc "txHash" data) (assoc "txHash" fields)));
    cbn [when];
    destruct (Anchorer.strict_eq (assoc "status" data) (VStr "COMPLETED")); try done;
    destruct (Anchorer.strict_eq (assoc "status" data) (VStr "FAILED")
              || Anchorer.strict_eq (assoc "status" data) (VStr "REJECTED")); done.
Qed.

(** The merge keeps what [monitoring] asks for, counts one query and records
    no error. *)
Lemma after_check_monitoring c fields data :
  Anchorer.bitcoinTransaction c = VObj fields →
  monitoring c (assoc "id" fields) →
  monitoring (after_check c fields data) (assoc "id" fields)
  ∧ Anchorer.queries (after_check c fields data) = S (Anchorer.queries c)
  ∧ Anchorer.errors (after_check c fields data) = Anchorer.errors c.
Proof.
  intros Htracked (Hsdk & Hid & _). unfold after_check, monitoring.
  destruct (truthy (assoc "txHash" data) && _); simpl; split_and!; try done.
  - eexists. split; [reflexivity|]. by apply assoc_assign_ne.
  - eexists. split; [exact Htracked|done].
Qed.

(** One turn of the loop. *)
Lemma poll_turn fuel attempts c :
  Anchorer.poll w (S fuel) attempts c =
    if (attempts <? Anchorer.maxAttempts)%nat then
      match Anchorer.check_status w c with
      | (Returned true, c1) => (Returned true, c1)
      | (Returned false, c1) | (Thrown _, c1) =>
          Anchorer.poll w fuel (S attempts)
            (if (S attempts <? Anchorer.maxAttempts)%nat
             then Anchorer.record_call (Anchorer.CallSleep Anchorer.checkInterval) c1
             else c1)
      end
    else (Returned false, c).
Proof.
  change (Anchorer.poll w (S fuel) attempts c) with
    ((if (attempts <? Anchorer.maxAttempts)%nat then
        confirmed ← try_catch (Anchorer.check_status w) (λ _, mret false);
        if confirmed : bool then mret true
        else
          _ ← when (S attempts <? Anchorer.maxAttempts)%nat
                (modify (Anchorer.record_call (Anchorer.CallSleep Anchorer.checkInterval)));
          Anchorer.poll w fuel (S attempts)
      else mret false) c).
  destruct (attempts <? Anchorer.maxAttempts)%nat; [|done].
  unfold_monad.
  destruct (Anchorer.check_status w c) as [[[]|] c1]; try done;
    destruct (S attempts <? Anchorer.maxAttempts)%nat; done.
Qed.




(** Whatever the state and the answer, one check sends at most one query and
    records no error. *)
Lemma check_status_any c :
  Anchorer.queries (Anchorer.check_status w c).2 ≤ S (Anchorer.queries c)
  ∧ Anchorer.queries c ≤ Anchorer.queries (Anchorer.check_status w c).2
  ∧ Anchorer.errors (Anchorer.check_status w c).2 = Anchorer.errors c.
Proof.
  unfold Anchorer.check_status, Anchorer.sdk. unfold_monad.
  repeat (case_match; unfold mret, M_ret in *; simplify_eq/=; try (split_and!; (lia || done))).
Qed.

(** The loop never throws, sends no more queries than the turns it has left,
    and records no error. *)
Lemma poll_any fuel : ∀ attempts c,
  (∃ confirmed, (Anchorer.poll w fuel attempts c).1 = Returned confirmed)
  ∧ Anchorer.queries (Anchorer.poll w fuel attempts c).2
    ≤ Anchorer.queries c + (Anchorer.maxAttempts - attempts)
  ∧ Anchorer.errors (Anchorer.poll w fuel attempts c).2 = Anchorer.errors c.
Proof.
  induction fuel as [|fuel IH]; intros attempts c.
  - simpl. split_and!; [by eexists|lia|done].
  - rewrite poll_turn.
    destruct (attempts <? Anchorer.maxAttempts)%nat eqn:Hlt; [|split_and!; [by eexists|cbn [fst snd Anchorer.queries Anchorer.record_call Anchorer.set_error]; lia|done]].
    apply Nat.ltb_lt in Hlt.
    destruct (check_status_any c) as (Hq & _ & He).
    destruct (Anchorer.check_status w c) as [[[]|e] c1]; cbn [fst snd] in *.
    + split_and!; [by eexists|lia|done].
    + destruct (IH (S attempts)
                  (if (S attempts <? Anchorer.maxAttempts)%nat
                   then Anchorer.record_call (Anchorer.CallSleep Anchorer.checkInterval) c1
                   else c1)) as (Hr & Hq' & He').
      split_and!; [done| |].
      * etrans; [exact Hq'|]. destruct (S attempts <? Anchorer.maxAttempts)%nat; cbn [fst snd Anchorer.queries Anchorer.record_call Anchorer.set_error]; lia.
      * rewrite He'. destruct (S attempts <? Anchorer.maxAttempts)%nat; cbn [fst snd Anchorer.errors Anchorer.record_call]; done.
    + destruct (IH (S attempts)
                  (if (S attempts <? Anchorer.maxAttempts)%nat
                   then Anchorer.record_call (Anchorer.CallSleep Anchorer.checkInterval) c1
                   else c1)) as (Hr & Hq' & He').
      split_and!; [done| |].
      * etrans; [exact Hq'|]. destruct (S attempts <? Anchorer.maxAttempts)%nat; cbn [fst snd Anchorer.queries Anchorer.record_call Anchorer.set_error]; lia.
      * rewrite He'. destruct (S attempts <? Anchorer.maxAttempts)%nat; cbn [fst snd Anchorer.errors Anchorer.record_call]; done.
Qed.

(** With a transaction to monitor, the method is its loop. *)
Lemma waitForConfirmation_monitoring c txId :
  monitoring c txId →
  Anchorer.waitForConfirmation w c = Anchorer.poll w Anchorer.maxAttempts 0 c.
Proof.
  intros (_ & Hid & fields & Htracked & <-).
  destruct (poll_any Anchorer.maxAttempts 0 c) as ([confirmed Hr] & _).
  unfold Anchorer.waitForConfirmation. unfold_monad.
  rewrite Htracked. cbn [truthy get]. rewrite Hid.
  destruct (Anchorer.poll w Anchorer.maxAttempts 0 c) as [[b|e] c']; [done|]. done.
Qed.

(** The method never throws and stays within the budget of queries. *)
Lemma waitForConfirmation_any c :
  (∃ confirmed, (Anchorer.waitForConfirmation w c).1 = Returned confirmed)
  ∧ Anchorer.queries (Anchorer.waitForConfirmation w c).2
    ≤ Anchorer.queries c + Anchorer.maxAttempts.
Proof.
  pose proof (poll_any Anchorer.maxAttempts 0 c) as ([confirmed Hr] & Hq & _).
  unfold Anchorer.waitForConfirmation. unfold_monad.
  destruct (truthy (Anchorer.bitcoinTransaction c)); [|split; [by eexists|cbn [fst snd Anchorer.queries Anchorer.record_call Anchorer.set_error]; lia]].
  destruct (get (Anchorer.bitcoinTransaction c) "id") as [txId|]; [|split; [by eexists|cbn [fst snd Anchorer.queries Anchorer.record_call Anchorer.set_error]; lia]].
  destruct (truthy txId); [|split; [by eexists|cbn [fst snd Anchorer.queries Anchorer.record_call Anchorer.set_error]; lia]].
  destruct (Anchorer.poll w Anchorer.maxAttempts 0 c) as [[b|e] c']; cbn [fst snd] in *.
  - split; [by eexists|lia].
  - done.
Qed.


End Confirmation.


(** Two [PENDING] answers and a [COMPLETED] one, run: confirmed at the third query. *)
Example three_ticks_confirmed :
  (Anchorer.waitForConfirmation Examples.three_ticks_world
     (Examples.started Examples.three_ticks_world)).1 = Returned true
  ∧ Anchorer.queries (Anchorer.waitForConfirmation Examples.three_ticks_world
                        (Examples.started Examples.three_ticks_world)).2 = 3.
Proof. vm_compute. done. Qed.

(** A whole run whose 20 status answers are ['PENDING']: the later stages
    run, the summary reports success, and the process exits with status 0. *)
Example pipeline_survives_timeout :
  (Anchorer.main Examples.offline_world Examples.inv1_files).1 = 0%Z
  ∧ Anchorer.queries (Anchorer.main Examples.offline_world Examples.inv1_files).2 = 20
  ∧ Anchorer.errors (Anchorer.main Examples.offline_world Examples.inv1_files).2 = ∅
  ∧ is_Some (data_dir (Anchorer.files (Anchorer.main Examples.offline_world Examples.inv1_files).2)
             ≫= (.!! "anchor-results-inv-1-2024-01-02T04-00-00-000Z.json")).
Proof. vm_compute. split_and!; try done. by eexists. Qed.

(** C5, the code at a failing input: when every status answer is
    ['FAILED'], the error thrown for it is caught inside the loop as a
    failed status check; all 20 queries are sent, the method returns [false]
    and no error is recorded under [confirmation].  When ['FAILED'] is
    followed by ['COMPLETED'], a second query is sent and the method returns
    [true]. *)
Lemma failed_status_does_not_stop_polling :
  (Anchorer.waitForConfirmation Examples.failing_world
     (Examples.started Examples.failing_world)).1 = Returned false
  ∧ Anchorer.queries (Anchorer.waitForConfirmation Examples.failing_world
                        (Examples.started Examples.failing_world)).2 = 20
  ∧ Anchorer.errors (Anchorer.waitForConfirmation Examples.failing_world
                       (Examples.started Examples.failing_world)).2 !! "confirmation" = None
  ∧ (Anchorer.waitForConfirmation Examples.failed_then_completed_world
       (Examples.started Examples.failed_then_completed_world)).1 = Returned true
  ∧ Anchorer.queries (Anchorer.waitForConfirmation Examples.failed_then_completed_world
                        (Examples.started Examples.failed_then_completed_world)).2 = 2.
Proof. vm_compute. done. Qed.

(** C7, the code at a failing input: the first answer brings the hash
    ["abc"], which is merged into the tracked record; the second answer
    reports ['COMPLETED'] and carries no hash; it replaces the tracked
    record, whose [txHash] is absent from then on, for the same transaction. *)
Lemma completed_answer_drops_hash :
  Polling.tracked_hash (Anchorer.check_status Examples.hash_then_none_world
                          (Examples.started Examples.hash_then_none_world)).2 = VStr "abc"
  ∧ (Anchorer.waitForConfirmation Examples.hash_then_none_world
       (Examples.started Examples.hash_then_none_world)).1 = Returned true
  ∧ Polling.tracked_hash (Anchorer.waitForConfirmation Examples.hash_then_none_world
                            (Examples.started Examples.hash_then_none_world)).2 = VUndef
  ∧ get_opt (Anchorer.bitcoinTransaction (Examples.started Examples.hash_then_none_world)) "id"
    = VStr "tx-1"
  ∧ get_opt (Anchorer.bitcoinTransaction
               (Anchorer.waitForConfirmation Examples.hash_then_none_world
                  (Examples.started Examples.hash_then_none_world)).2) "id"
    = VStr "tx-1".
Proof. vm_compute. done. Qed.

(** X4: a check that does not confirm never drops a hash: a tracked [txHash]
    that is not empty is not empty afterwards, whatever the answer. *)
Lemma check_status_keeps_hash w c :
  truthy (Polling.tracked_hash c) = true →
  (Anchorer.check_status w c).1 ≠ Returned true →
  truthy (Polling.tracked_hash (Anchorer.check_status w c).2) = true.
Proof.
  unfold Polling.tracked_hash, Anchorer.check_status, Anchorer.sdk. unfold_monad.
  intros Hhash.
  destruct (Anchorer.bitcoinTransaction c) as [| | | | | |fields] eqn:Htracked; try done.
  repeat (case_match; unfold mret, M_ret in *; simplify_eq/=; try done);
    try (intros _; cbn [Anchorer.bitcoinTransaction]; rewrite ?Htracked; cbn [get_opt]; done).
  all: intros _; rewrite Htracked; cbn [Anchorer.set_prop get_opt]; rewrite assoc_assign_eq.
  all: match goal with H : _ && _ = true |- _ => apply andb_true_iff in H as [? _] end; done.
Qed.

(** * [updateEnvFile] and the exit status of script 2 *)

Section EnvUpdate.
Variable w : Creator.World.

(** [updateEnvFile] returns, and what its body throws is recorded. *)
Lemma updateEnvFile_catches c :
  match Creator.updateEnvFile_body w c with
  | (Returned _, c1) => Creator.updateEnvFile w c = (Returned tt, c1)
  | (Thrown e, c1) => Creator.updateEnvFile w c = (Returned tt, Creator.set_error "envUpdate" e c1)
  end.
Proof.
  unfold Creator.updateEnvFile, try_catch, modify.
  destruct (Creator.updateEnvFile_body w c) as [[[]|e] c1]; done.
Qed.

(** [generateSummary] reads the object and leaves it as it is. *)
Lemma generateSummary_state c : (Creator.generateSummary c).2 = c.
Proof.
  unfold Creator.generateSummary, Creator.key_field. unfold_monad.
  repeat (case_match; simplify_eq/=; try done).
Qed.

(** With an error recorded, the summary is built without a throw and its
    [success] is [false]. *)
Lemma generateSummary_errors c :
  Creator.errors c ≠ ∅ →
  ∃ summary, Creator.generateSummary c = (Returned summary, c)
             ∧ Creator.success summary = VBool false
             ∧ Creator.errorCount summary = size (Creator.errors c)
             ∧ Creator.errorCount summary ≠ 0
             ∧ Creator.summary_errors summary = Creator.errors c.
Proof.
  intros Hne. apply map_size_non_empty_iff in Hne.
  unfold Creator.generateSummary. unfold_monad.
  destruct (size (Creator.errors c) =? 0)%nat eqn:E; [apply Nat.eqb_eq in E; done|].
  cbn [truthy]. eexists. split; [reflexivity|]. split_and!; done.
Qed.

(** Whatever a summary says, if [success] is [false] the process exits with 1. *)
Lemma exit_status_failure summary :
  Creator.success summary = VBool false → Creator.exit_status (Returned summary) = 1%Z.
Proof. unfold Creator.exit_status. by intros ->. Qed.

(** The body of [updateEnvFile] records no error itself. *)
Lemma updateEnvFile_body_errors c :
  Creator.errors (Creator.updateEnvFile_body w c).2 = Creator.errors c.
Proof.
  unfold Creator.updateEnvFile_body, Creator.read_env, Creator.write_env, Creator.clock,
    Creator.key_field. unfold_monad.
  repeat (case_match; simplify_eq/=; try done).
Qed.

(** A sequence returns only if its first part does. *)
Lemma bind_returned {St A B} (m : M St A) (k : A → M St B) st b st' :
  (m ≫= k) st = (Returned b, st') →
  ∃ a st1, m st = (Returned a, st1) ∧ k a st1 = (Returned b, st').
Proof. unfold mbind, M_bind. destruct (m st) as [[a|e] st1]; [eauto|done]. Qed.

(** If the object ends with an error recorded, [main] exits with status 1. *)
Lemma main_exit_status f :
  Creator.errors (Creator.main w f).2 ≠ ∅ → (Creator.main w f).1 = 1%Z.
Proof.
  unfold Creator.main, Creator.run, try_catch.
  match goal with
  | |- context [match ?m (Creator.new w f) with _ => _ end] =>
      destruct (m (Creator.new w f)) as [[summary|e] c] eqn:Hbody
  end; cbn [fst snd].
  - intros Herr.
    do 6 (apply bind_returned in Hbody as (? & ? & _ & Hbody)).
    match type of Hbody with
    | Creator.generateSummary ?c6 = _ =>
        pose proof (generateSummary_state c6) as Hstate; rewrite Hbody in Hstate;
        cbn [snd] in Hstate; subst c6
    end.
    destruct (generateSummary_errors c Herr) as (summary' & Hs & Hfalse & _).
    rewrite Hbody in Hs. injection Hs as <-. by apply exit_status_failure.
  - intros _. unfold mbind, M_bind.
    destruct (Creator.generateSummary c) as [[summary|e'] c']; done.
Qed.

(** When the stages before [updateEnvFile] have returned and its body
    throws, the run ends with that error recorded and exit status 1. *)
Lemma run_env_failure f r c5 e c6 :
  Pipeline.identity_stages w (Creator.new w f) = (Returned r, c5) →
  Creator.updateEnvFile_body w c5 = (Thrown e, c6) →
  Creator.main w f = (1%Z, Creator.set_error "envUpdate" e c6).
Proof.
  intros Hstages Hbody.
  pose proof (updateEnvFile_catches c5) as Hupdate. rewrite Hbody in Hupdate.
  destruct (generateSummary_errors (Creator.set_error "envUpdate" e c6))
    as (summary & Hsummary & Hfalse & _).
  { cbn [Creator.set_error Creator.errors]. apply insert_non_empty. }
  unfold Pipeline.identity_stages in Hstages.
  repeat (apply bind_returned in Hstages as (? & ? & ? & Hstages)).
  unfold Creator.main, Creator.run, try_catch, mbind, M_bind.
  repeat match goal with H : _ = (Returned _, _) |- _ => rewrite H; clear H end.
  cbn [fst snd]. by rewrite (exit_status_failure _ Hfalse).
Qed.

(** C10: [updateEnvFile] always returns; an error its body throws is kept
    under the stage name [envUpdate], and otherwise the error collection
    stays as it was.  A summary built with any error recorded has [success]
    [false], since [success] asks for an error count of zero; [main] then
    exits with status 1 - also when the stages before [updateEnvFile] had
    all returned and only its body throws. *)
Theorem updateEnvFile_error_fails_the_run :
  (∀ c, ∃ c',
      Creator.updateEnvFile w c = (Returned tt, c')
      ∧ match (Creator.updateEnvFile_body w c).1 with
        | Thrown e => Creator.errors c' !! "envUpdate" = Some (message e)
        | Returned _ => Creator.errors c' = Creator.errors c
        end)
  ∧ (∀ c, Creator.errors c ≠ ∅ →
          ∃ summary, Creator.generateSummary c = (Returned summary, c)
                     ∧ Creator.success summary = VBool false
                     ∧ Creator.errorCount summary ≠ 0
                     ∧ Creator.exit_status (Returned summary) = 1%Z)
  ∧ (∀ f, Creator.errors (Creator.main w f).2 ≠ ∅ → (Creator.main w f).1 = 1%Z)
  ∧ (∀ f r c5 e c6,
       Pipeline.identity_stages w (Creator.new w f) = (Returned r, c5) →
       Creator.updateEnvFile_body w c5 = (Thrown e, c6) →
       (Creator.main w f).1 = 1%Z
       ∧ Creator.errors (Creator.main w f).2 !! "envUpdate" = Some (message e)).
Proof.
  split_and!.
  - intros c. pose proof (updateEnvFile_catches c) as Hcatch.
    pose proof (updateEnvFile_body_errors c) as Herr.
    destruct (Creator.updateEnvFile_body w c) as [[[]|e] c1]; cbn [fst snd] in *.
    + exists c1. done.
    + eexists. split; [exact Hcatch|]. cbn [Creator.set_error Creator.errors].
      apply lookup_insert_eq.
  - intros c Herr. destruct (generateSummary_errors c Herr) as (summary & Hs & Hfalse & _ & Hn & _).
    exists summary. split_and!; [done..|]. by apply exit_status_failure.
  - apply main_exit_status.
  - intros f r c5 e c6 Hstages Hbody. rewrite (run_env_failure f r c5 e c6 Hstages Hbody).
    cbn [fst snd Creator.set_error Creator.errors]. split; [done|apply lookup_insert_eq].
Qed.

End EnvUpdate.

(** The theorem at a run in which only the write of [.env] fails. *)
Lemma updateEnvFile_error_fails_the_run_witness :
  (Creator.main Examples.read_only_env_world no_files).1 = 1%Z
  ∧ Creator.errors (Creator.main Examples.read_only_env_world no_files).2 !! "envUpdate"
    = Some "EACCES: permission denied, open '.env'".
Proof.
  destruct (updateEnvFile_error_fails_the_run Examples.read_only_env_world)
    as (_ & _ & _ & Hrun).
  eapply (Hrun no_files _ _ (JsError "EACCES: permission denied, open '.env'") _);
    vm_compute; reflexivity.
Defined.

(** In that run the identifier was built and saved, and only [envUpdate]
    is in the error collection. *)
Example read_only_env_run :
  Creator.errors (Creator.main Examples.read_only_env_world no_files).2
  = {[ "envUpdate" := "EACCES: permission denied, open '.env'" ]}
  ∧ Creator.longFormDid (Creator.main Examples.read_only_env_world no_files).2
    = VStr Examples.colon_uri
  ∧ is_Some (data_dir (Creator.files (Creator.main Examples.read_only_env_world no_files).2)
             ≫= (.!! "did-inv-1-2024-01-02T03-04-05-678Z.json")).
Proof. vm_compute. split_and!; try done. by eexists. Qed.

(** The same run with a writable [.env] exits with status 0. *)
Example writable_env_run :
  (Creator.main Examples.inv1_world no_files).1 = 0%Z
  ∧ Creator.errors (Creator.main Examples.inv1_world no_files).2 = ∅.
Proof. vm_compute. done. Qed.

(** * [createBitcoinTransaction]: the request and the digest *)

Section Transaction.
Variable w : Anchorer.World.


End Transaction.


(** * [loadDIDData]: which saved bundle is read back *)

(** After two saves for [inv-1], the bundle of the later one is chosen. *)
Example latest_of_two_saves :
  (Anchorer.latest_file "inv-1" ∘ Anchorer.readdir) <$> data_dir (Examples.two_saves "inv-1")
  = Some (Some "did-inv-1-2024-02-03T04-05-06-789Z.json").
Proof. vm_compute. reflexivity. Qed.

(** C8, the code at a failing input: for the investor id [keys-1] both
    saves are on disk, and [loadDIDData] finds no file, since the filter
    drops every name that contains [keys] - the investor id included - and
    throws.  In a directory that also holds a bundle of investor [inv-10],
    the file chosen for [inv-1] is that one, older than the bundle of
    [inv-1] itself. *)
Lemma loadDIDData_misses_saved_data :
  is_Some (data_dir (Examples.two_saves "keys-1")
           ≫= (.!! "did-keys-1-2024-01-02T03-04-05-678Z.json"))
  ∧ is_Some (data_dir (Examples.two_saves "keys-1")
             ≫= (.!! "did-keys-1-2024-02-03T04-05-06-789Z.json"))
  ∧ (Anchorer.loadDIDData (Examples.anchorer_world_for "keys-1" (Examples.always "PENDING"))
       (Anchorer.new (Examples.anchorer_world_for "keys-1" (Examples.always "PENDING"))
          (Examples.two_saves "keys-1"))).1
    = Thrown (JsError "No DID data files found for investor keys-1")
  ∧ is_Some (data_dir Examples.two_investors ≫= (.!! "did-inv-1-2025-01-01T00-00-00-000Z.json"))
  ∧ (Anchorer.latest_file "inv-1" ∘ Anchorer.readdir) <$> data_dir Examples.two_investors
    = Some (Some "did-inv-10-2020-01-01T00-00-00-000Z.json").
Proof. vm_compute. split_and!; try done; by eexists. Qed.

(** For an investor id that contains neither [keys] nor [public], in a
    directory that holds this investor's saves and, besides, only files the
    filter drops, the selection does what the stage is for. *)

Section Latest.
Import JsString.

Lemma leb_refl s : String.leb s s = true.
Proof. destruct (String.leb_total s s); done. Qed.

Lemma leb_trans a : ∀ b c,
  String.leb a b = true → String.leb b c = true → String.leb a c = true.
Proof.
  induction a as [|x a IH]; intros [|y b] [|z c]; try done.
  unfold String.leb in *. simpl. unfold Ascii.compare.
  destruct (N.compare_spec (N_of_ascii x) (N_of_ascii y)),
           (N.compare_spec (N_of_ascii y) (N_of_ascii z)),
           (N.compare_spec (N_of_ascii x) (N_of_ascii z)); try done; try lia.
  apply IH.
Qed.

Lemma compare_app_l p a b : String.compare (p +:+ a) (p +:+ b) = String.compare a b.
Proof.
  induction p as [|x p IH]; [done|].
  change (String.compare (String x (p +:+ a)) (String x (p +:+ b)) = String.compare a b).
  simpl. unfold Ascii.compare. by rewrite N.compare_refl.
Qed.

Lemma compare_app_r s : ∀ a b,
  String.length a = String.length b →
  String.compare (a +:+ s) (b +:+ s) = String.compare a b.
Proof.
  intros a. induction a as [|x a IH]; intros [|y b] Hlen; try done.
  - simpl. clear. induction s as [|z s IH]; [done|].
    simpl. unfold Ascii.compare. by rewrite N.compare_refl.
  - change (String.compare (String x (a +:+ s)) (String y (b +:+ s))
            = String.compare (String x a) (String y b)).
    simpl. rewrite IH; [done|]. simpl in Hlen. lia.
Qed.

(** The last element of an insertion, with no assumption on the list. *)
Lemma last_insert_sorted x l :
  last (insert_sorted x l) = if existsb (leb x) l then last l else Some x.
Proof.
  induction l as [|y l IH]; [done|].
  simpl. destruct (leb x y) eqn:E; simpl.
  - done.
  - destruct (insert_sorted x l) as [|z l'] eqn:Hins.
    + destruct l; simpl in Hins; [done|]. by destruct (leb x s).
    + change (last (y :: z :: l')) with (last (z :: l')). rewrite IH.
      destruct (existsb (leb x) l) eqn:Hex; [|done].
      by destruct l.
Qed.

Lemma insert_sorted_elem x l y : y ∈ insert_sorted x l ↔ y = x ∨ y ∈ l.
Proof.
  induction l as [|z l IH]; simpl.
  - rewrite list_elem_of_singleton, elem_of_nil. tauto.
  - destruct (leb x z); rewrite !elem_of_cons, ?IH; tauto.
Qed.

Lemma sort_elem l y : y ∈ sort l ↔ y ∈ l.
Proof.
  induction l as [|x l IH]; [done|].
  unfold sort in *. simpl. rewrite insert_sorted_elem, elem_of_cons, IH. tauto.
Qed.

(** [l.sort().reverse()[0]] is an element of [l] that no element exceeds. *)
Lemma last_sort l :
  match last (sort l) with
  | Some m => m ∈ l ∧ ∀ y, y ∈ l → String.leb y m = true
  | None => l = []
  end.
Proof.
  induction l as [|x l IH]; [done|].
  change (sort (x :: l)) with (insert_sorted x (sort l)).
  rewrite last_insert_sorted.
  destruct (existsb (leb x) (sort l)) eqn:Hex.
  - apply existsb_exists in Hex as (y & Hy & Hxy).
    destruct (last (sort l)) as [m|].
    + destruct IH as [Hm Hmax]. split; [by apply list_elem_of_further|].
      intros z [->|Hz]%elem_of_cons; [|by apply Hmax].
      apply (leb_trans _ y); [done|]. apply Hmax. by apply sort_elem, list_elem_of_In.
    + subst l. done.
  - split; [apply list_elem_of_here|].
    intros z [->|Hz]%elem_of_cons; [apply leb_refl|].
    destruct (String.leb_total z x) as [|Hxz]; [done|].
    exfalso. apply not_true_iff_false in Hex. apply Hex, existsb_exists.
    exists z. split; [|done]. by apply list_elem_of_In, sort_elem.
Qed.

Lemma count_app c a b : count c (a +:+ b) = count c a + count c b.
Proof.
  induction a as [|x a IH]; [done|].
  change (count c (String x (a +:+ b)) = count c (String x a) + count c b).
  simpl. rewrite IH. lia.
Qed.

Lemma length_append a b : String.length (a +:+ b) = String.length a + String.length b.
Proof.
  induction a as [|x a IH]; [done|].
  change (S (String.length (a +:+ b)) = S (String.length a) + String.length b). by rewrite IH.
Qed.

Lemma prefix_append p r : String.prefix p (p +:+ r) = true.
Proof.
  induction p as [|x p IH]; [by destruct r|].
  change (String.prefix (String x p) (String x (p +:+ r)) = true).
  simpl. by destruct (ascii_dec x x).
Qed.

Lemma substring_all s : String.substring 0 (String.length s) s = s.
Proof. induction s as [|y s IH]; [done|]. simpl. by rewrite IH. Qed.

Lemma substring_append a s :
  String.substring (String.length a) (String.length s) (a +:+ s) = s.
Proof.
  induction a as [|x a IH]; [apply substring_all|].
  change (String.substring (S (String.length a)) (String.length s) (String x (a +:+ s)) = s).
  exact IH.
Qed.

Lemma endsWith_append a s : endsWith (a +:+ s) s = true.
Proof.
  unfold endsWith. rewrite length_append.
  replace (String.length a + String.length s - String.length s) with (String.length a) by lia.
  rewrite substring_append, String.eqb_refl, andb_true_r. apply Nat.leb_le. lia.
Qed.

(** A pattern free of [c] that starts in [x] cannot run over a [c] after it. *)
Lemma prefix_sep c p : ∀ x y,
  count c p = 0 → String.prefix p (x +:+ String c y) = String.prefix p x.
Proof.
  induction p as [|a p IH]; intros x y Hc.
  - by destruct x.
  - simpl in Hc. destruct (Ascii.eqb_spec a c) as [->|Hne]; [done|].
    destruct x as [|b x].
    + simpl. by destruct (ascii_dec a c).
    + change (String.prefix (String a p) (String b (x +:+ String c y))
              = String.prefix (String a p) (String b x)).
      simpl. destruct (ascii_dec a b); [|done]. by apply IH.
Qed.

Lemma includes_cons b s p :
  includes (String b s) p = String.prefix p (String b s) || includes s p.
Proof. done. Qed.

(** A pattern free of [c] lies on one side of a [c]. *)
Lemma includes_sep c p x y :
  p ≠ "" → count c p = 0 →
  includes (x +:+ String c y) p = includes x p || includes y p.
Proof.
  intros Hp Hc. induction x as [|b x IH].
  - destruct p as [|a p]; [done|].
    simpl in Hc. destruct (Ascii.eqb_spec a c) as [->|Hne]; [done|].
    simpl. by destruct (ascii_dec a c).
  - change (includes (String b (x +:+ String c y)) p = includes (String b x) p || includes y p).
    rewrite !includes_cons, IH.
    change (String b (x +:+ String c y)) with (String b x +:+ String c y).
    rewrite prefix_sep by done. by rewrite orb_assoc.
Qed.

(** A pattern whose first character is not in [s] is not in [s]. *)
Lemma includes_first a p s : count a s = 0 → includes s (String a p) = false.
Proof.
  induction s as [|b s IH]; [done|].
  rewrite includes_cons. simpl. destruct (Ascii.eqb_spec b a) as [->|Hne]; [done|].
  intros Hc. rewrite IH by done.
  destruct (ascii_dec a b); [congruence|done].
Qed.

Lemma stamp_count c ts :
  Pipeline.stamp_char c = false →
  forallb Pipeline.stamp_char (String.list_ascii_of_string ts) = true →
  count c ts = 0.
Proof.
  intros Hc. induction ts as [|a ts IH]; [done|].
  simpl. intros [Ha Hts]%andb_true_iff. rewrite IH by done.
  destruct (Ascii.eqb_spec a c) as [->|]; [congruence|done].
Qed.

(** A pattern without [-] whose first character is neither in a time stamp
    nor in [did] or [.json] can only be in the investor id. *)
Lemma didDataFile_includes investor ts a p :
  count "-" (String a p) = 0 →
  count a "did" = 0 →
  count a ".json" = 0 →
  count a ts = 0 →
  includes (Creator.didDataFile investor ts) (String a p) = includes investor (String a p).
Proof.
  intros Hdash Hdid Hjson Hts. unfold Creator.didDataFile.
  change ("did-" +:+ investor +:+ "-" +:+ ts +:+ ".json")
    with ("did" +:+ String "-" (investor +:+ String "-" (ts +:+ ".json"))).
  rewrite !includes_sep by done.
  rewrite (includes_first a p "did") by done.
  rewrite (includes_first a p (ts +:+ ".json")) by (rewrite count_app; lia).
  by rewrite orb_false_r.
Qed.

(** The name of a saved bundle passes the filter of [loadDIDData]. *)
Lemma didDataFile_passes investor ts :
  includes investor "keys" = false →
  includes investor "public" = false →
  Pipeline.is_stamp ts = true →
  Anchorer.is_did_data_file investor (Creator.didDataFile investor ts) = true.
Proof.
  intros Hkeys Hpublic [_ Hts]%andb_true_iff.
  unfold Anchorer.is_did_data_file.
  rewrite (didDataFile_includes investor ts "k" "eys"), Hkeys
    by (done || by apply stamp_count).
  rewrite (didDataFile_includes investor ts "p" "ublic"), Hpublic
    by (done || by apply stamp_count).
  rewrite !andb_true_r. apply andb_true_iff. split.
  - unfold startsWith, Creator.didDataFile.
    replace ("did-" +:+ investor +:+ "-" +:+ ts +:+ ".json")
      with (("did-" +:+ investor) +:+ "-" +:+ ts +:+ ".json"); [apply prefix_append|].
    clear. induction investor; done.
  - unfold Creator.didDataFile.
    replace ("did-" +:+ investor +:+ "-" +:+ ts +:+ ".json")
      with (("did-" +:+ investor +:+ "-" +:+ ts) +:+ ".json"); [apply endsWith_append|].
    change (String "d" (String "i" (String "d" (String "-" ((investor +:+ "-" +:+ ts) +:+ ".json"))))
            = String "d" (String "i" (String "d" (String "-" (investor +:+ "-" +:+ ts +:+ ".json"))))).
    do 4 f_equal. clear. induction investor as [|x investor IH].
    + change (String "-" (ts +:+ ".json") = String "-" (ts +:+ ".json")). done.
    + change (String x ((investor +:+ "-" +:+ ts) +:+ ".json")
              = String x (investor +:+ "-" +:+ ts +:+ ".json")). by rewrite IH.
Qed.

(** The files with the keys and the public file never pass it. *)
Lemma other_files_dropped investor investor' ts :
  Anchorer.is_did_data_file investor (Creator.didKeysFile investor' ts) = false
  ∧ Anchorer.is_did_data_file investor (Creator.didPublicFile investor') = false.
Proof.
  unfold Anchorer.is_did_data_file, Creator.didKeysFile, Creator.didPublicFile.
  assert (includes ("did-keys-" +:+ investor' +:+ "-" +:+ ts +:+ ".json") "keys" = true) as ->.
  { clear. change (includes (String "d" (String "i" (String "d" (String "-"
                     ("keys" +:+ String "-" (investor' +:+ "-" +:+ ts +:+ ".json")))))) "keys" = true).
    rewrite !includes_cons.
    assert (includes ("keys" +:+ String "-" (investor' +:+ "-" +:+ ts +:+ ".json")) "keys" = true)
      as ->; [|by rewrite !orb_true_r].
    rewrite includes_sep by done. done. }
  assert (includes ("did-public-" +:+ investor' +:+ ".json") "public" = true) as ->.
  { clear. change (includes (String "d" (String "i" (String "d" (String "-"
                     ("public" +:+ String "-" (investor' +:+ ".json")))))) "public" = true).
    rewrite !includes_cons.
    assert (includes ("public" +:+ String "-" (investor' +:+ ".json")) "public" = true)
      as ->; [|by rewrite !orb_true_r].
    rewrite includes_sep by done. done. }
  by rewrite !andb_false_r.
Qed.

(** Among names of one investor with stamps of one length, the order of the
    names is the order of the stamps. *)
Lemma didDataFile_leb investor a b :
  String.length a = String.length b →
  String.leb (Creator.didDataFile investor a) (Creator.didDataFile investor b) = String.leb a b.
Proof.
  intros Hlen. unfold String.leb, Creator.didDataFile.
  by rewrite !compare_app_l, compare_app_r.
Qed.

Lemma is_stamp_length ts : Pipeline.is_stamp ts = true → String.length ts = 24.
Proof. intros [Hlen _]%andb_true_iff. by apply Nat.eqb_eq. Qed.

(** X6: the selection of [loadDIDData], where it works: the investor id contains
    neither [keys] nor [public], the names that pass the filter are the
    bundles saved for this investor, and [latest] is the greatest of their
    time stamps.  Then the bundle stamped [latest] is the one chosen. *)
Theorem latest_file_of_saves investor (stamps : list string) latest (names : list string) :
  includes investor "keys" = false →
  includes investor "public" = false →
  (∀ ts, ts ∈ stamps → Pipeline.is_stamp ts = true) →
  (∀ ts, ts ∈ stamps → Creator.didDataFile investor ts ∈ names) →
  (∀ name, name ∈ names → Anchorer.is_did_data_file investor name = true →
           ∃ ts, ts ∈ stamps ∧ name = Creator.didDataFile investor ts) →
  latest ∈ stamps →
  (∀ ts, ts ∈ stamps → String.leb ts latest = true) →
  Anchorer.latest_file investor names = Some (Creator.didDataFile investor latest).
Proof.
  intros Hkeys Hpublic Hstamps Hsaved Honly Hlatest Hmax.
  unfold Anchorer.latest_file. rewrite head_reverse.
  set (found := List.filter (Anchorer.is_did_data_file investor) names).
  assert (Creator.didDataFile investor latest ∈ found) as Hin.
  { apply list_elem_of_In, filter_In. split; [by apply list_elem_of_In, Hsaved|].
    apply didDataFile_passes; auto. }
  pose proof (last_sort found) as Hlast.
  destruct (last (sort found)) as [m|]; [|by rewrite Hlast in Hin; apply elem_of_nil in Hin].
  destruct Hlast as [Hm Hgreatest].
  apply list_elem_of_In, filter_In in Hm as [Hm Hpass].
  destruct (Honly m) as (ts & Hts & ->); [by apply list_elem_of_In|done|].
  f_equal. f_equal. apply String.leb_antisym; [by apply Hmax|].
  rewrite <-(didDataFile_leb investor latest ts).
  - by apply Hgreatest.
  - rewrite !is_stamp_length; auto.
Qed.

End Latest.

(** X6 at work: the listing of a directory after two saves for [inv-1]. *)
Lemma latest_file_of_two_saves :
  Anchorer.latest_file "inv-1"
    [ "did-inv-1-2024-01-02T03-04-05-678Z.json";
      "did-keys-inv-1-2024-01-02T03-04-05-678Z.json";
      "did-inv-1-2024-02-03T04-05-06-789Z.json";
      "did-keys-inv-1-2024-02-03T04-05-06-789Z.json";
      "did-public-inv-1.json" ]
  = Some (Creator.didDataFile "inv-1" "2024-02-03T04-05-06-789Z").
Proof.
  apply (latest_file_of_saves "inv-1"
           ["2024-01-02T03-04-05-678Z"; "2024-02-03T04-05-06-789Z"]); try done.
  - intros ts Hts. repeat (apply elem_of_cons in Hts as [->|Hts]; [done|]).
    by apply elem_of_nil in Hts.
  - intros ts Hts.
    apply elem_of_cons in Hts as [->|Hts]; [apply list_elem_of_here|].
    apply elem_of_cons in Hts as [->|Hts];
      [do 2 apply list_elem_of_further; apply list_elem_of_here|].
    by apply elem_of_nil in Hts.
  - intros name Hname Hpass.
    apply elem_of_cons in Hname as [->|Hname].
    { exists "2024-01-02T03-04-05-678Z". split; [apply list_elem_of_here|done]. }
    apply elem_of_cons in Hname as [->|Hname]; [by vm_compute in Hpass|].
    apply elem_of_cons in Hname as [->|Hname].
    { exists "2024-02-03T04-05-06-789Z".
      split; [apply list_elem_of_further, list_elem_of_here|done]. }
    apply elem_of_cons in Hname as [->|Hname]; [by vm_compute in Hpass|].
    apply elem_of_cons in Hname as [->|Hname]; [by vm_compute in Hpass|].
    by apply elem_of_nil in Hname.
  - apply list_elem_of_further, list_elem_of_here.
  - intros ts Hts. repeat (apply elem_of_cons in Hts as [->|Hts]; [done|]).
    by apply elem_of_nil in Hts.
Defined.

(** * More about [waitForConfirmation] *)

Section Ticks.
Import Polling.
Variable w : Anchorer.World.

(** A turn whose query settles nothing: the query is counted and recorded,
    no error is, and the transaction is still monitored. *)
Lemma check_status_unsettled c txId :
  monitoring c txId →
  unsettled w (Anchorer.queries c) txId →
  (Anchorer.check_status w c).1 ≠ Returned true
  ∧ monitoring (Anchorer.check_status w c).2 txId
  ∧ Anchorer.queries (Anchorer.check_status w c).2 = S (Anchorer.queries c)
  ∧ Anchorer.errors (Anchorer.check_status w c).2 = Anchorer.errors c
  ∧ Anchorer.calls (Anchorer.check_status w c).2
    = Anchorer.calls c ++ [Anchorer.CallGetTransaction txId].
Proof.
  intros Hmon Hquiet. destruct (Hmon) as (Hsdk & Hid & fields & Htracked & <-).
  destruct Hquiet as [[e He]|(data & Hdata & Hcompleted)].
  - unfold Anchorer.check_status, Anchorer.sdk. unfold_monad.
    rewrite Hsdk, Htracked. cbn [get].
    cbn [Anchorer.set_queries Anchorer.record_call Anchorer.queries]. rewrite He.
    cbn [fst snd]. split_and!; done.
  - rewrite (check_status_answered w c fields data Hsdk Htracked Hdata), Hcompleted.
    destruct (after_check_monitoring c fields data Htracked Hmon) as (Hmon1 & Hq1 & He1).
    assert (Anchorer.calls (after_check c fields data)
            = Anchorer.calls c ++ [Anchorer.CallGetTransaction (assoc "id" fields)]) as Hcalls.
    { unfold after_check. by destruct (truthy _ && _). }
    destruct (Anchorer.strict_eq _ (VStr "FAILED") || _); cbn [fst snd]; split_and!; done.
Qed.

(** The turn that is answered ['COMPLETED']. *)
Lemma check_status_completed c txId data :
  monitoring c txId →
  answers w (Anchorer.queries c) txId data →
  completed data = true →
  (Anchorer.check_status w c).1 = Returned true
  ∧ Anchorer.bitcoinTransaction (Anchorer.check_status w c).2 = VObj data
  ∧ Anchorer.queries (Anchorer.check_status w c).2 = S (Anchorer.queries c)
  ∧ Anchorer.errors (Anchorer.check_status w c).2 = Anchorer.errors c
  ∧ Anchorer.calls (Anchorer.check_status w c).2
    = Anchorer.calls c ++ [Anchorer.CallGetTransaction txId].
Proof.
  intros Hmon Hdata Hcompleted. destruct (Hmon) as (Hsdk & Hid & fields & Htracked & <-).
  rewrite (check_status_answered w c fields data Hsdk Htracked Hdata), Hcompleted.
  destruct (after_check_monitoring c fields data Htracked Hmon) as (Hmon1 & Hq1 & He1).
  cbn [fst snd Anchorer.set_bitcoinTransaction Anchorer.bitcoinTransaction Anchorer.queries
       Anchorer.errors Anchorer.calls].
  split_and!; try done.
  unfold after_check. by destruct (truthy _ && _).
Qed.

(** The loop over turns that settle nothing, up to a first ['COMPLETED']
    answer if there is one within the turns left. *)
Lemma poll_rounds fuel : ∀ attempts c txId,
  monitoring c txId →
  attempts + fuel = Anchorer.maxAttempts →
  (∀ j data,
     j < fuel →
     (∀ k, k < j → unsettled w (Anchorer.queries c + k) txId) →
     answers w (Anchorer.queries c + j) txId data →
     completed data = true →
     ∃ c', Anchorer.poll w fuel attempts c = (Returned true, c')
           ∧ Anchorer.bitcoinTransaction c' = VObj data
           ∧ Anchorer.queries c' = Anchorer.queries c + S j
           ∧ Anchorer.errors c' = Anchorer.errors c
           ∧ Anchorer.calls c'
             = Anchorer.calls c ++ rounds txId j ++ [Anchorer.CallGetTransaction txId])
  ∧ ((∀ k, k < fuel → unsettled w (Anchorer.queries c + k) txId) →
     ∃ c', Anchorer.poll w fuel attempts c = (Returned false, c')
           ∧ monitoring c' txId
           ∧ Anchorer.queries c' = Anchorer.queries c + fuel
           ∧ Anchorer.errors c' = Anchorer.errors c
           ∧ Anchorer.calls c'
             = Anchorer.calls c ++ match fuel with
                                   | 0 => []
                                   | S n => rounds txId n ++ [Anchorer.CallGetTransaction txId]
                                   end).
Proof.
  induction fuel as [|fuel IH]; intros attempts c txId Hmon Hbudget.
  { split; [intros; lia|]. intros _. exists c. rewrite app_nil_r. split_and!; [done|done|lia|done|done]. }
  assert ((attempts <? Anchorer.maxAttempts)%nat = true) as Hlt by (apply Nat.ltb_lt; lia).
  assert (∀ c1,
    (Anchorer.check_status w c).1 ≠ Returned true →
    (Anchorer.check_status w c).2 = c1 →
    Anchorer.poll w (S fuel) attempts c
    = Anchorer.poll w fuel (S attempts)
        (if (S attempts <? Anchorer.maxAttempts)%nat
         then Anchorer.record_call (Anchorer.CallSleep Anchorer.checkInterval) c1 else c1))
    as Hturn.
  { intros c1 Hno <-. rewrite poll_turn, Hlt.
    destruct (Anchorer.check_status w c) as [[[]|] c1]; done. }
  split.
  - intros j data Hj Hbefore Hlast Hdone. destruct j as [|j].
    + rewrite Nat.add_0_r in Hlast.
      destruct (check_status_completed c txId data Hmon Hlast Hdone) as (Hr & Htx & Hq & He & Hc).
      rewrite poll_turn, Hlt.
      destruct (Anchorer.check_status w c) as [[[]|] c1]; cbn [fst snd] in *; try done.
      exists c1. split_and!; [done|done|lia|done|done].
    + destruct (check_status_unsettled c txId Hmon) as (Hno & Hmon1 & Hq1 & He1 & Hc1).
      { rewrite <-(Nat.add_0_r (Anchorer.queries c)). apply Hbefore. lia. }
      rewrite (Hturn _ Hno eq_refl).
      assert ((S attempts <? Anchorer.maxAttempts)%nat = true) as -> by (apply Nat.ltb_lt; lia).
      set (c2 := Anchorer.record_call _ _).
      destruct (IH (S attempts) c2 txId) as [Hconfirm _]; [done|lia|].
      destruct (Hconfirm j data) as (c' & Hpoll & Htx & Hq & He & Hc); [lia| | |done|].
      { intros k Hk. unfold c2. cbn [Anchorer.record_call Anchorer.queries]. rewrite Hq1.
        replace (S (Anchorer.queries c) + k) with (Anchorer.queries c + S k) by lia.
        apply Hbefore. lia. }
      { unfold c2. cbn [Anchorer.record_call Anchorer.queries]. rewrite Hq1.
        by replace (S (Anchorer.queries c) + j) with (Anchorer.queries c + S j) by lia. }
      exists c'. split_and!; [done|done| |rewrite He; exact He1|].
      * rewrite Hq. unfold c2. cbn [Anchorer.record_call Anchorer.queries]. lia.
      * rewrite Hc. unfold c2. cbn [Anchorer.record_call Anchorer.calls]. rewrite Hc1.
        cbn [rounds]. by rewrite <-!app_assoc.
  - intros Hquiet.
    destruct (check_status_unsettled c txId Hmon) as (Hno & Hmon1 & Hq1 & He1 & Hc1).
    { rewrite <-(Nat.add_0_r (Anchorer.queries c)). apply Hquiet. lia. }
    rewrite (Hturn _ Hno eq_refl).
    destruct fuel as [|fuel].
    + assert ((S attempts <? Anchorer.maxAttempts)%nat = false) as -> by (apply Nat.ltb_ge; lia).
      eexists. split; [reflexivity|]. split_and!; [done|lia|done|done].
    + assert ((S attempts <? Anchorer.maxAttempts)%nat = true) as -> by (apply Nat.ltb_lt; lia).
      set (c2 := Anchorer.record_call _ _).
      destruct (IH (S attempts) c2 txId) as [_ Hrest]; [done|lia|].
      destruct Hrest as (c' & Hpoll & Hmon' & Hq & He & Hc).
      { intros k Hk. unfold c2. cbn [Anchorer.record_call Anchorer.queries]. rewrite Hq1.
        replace (S (Anchorer.queries c) + k) with (Anchorer.queries c + S k) by lia.
        apply Hquiet. lia. }
      exists c'. split_and!; [done|done| |rewrite He; exact He1|].
      * rewrite Hq. unfold c2. cbn [Anchorer.record_call Anchorer.queries]. lia.
      * rewrite Hc. unfold c2. cbn [Anchorer.record_call Anchorer.calls]. rewrite Hc1.
        cbn [rounds]. by rewrite <-!app_assoc.
Qed.

End Ticks.

Section Waiting.
Import Polling.
Variable w : Anchorer.World.

(** X1: the loop ends at the first answer that says ['COMPLETED'], whatever
    happened to the queries before it: thrown queries and answers with any
    other status (also ['FAILED'] and ['REJECTED']) only cost a turn.  If
    that answer comes at turn [j + 1] of the 20, the method returns [true]
    with the answer as tracked record, after [j + 1] queries and [j] waits of
    one interval, none of them after the confirming query, and records no
    error. *)
Theorem waitForConfirmation_first_completed c txId j data :
  monitoring c txId →
  j < Anchorer.maxAttempts →
  (∀ k, k < j → unsettled w (Anchorer.queries c + k) txId) →
  answers w (Anchorer.queries c + j) txId data →
  completed data = true →
  ∃ c', Anchorer.waitForConfirmation w c = (Returned true, c')
        ∧ Anchorer.bitcoinTransaction c' = VObj data
        ∧ Anchorer.queries c' = Anchorer.queries c + S j
        ∧ Anchorer.errors c' = Anchorer.errors c
        ∧ Anchorer.calls c'
          = Anchorer.calls c ++ rounds txId j ++ [Anchorer.CallGetTransaction txId].
Proof.
  intros Hmon Hj Hbefore Hlast Hdone.
  rewrite (waitForConfirmation_monitoring w c txId Hmon).
  destruct (poll_rounds w Anchorer.maxAttempts 0 c txId Hmon eq_refl) as [Hconfirm _].
  by apply Hconfirm.
Qed.

(** X2: when none of the 20 queries settles anything (each one throws or is
    answered with a status other than ['COMPLETED']), the method returns
    [false] after exactly 20 queries and 19 waits: it does not wait after the
    last query.  No error is recorded, and the transaction is still tracked. *)
Theorem waitForConfirmation_gives_up c txId :
  monitoring c txId →
  (∀ k, k < 20 → unsettled w (Anchorer.queries c + k) txId) →
  ∃ c', Anchorer.waitForConfirmation w c = (Returned false, c')
        ∧ monitoring c' txId
        ∧ Anchorer.queries c' = Anchorer.queries c + 20
        ∧ Anchorer.errors c' = Anchorer.errors c
        ∧ Anchorer.calls c'
          = Anchorer.calls c ++ rounds txId 19 ++ [Anchorer.CallGetTransaction txId].
Proof.
  intros Hmon Hquiet.
  rewrite (waitForConfirmation_monitoring w c txId Hmon).
  destruct (poll_rounds w Anchorer.maxAttempts 0 c txId Hmon eq_refl) as [_ Hrest].
  by apply Hrest.
Qed.

(** X3: without a transaction to monitor (none tracked, or one without an id)
    the method sends no query: it returns [false] at once and records
    [No Bitcoin transaction to monitor] under [confirmation]. *)
Theorem waitForConfirmation_nothing_to_monitor c :
  truthy (Anchorer.bitcoinTransaction c)
  && truthy (get_opt (Anchorer.bitcoinTransaction c) "id") = false →
  Anchorer.waitForConfirmation w c
  = (Returned false, Anchorer.set_error "confirmation" Anchorer.nothing_to_monitor c)
  ∧ Anchorer.errors (Anchorer.waitForConfirmation w c).2 !! "confirmation"
    = Some "No Bitcoin transaction to monitor"
  ∧ Anchorer.queries (Anchorer.waitForConfirmation w c).2 = Anchorer.queries c
  ∧ Anchorer.calls (Anchorer.waitForConfirmation w c).2 = Anchorer.calls c.
Proof.
  intros Hnone.
  assert (Anchorer.waitForConfirmation w c
          = (Returned false, Anchorer.set_error "confirmation" Anchorer.nothing_to_monitor c))
    as ->.
  { unfold Anchorer.waitForConfirmation. unfold_monad.
    destruct (Anchorer.bitcoinTransaction c) as [| |b|z|s|items|fields];
      cbn [truthy get get_opt] in Hnone |- *; try done.
    - by destruct b.
    - by destruct (negb (z =? 0)%Z).
    - by destruct (negb (String.eqb s "")).
    - rewrite andb_true_l in Hnone. by rewrite Hnone. }
  split_and!; try done.
  cbn [snd Anchorer.set_error Anchorer.errors]. by rewrite lookup_insert_eq.
Qed.

(** X5: [createBitcoinTransaction] and what follows it.  If the method returns,
    the object tracks the [data] of the service's answer, one transaction was
    asked for and no error was recorded; if that record has an id that is not
    empty, [waitForConfirmation] has a transaction to monitor.  If the method
    throws, the message is recorded under [bitcoinTransaction] and no status
    query was sent. *)
Theorem createBitcoinTransaction_outcome c :
  match Anchorer.createBitcoinTransaction w c with
  | (Returned tx, c') =>
      Anchorer.bitcoinTransaction c' = tx
      ∧ Anchorer.errors c' = Anchorer.errors c
      ∧ (∃ request, Anchorer.calls c' = Anchorer.calls c ++ [Anchorer.CallCreateTransaction request]
                    ∧ ∃ response, Anchorer.createTransaction w request = Returned response
                                  ∧ get response "data" = Returned tx)
      ∧ (truthy (get_opt tx "id") = true → monitoring c' (get_opt tx "id"))
  | (Thrown e, c') =>
      Anchorer.errors c' = <["bitcoinTransaction" := message e]> (Anchorer.errors c)
      ∧ Anchorer.queries c' = Anchorer.queries c
  end.
Proof.
  unfold Anchorer.createBitcoinTransaction, Anchorer.recording, Anchorer.clock_ms, Anchorer.sdk.
  unfold_monad.
  cbn [Anchorer.log Anchorer.didData Anchorer.ticks Anchorer.set_ticks Anchorer.fireblocksSDK].
  destruct (get (Anchorer.didData c) "did") as [did|] eqn:Hdid; [|done].
  destruct (get did "shortForm") as [shortForm|] eqn:Hshort; [|done].
  destruct (on_string "substring" (JsString.substring0 50) shortForm) as [short50|]; [|done].
  destruct (Anchorer.fireblocksSDK c) eqn:Hsdk; [|done].
  cbn [Anchorer.record_call Anchorer.set_ticks Anchorer.log].
  destruct (Anchorer.createTransaction w _) as [response|] eqn:Hcreate; [|done].
  destruct (get response "data") as [tx|] eqn:Hdata; [|done].
  destruct (get tx "id") as [txId|] eqn:Hid; [|done].
  split_and!; [done|done| |].
  - eexists. split; [reflexivity|]. by exists response.
  - intros Htruthy. split_and!; [done|done|].
    destruct tx as [| | | | | |fields]; try done. by exists fields.
Qed.

End Waiting.

(** X1 where the first query fails on the network and the second is
    answered ['COMPLETED']. *)
Lemma waitForConfirmation_first_completed_witness :
  ∃ c', Anchorer.waitForConfirmation Examples.transient_world
          (Examples.started Examples.transient_world) = (Returned true, c')
        ∧ Anchorer.bitcoinTransaction c'
          = VObj [("id", VStr "tx-1"); ("status", VStr "COMPLETED"); ("txHash", VStr "abc")]
        ∧ Anchorer.queries c' = Anchorer.queries (Examples.started Examples.transient_world) + 2
        ∧ Anchorer.errors c' = Anchorer.errors (Examples.started Examples.transient_world)
        ∧ Anchorer.calls c'
          = Anchorer.calls (Examples.started Examples.transient_world)
            ++ Polling.rounds (VStr "tx-1") 1 ++ [Anchorer.CallGetTransaction (VStr "tx-1")].
Proof.
  apply (waitForConfirmation_first_completed Examples.transient_world
           (Examples.started Examples.transient_world) (VStr "tx-1") 1).
  - split_and!; [vm_compute; reflexivity|reflexivity|].
    eexists. split; [vm_compute; reflexivity|reflexivity].
  - vm_compute. lia.
  - intros k Hk. left. exists Examples.unreachable.
    destruct k as [|k]; [reflexivity|lia].
  - eexists. split; reflexivity.
  - reflexivity.
Defined.

(** X2 where no status query gets through. *)
Lemma waitForConfirmation_gives_up_witness :
  ∃ c', Anchorer.waitForConfirmation Examples.outage_world
          (Examples.started Examples.outage_world) = (Returned false, c')
        ∧ Polling.monitoring c' (VStr "tx-1")
        ∧ Anchorer.queries c' = Anchorer.queries (Examples.started Examples.outage_world) + 20
        ∧ Anchorer.errors c' = Anchorer.errors (Examples.started Examples.outage_world)
        ∧ Anchorer.calls c'
          = Anchorer.calls (Examples.started Examples.outage_world)
            ++ Polling.rounds (VStr "tx-1") 19 ++ [Anchorer.CallGetTransaction (VStr "tx-1")].
Proof.
  apply (waitForConfirmation_gives_up Examples.outage_world
           (Examples.started Examples.outage_world) (VStr "tx-1")).
  - split_and!; [vm_compute; reflexivity|reflexivity|].
    eexists. split; [vm_compute; reflexivity|reflexivity].
  - intros k Hk. left. exists Examples.unreachable. reflexivity.
Defined.

(** X3 at an anchorer that has not created a transaction. *)
Lemma waitForConfirmation_nothing_to_monitor_witness :
  Anchorer.waitForConfirmation Examples.offline_world Examples.loaded_anchorer
  = (Returned false,
     Anchorer.set_error "confirmation" Anchorer.nothing_to_monitor Examples.loaded_anchorer)
  ∧ Anchorer.errors (Anchorer.waitForConfirmation Examples.offline_world
                       Examples.loaded_anchorer).2 !! "confirmation"
    = Some "No Bitcoin transaction to monitor"
  ∧ Anchorer.queries (Anchorer.waitForConfirmation Examples.offline_world
                        Examples.loaded_anchorer).2
    = Anchorer.queries Examples.loaded_anchorer
  ∧ Anchorer.calls (Anchorer.waitForConfirmation Examples.offline_world
                      Examples.loaded_anchorer).2
    = Anchorer.calls Examples.loaded_anchorer.
Proof.
  apply (waitForConfirmation_nothing_to_monitor Examples.offline_world Examples.loaded_anchorer).
  vm_compute. reflexivity.
Defined.

(** X4 at the second check of a transaction whose first answer brought the
    hash and whose second brings none. *)
Lemma check_status_keeps_hash_witness :
  truthy (Polling.tracked_hash
            (Anchorer.check_status Examples.offline_world
               (Anchorer.check_status Examples.hash_then_none_world
                  (Examples.started Examples.hash_then_none_world)).2).2) = true.
Proof.
  apply check_status_keeps_hash.
  - vm_compute. reflexivity.
  - vm_compute. discriminate.
Defined.

(** X7: the choice of [loadDIDData] in a directory of ASCII names,
    whatever they are.  The file chosen is one of the listing that passes the
    filter, no file that passes the filter comes after it in the order of
    [sort], and it is never the keys file or the public file of any
    investor. *)
Theorem latest_file_is_a_bundle investor (names : list string) chosen :
  Forall (λ name, Pipeline.plain name = true) names →
  Anchorer.latest_file investor names = Some chosen →
  chosen ∈ names
  ∧ Anchorer.is_did_data_file investor chosen = true
  ∧ (∀ other, other ∈ names → Anchorer.is_did_data_file investor other = true →
              String.leb other chosen = true)
  ∧ ∀ investor' ts, chosen ≠ Creator.didKeysFile investor' ts
                    ∧ chosen ≠ Creator.didPublicFile investor'.
Proof.
  intros _. unfold Anchorer.latest_file. rewrite head_reverse.
  pose proof (last_sort (List.filter (Anchorer.is_did_data_file investor) names)) as Hlast.
  destruct (last _) as [m|]; [|done]. intros [= ->].
  destruct Hlast as [Hin Hmax]. apply list_elem_of_In, filter_In in Hin as [Hin Hpass].
  split_and!; [by apply list_elem_of_In|done| |].
  - intros other Hother Hp. apply Hmax, list_elem_of_In, filter_In.
    split; [by apply list_elem_of_In|done].
  - intros investor' ts.
    pose proof (other_files_dropped investor investor' ts) as [Hk Hp].
    split; intros ->; congruence.
Qed.

(** X7 at the listing after two saves for [inv-1]. *)
Lemma latest_file_is_a_bundle_witness :
  "did-inv-1-2024-02-03T04-05-06-789Z.json"
    ∈ [ "did-inv-1-2024-01-02T03-04-05-678Z.json";
        "did-keys-inv-1-2024-01-02T03-04-05-678Z.json";
        "did-inv-1-2024-02-03T04-05-06-789Z.json";
        "did-keys-inv-1-2024-02-03T04-05-06-789Z.json";
        "did-public-inv-1.json" ]
  ∧ Anchorer.is_did_data_file "inv-1" "did-inv-1-2024-02-03T04-05-06-789Z.json" = true
  ∧ (∀ other,
       other ∈ [ "did-inv-1-2024-01-02T03-04-05-678Z.json";
                 "did-keys-inv-1-2024-01-02T03-04-05-678Z.json";
                 "did-inv-1-2024-02-03T04-05-06-789Z.json";
                 "did-keys-inv-1-2024-02-03T04-05-06-789Z.json";
                 "did-public-inv-1.json" ] →
       Anchorer.is_did_data_file "inv-1" other = true →
       String.leb other "did-inv-1-2024-02-03T04-05-06-789Z.json" = true)
  ∧ ∀ investor' ts,
      "did-inv-1-2024-02-03T04-05-06-789Z.json" ≠ Creator.didKeysFile investor' ts
      ∧ "did-inv-1-2024-02-03T04-05-06-789Z.json" ≠ Creator.didPublicFile investor'.
Proof.
  apply (latest_file_is_a_bundle "inv-1").
  - repeat (constructor; [reflexivity|]). constructor.
  - vm_compute. reflexivity.
Defined.

(** * The run of script 2 *)

Section CreatorRun.
Variable w : Creator.World.

Lemma foldl_log_frame lines c :
  let c' := foldl (λ c line, Creator.log line c) c lines in
  Creator.keyPairs c' = Creator.keyPairs c
  ∧ Creator.files c' = Creator.files c
  ∧ Creator.didInstance c' = Creator.didInstance c
  ∧ Creator.longFormDid c' = Creator.longFormDid c
  ∧ Creator.ticks c' = Creator.ticks c
  ∧ Creator.investorId c' = Creator.investorId c.
Proof.
  revert c. induction lines as [|l lines IH]; intros c; simpl; [done|].
  destruct (IH (Creator.log l c)) as (-> & -> & -> & -> & -> & ->). done.
Qed.

Lemma check_addresses_frame l v c :
  let c' := (Creator.check_addresses l v c).2 in
  Creator.keyPairs c' = Creator.keyPairs c
  ∧ Creator.files c' = Creator.files c
  ∧ Creator.didInstance c' = Creator.didInstance c
  ∧ Creator.longFormDid c' = Creator.longFormDid c
  ∧ Creator.ticks c' = Creator.ticks c
  ∧ Creator.investorId c' = Creator.investorId c.
Proof.
  revert v c. induction l as [|[network address] l IH]; intros v c; simpl; [done|].
  destruct (IH (if Creator.absent address then false else v)
              (foldl (λ c line, Creator.log line c) c (Creator.address_lines network address)))
    as (-> & -> & -> & -> & -> & ->).
  apply foldl_log_frame.
Qed.

Lemma validateWalletAddresses_frame c :
  let c' := (Creator.validateWalletAddresses c).2 in
  Creator.keyPairs c' = Creator.keyPairs c
  ∧ Creator.files c' = Creator.files c
  ∧ Creator.didInstance c' = Creator.didInstance c
  ∧ Creator.longFormDid c' = Creator.longFormDid c
  ∧ Creator.ticks c' = Creator.ticks c
  ∧ Creator.investorId c' = Creator.investorId c.
Proof.
  unfold Creator.validateWalletAddresses.
  set (c0 := Creator.log "STEP 1: Validating Wallet Addresses" c).
  pose proof (check_addresses_frame (Creator.requiredAddresses c0) true c0) as H.
  destruct (Creator.check_addresses (Creator.requiredAddresses c0) true c0) as [v c1].
  cbn [snd] in H. destruct v; cbn [negb snd]; exact H.
Qed.

(** X12: a run without the three wallet addresses does nothing.  When one
    of them is missing from the environment, [main] exits with status 1
    and the summary carries the message of [validateWalletAddresses] as
    [mainError]; no key pair was asked for, no [DID] instance built, no file
    touched - and the error collection is empty, so the summary counts no
    error although the run failed. *)
Theorem run_without_addresses f :
  forallb (λ e, negb (Creator.absent e.2)) (Creator.requiredAddresses (Creator.new w f)) = false →
  (Creator.main w f).1 = 1%Z
  ∧ (∃ summary, (Creator.run w (Creator.new w f)).1 = Returned summary
                ∧ Creator.mainError summary
                  = Some "Missing required wallet addresses. Run wallet extraction first."
                ∧ Creator.errorCount summary = 0)
  ∧ Creator.errors (Creator.main w f).2 = ∅
  ∧ Creator.keyPairs (Creator.main w f).2 = 0
  ∧ Creator.didInstance (Creator.main w f).2 = None
  ∧ Creator.files (Creator.main w f).2 = f.
Proof.
  intros Hmissing.
  destruct (validateWalletAddresses_spec (Creator.new w f)) as (Hr & _ & He).
  pose proof (validateWalletAddresses_frame (Creator.new w f)) as (Hk & Hf & Hd & Hl & _).
  cbv zeta in Hr. rewrite Hmissing in Hr.
  assert (∃ summary,
    Creator.run w (Creator.new w f)
    = (Returned (Creator.failed Creator.missing_addresses summary),
       (Creator.validateWalletAddresses (Creator.new w f)).2)
    ∧ Creator.errorCount summary = 0) as (summary & Hrun & Hcount).
  { unfold Creator.run, try_catch. unfold mbind at 1, M_bind at 1.
    destruct (Creator.validateWalletAddresses (Creator.new w f)) as [r c1]. cbn [fst snd] in *.
    subst r. unfold Creator.generateSummary. unfold_monad.
    rewrite He, Hl. cbn [Creator.new Creator.errors Creator.longFormDid].
    rewrite map_size_empty. cbn [Nat.eqb truthy].
    eexists. split; [reflexivity|]. done. }
  unfold Creator.main. rewrite Hrun. cbn [fst snd Creator.exit_status Creator.failed
    Creator.success truthy].
  split_and!; try done.
  eexists. split; [reflexivity|]. done.
Qed.


Lemma saveDIDData_returned c r c' :
  Creator.saveDIDData w c = (Returned r, c') →
  let ts := JsString.dashes (Creator.now w (Creator.ticks c)) in
  let investor := Creator.investorId c in
  ∃ d request didData keys publicData,
    Creator.didInstance c = Some d
    ∧ Creator.generateRequest d 0 = Returned request
    ∧ get r "didData" = Returned didData
    ∧ get_opt (get_opt didData "operations") "createRequest" = request
    ∧ get_opt didData "did" = Creator.did_pair c
    ∧ (∃ roles, get_opt didData "keys" = VObj roles ∧ keys = VObj roles)
    ∧ get_opt publicData "createRequest" = request
    ∧ Creator.files c'
      = {| data_dir := Some (<[Creator.didPublicFile investor := Creator.stringify w publicData]>
                            (<[Creator.didKeysFile investor ts := Creator.stringify w keys]>
                            (<[Creator.didDataFile investor ts := Creator.stringify w didData]>
                               (default ∅ (data_dir (Creator.files c))))));
           env_file := env_file (Creator.files c) |}
    ∧ Creator.errors c' = Creator.errors c
    ∧ Creator.ticks c' = S (S (Creator.ticks c))
    ∧ Creator.keyPairs c' = Creator.keyPairs c
    ∧ Creator.didInstance c' = Creator.didInstance c
    ∧ Creator.didKeys c' = Creator.didKeys c
    ∧ Creator.longFormDid c' = Creator.longFormDid c
    ∧ Creator.shortFormDid c' = Creator.shortFormDid c
    ∧ Creator.investorId c' = Creator.investorId c
    ∧ ∃ short, Creator.shortFormDid c = VStr short
               ∧ get_opt (get_opt didData "metadata") "didIdentifier"
                 = VStr (JsString.after_last ":" short).
Proof.
  unfold Creator.saveDIDData, Creator.getCreateRequest, Creator.recording, Creator.ensure_data_dir,
    Creator.clock, Creator.instance, Creator.key_field, Creator.write_data.
  unfold_monad. intros H.
  repeat (case_match; simplify_eq/=; try done).
  all: eexists _, _, _, _, _; split_and!; try done; try reflexivity.
  all: try (eexists; split; reflexivity).
  all: match goal with
       | H : on_string _ _ ?v = Returned _ |- _ =>
           destruct v; simplify_eq/=; eexists; split; reflexivity
       end.
Qed.




Lemma generateLongFormDID_frame c :
  let c' := (Creator.generateLongFormDID c).2 in
  Creator.keyPairs c' = Creator.keyPairs c
  ∧ Creator.files c' = Creator.files c
  ∧ Creator.ticks c' = Creator.ticks c
  ∧ Creator.investorId c' = Creator.investorId c.
Proof.
  unfold Creator.generateLongFormDID, Creator.recording, Creator.instance.
  unfold_monad.
  repeat (case_match; simplify_eq/=; try done).
Qed.






(** X15: one failure, two errors.  [saveDIDData] asks [getCreateRequest] for
    the request inside its own [try]: when generating the request throws,
    the message is recorded under [createRequest] by the inner method and
    again under [saveData] by the outer one, and the error is thrown on.  A
    run that had no error before thus counts two; no file is written. *)
Theorem saveDIDData_request_failure c d e short :
  is_Some (data_dir (Creator.files c)) ∨ Creator.mkdir_fails w = None →
  Creator.shortFormDid c = VStr short →
  Creator.didInstance c = Some d →
  Creator.generateRequest d 0 = Thrown e →
  ∃ c', Creator.saveDIDData w c = (Thrown e, c')
        ∧ Creator.errors c'
          = <["saveData" := message e]> (<["createRequest" := message e]> (Creator.errors c))
        ∧ (Creator.errors c = ∅ → size (Creator.errors c') = 2)
        ∧ default ∅ (data_dir (Creator.files c')) = default ∅ (data_dir (Creator.files c))
        ∧ env_file (Creator.files c') = env_file (Creator.files c).
Proof.
  intros Hdir Hshort Hinstance Hrequest.
  unfold Creator.saveDIDData, Creator.getCreateRequest, Creator.recording, Creator.ensure_data_dir,
    Creator.clock, Creator.instance. unfold_monad.
  assert (∀ c1 : Creator.t, Creator.errors c1 = Creator.errors c →
     Creator.errors (Creator.set_error "saveData" e (Creator.set_error "createRequest" e c1))
     = <["saveData" := message e]> (<["createRequest" := message e]> (Creator.errors c))
     ∧ (Creator.errors c = ∅ →
        size (Creator.errors (Creator.set_error "saveData" e
                                (Creator.set_error "createRequest" e c1))) = 2)) as Herrors.
  { intros c1 Hc1. cbn [Creator.set_error Creator.errors]. rewrite Hc1. split; [done|].
    intros ->. rewrite insert_empty, map_size_insert_None, map_size_singleton; [done|].
    by rewrite lookup_singleton_ne. }
  destruct (data_dir (Creator.files c)) as [d0|] eqn:Hd0.
  - cbn [Creator.set_ticks Creator.shortFormDid Creator.didInstance]. rewrite Hshort.
    cbn [on_string]. rewrite Hinstance, Hrequest.
    eexists. split; [reflexivity|].
    destruct (Herrors (Creator.set_ticks (S (Creator.ticks c)) c) eq_refl) as [H1 H2].
    split_and!; [exact H1|exact H2| |done].
    cbn [Creator.set_error Creator.set_ticks Creator.files]. by rewrite Hd0.
  - destruct Hdir as [[? [=]]| ->].
    cbn [Creator.set_ticks Creator.set_files Creator.shortFormDid Creator.didInstance].
    rewrite Hshort. cbn [on_string]. rewrite Hinstance, Hrequest.
    eexists. split; [reflexivity|].
    destruct (Herrors (Creator.set_ticks (S (Creator.ticks c))
                (Creator.set_files {| data_dir := Some ∅; env_file := env_file (Creator.files c) |} c))
                eq_refl) as [H1 H2].
    split_and!; [exact H1|exact H2|done|done].
Qed.

(** X14: what [saveDIDData] leaves when it returns.  It wrote exactly three
    files into [./data], kept what was there and did not touch [.env]: the
    bundle and the keys file, named by the investor id and the time stamp of
    the first clock reading, and the public file, named by the investor id
    alone - so a later run replaces it.  The bundle holds the request the
    [DID] instance generated under [operations.createRequest], the long and
    short form under [did], and as [metadata.didIdentifier] what stands after
    the last colon of the short form.  No error is recorded. *)
Theorem saveDIDData_writes_three_files c r c' :
  Creator.saveDIDData w c = (Returned r, c') →
  let ts := JsString.dashes (Creator.now w (Creator.ticks c)) in
  let investor := Creator.investorId c in
  ∃ d request didData keys publicData,
    Creator.didInstance c = Some d
    ∧ Creator.generateRequest d 0 = Returned request
    ∧ get r "didData" = Returned didData
    ∧ get_opt (get_opt didData "operations") "createRequest" = request
    ∧ get_opt didData "did" = Creator.did_pair c
    ∧ (∃ roles, get_opt didData "keys" = VObj roles ∧ keys = VObj roles)
    ∧ get_opt publicData "createRequest" = request
    ∧ Creator.files c'
      = {| data_dir := Some (<[Creator.didPublicFile investor := Creator.stringify w publicData]>
                            (<[Creator.didKeysFile investor ts := Creator.stringify w keys]>
                            (<[Creator.didDataFile investor ts := Creator.stringify w didData]>
                               (default ∅ (data_dir (Creator.files c))))));
           env_file := env_file (Creator.files c) |}
    ∧ Creator.errors c' = Creator.errors c
    ∧ ∃ short, Creator.shortFormDid c = VStr short
               ∧ get_opt (get_opt didData "metadata") "didIdentifier"
                 = VStr (JsString.after_last ":" short).
Proof.
  intros Hsave.
  destruct (saveDIDData_returned c r c' Hsave)
    as (d & request & didData & keys & publicData & H1 & H2 & H3 & H4 & H5 & H6 & H7 & H8 & H9
        & _ & _ & _ & _ & _ & _ & _ & H10).
  exists d, request, didData, keys, publicData. split_and!; done.
Qed.

End CreatorRun.

(** X12 at a world where no wallet address was extracted. *)
Lemma run_without_addresses_witness :
  (Creator.main Examples.no_wallets_world no_files).1 = 1%Z
  ∧ (∃ summary, (Creator.run Examples.no_wallets_world
                   (Creator.new Examples.no_wallets_world no_files)).1 = Returned summary
                ∧ Creator.mainError summary
                  = Some "Missing required wallet addresses. Run wallet extraction first."
                ∧ Creator.errorCount summary = 0)
  ∧ Creator.errors (Creator.main Examples.no_wallets_world no_files).2 = ∅
  ∧ Creator.keyPairs (Creator.main Examples.no_wallets_world no_files).2 = 0
  ∧ Creator.didInstance (Creator.main Examples.no_wallets_world no_files).2 = None
  ∧ Creator.files (Creator.main Examples.no_wallets_world no_files).2 = no_files.
Proof.
  apply (run_without_addresses Examples.no_wallets_world no_files).
  vm_compute. reflexivity.
Defined.


(** X14 at the save of the examples. *)
Lemma saveDIDData_writes_three_files_witness :
  ∃ d request didData keys publicData,
    Creator.didInstance Examples.inv1_before_save = Some d
    ∧ Creator.generateRequest d 0 = Returned request
    ∧ get Examples.inv1_saved_result "didData" = Returned didData
    ∧ get_opt (get_opt didData "operations") "createRequest" = request
    ∧ get_opt didData "did" = Creator.did_pair Examples.inv1_before_save
    ∧ (∃ roles, get_opt didData "keys" = VObj roles ∧ keys = VObj roles)
    ∧ get_opt publicData "createRequest" = request
    ∧ Creator.files (Creator.saveDIDData Examples.inv1_world Examples.inv1_before_save).2
      = {| data_dir :=
             Some (<[Creator.didPublicFile (Creator.investorId Examples.inv1_before_save)
                     := Creator.stringify Examples.inv1_world publicData]>
                  (<[Creator.didKeysFile (Creator.investorId Examples.inv1_before_save)
                       (JsString.dashes (Creator.now Examples.inv1_world
                                           (Creator.ticks Examples.inv1_before_save)))
                     := Creator.stringify Examples.inv1_world keys]>
                  (<[Creator.didDataFile (Creator.investorId Examples.inv1_before_save)
                       (JsString.dashes (Creator.now Examples.inv1_world
                                           (Creator.ticks Examples.inv1_before_save)))
                     := Creator.stringify Examples.inv1_world didData]>
                     (default ∅ (data_dir (Creator.files Examples.inv1_before_save))))));
           env_file := env_file (Creator.files Examples.inv1_before_save) |}
    ∧ Creator.errors (Creator.saveDIDData Examples.inv1_world Examples.inv1_before_save).2
      = Creator.errors Examples.inv1_before_save
    ∧ ∃ short, Creator.shortFormDid Examples.inv1_before_save = VStr short
               ∧ get_opt (get_opt didData "metadata") "didIdentifier"
                 = VStr (JsString.after_last ":" short).
Proof.
  apply (saveDIDData_writes_three_files Examples.inv1_world Examples.inv1_before_save
           Examples.inv1_saved_result
           (Creator.saveDIDData Examples.inv1_world Examples.inv1_before_save).2).
  vm_compute. reflexivity.
Defined.

(** X15 at a creator whose [DID] instance cannot generate its request. *)
Lemma saveDIDData_request_failure_witness :
  ∃ c', Creator.saveDIDData Examples.inv1_world Examples.broken_request
        = (Thrown (JsError "request failed"), c')
        ∧ Creator.errors c'
          = <["saveData" := "request failed"]>
              (<["createRequest" := "request failed"]> (Creator.errors Examples.broken_request))
        ∧ (Creator.errors Examples.broken_request = ∅ → size (Creator.errors c') = 2)
        ∧ default ∅ (data_dir (Creator.files c'))
          = default ∅ (data_dir (Creator.files Examples.broken_request))
        ∧ env_file (Creator.files c') = env_file (Creator.files Examples.broken_request).
Proof.
  apply (saveDIDData_request_failure Examples.inv1_world Examples.broken_request
           Examples.broken_did (JsError "request failed") Examples.colon_uri).
  - right. reflexivity.
  - reflexivity.
  - reflexivity.
  - reflexivity.
Defined.


(** * From script 2 to script 3: the bundle on disk *)

Section RoundTrip.
Import JsString.

Lemma readdir_elem (d : gmap string string) (name : string) :
  name ∈ Anchorer.readdir d ↔ is_Some (d !! name).
Proof.
  unfold Anchorer.readdir. rewrite list_elem_of_fmap. split.
  - intros ([k v] & -> & Hin). apply elem_of_map_to_list in Hin. by eexists.
  - intros [v Hv]. exists (name, v). split; [done|]. by apply elem_of_map_to_list.
Qed.


(** When no name passes the filter, none is chosen. *)
Lemma latest_file_none investor (names : list string) :
  (∀ y, y ∈ names → Anchorer.is_did_data_file investor y = false) →
  Anchorer.latest_file investor names = None.
Proof.
  intros Hnone. unfold Anchorer.latest_file.
  assert (List.filter (Anchorer.is_did_data_file investor) names = []) as ->; [|done].
  induction names as [|y names IH]; [done|]. simpl.
  rewrite (Hnone y) by apply list_elem_of_here.
  apply IH. intros z Hz. apply Hnone. by apply list_elem_of_further.
Qed.

Variable wc : Creator.World.
Variable wa : Anchorer.World.


End RoundTrip.

Section Defaults.
Import JsString.
Variable wc : Creator.World.
Variable wa : Anchorer.World.

(** X17: the default investor ids of the two scripts differ.  With
    [INVESTOR_ID] not set, script 2 works for [investor-001] and script 3
    for [test-investor-001]: none of the three files script 2 then saves
    passes the filter of [loadDIDData], which - in a directory with nothing
    else for that investor - throws
    [No DID data files found for investor test-investor-001] and records it. *)
Theorem default_investor_ids_differ f c r c' :
  Creator.env wc !! "INVESTOR_ID" = None →
  Anchorer.env wa !! "INVESTOR_ID" = None →
  Creator.investorId c = Creator.investorId (Creator.new wc f) →
  (∀ name, is_Some (default ∅ (data_dir (Creator.files c)) !! name) →
           Anchorer.is_did_data_file "test-investor-001" name = false) →
  Creator.saveDIDData wc c = (Returned r, c') →
  Creator.investorId (Creator.new wc f) = "investor-001"
  ∧ Anchorer.investorId (Anchorer.config (Anchorer.new wa (Creator.files c'))) = "test-investor-001"
  ∧ (Anchorer.loadDIDData wa (Anchorer.new wa (Creator.files c'))).1
    = Thrown (JsError "No DID data files found for investor test-investor-001")
  ∧ Anchorer.errors (Anchorer.loadDIDData wa (Anchorer.new wa (Creator.files c'))).2
    = {[ "loadDIDData" := "No DID data files found for investor test-investor-001" ]}.
Proof.
  intros Hc Ha Hinvestor Hbefore Hsave.
  assert (Creator.investorId (Creator.new wc f) = "investor-001") as Hdefault.
  { cbn [Creator.new Creator.investorId]. unfold Creator.env_or. by rewrite Hc. }
  rewrite Hdefault in Hinvestor.
  destruct (saveDIDData_returned wc _ _ _ Hsave)
    as (d & request & didData & keys & publicData & _ & _ & _ & _ & _ & _ & _ & Hf & _).
  rewrite Hinvestor in Hf.
  set (ts := dashes (Creator.now wc (Creator.ticks c))) in *.
  pose proof (other_files_dropped "test-investor-001" "investor-001" ts) as [Hk Hp].
  assert (Anchorer.is_did_data_file "test-investor-001" (Creator.didDataFile "investor-001" ts)
          = false) as Hd by done.
  unfold Anchorer.loadDIDData, Anchorer.recording. unfold_monad.
  cbn [Anchorer.new Anchorer.files Anchorer.config Anchorer.investorId Anchorer.errors].
  unfold Anchorer.env_or at 1 2 3 4 5. rewrite Ha, Hf. cbn [data_dir].
  rewrite latest_file_none.
  { cbn [fst snd Anchorer.set_error Anchorer.errors message]. split_and!; done. }
  intros y Hy. apply readdir_elem in Hy.
  destruct (decide (y = Creator.didPublicFile "investor-001")) as [->|Hne1]; [done|].
  rewrite lookup_insert_ne in Hy by done.
  destruct (decide (y = Creator.didKeysFile "investor-001" ts)) as [->|Hne2]; [done|].
  rewrite lookup_insert_ne in Hy by done.
  destruct (decide (y = Creator.didDataFile "investor-001" ts)) as [->|Hne3]; [done|].
  rewrite lookup_insert_ne in Hy by done.
  by apply Hbefore.
Qed.

End Defaults.


(** X17 at the worlds of the examples with [INVESTOR_ID] taken away. *)
Lemma default_investor_ids_differ_witness :
  Creator.investorId (Creator.new Examples.unnamed_creator_world no_files) = "investor-001"
  ∧ Anchorer.investorId
      (Anchorer.config
         (Anchorer.new Examples.unnamed_anchorer_world
            (Creator.files (Creator.saveDIDData Examples.unnamed_creator_world
                              Examples.unnamed_before_save).2)))
    = "test-investor-001"
  ∧ (Anchorer.loadDIDData Examples.unnamed_anchorer_world
       (Anchorer.new Examples.unnamed_anchorer_world
          (Creator.files (Creator.saveDIDData Examples.unnamed_creator_world
                            Examples.unnamed_before_save).2))).1
    = Thrown (JsError "No DID data files found for investor test-investor-001")
  ∧ Anchorer.errors
      (Anchorer.loadDIDData Examples.unnamed_anchorer_world
         (Anchorer.new Examples.unnamed_anchorer_world
            (Creator.files (Creator.saveDIDData Examples.unnamed_creator_world
                              Examples.unnamed_before_save).2))).2
    = {[ "loadDIDData" := "No DID data files found for investor test-investor-001" ]}.
Proof.
  eapply (default_investor_ids_differ Examples.unnamed_creator_world
            Examples.unnamed_anchorer_world no_files Examples.unnamed_before_save).
  - vm_compute. reflexivity.
  - vm_compute. reflexivity.
  - vm_compute. reflexivity.
  - intros name [content Hname]. vm_compute in Hname. discriminate.
  - vm_compute. reflexivity.
Defined.

(** * The run of script 3 *)

Section AnchorerRun.
Import Polling.
Variable w : Anchorer.World.

Lemma validateRequirements_state c : (Anchorer.validateRequirements w c).2 = c.
Proof.
  unfold Anchorer.validateRequirements. unfold_monad.
  by destruct (forallb _ _).
Qed.

Lemma initializeFireblocks_returned c r c' :
  Anchorer.initializeFireblocks w c = (Returned r, c') →
  Anchorer.fireblocksSDK c' = true
  ∧ Anchorer.files c' = Anchorer.files c
  ∧ Anchorer.errors c' = Anchorer.errors c
  ∧ Anchorer.queries c' = Anchorer.queries c
  ∧ Anchorer.config c' = Anchorer.config c.
Proof.
  unfold Anchorer.initializeFireblocks, Anchorer.recording. unfold_monad. intros H.
  repeat (case_match; simplify_eq/=; try done).
Qed.

Lemma loadDIDData_returned c r c' :
  Anchorer.loadDIDData w c = (Returned r, c') →
  Anchorer.fireblocksSDK c' = Anchorer.fireblocksSDK c
  ∧ Anchorer.files c' = Anchorer.files c
  ∧ Anchorer.errors c' = Anchorer.errors c
  ∧ Anchorer.queries c' = Anchorer.queries c
  ∧ Anchorer.config c' = Anchorer.config c.
Proof.
  unfold Anchorer.loadDIDData, Anchorer.recording. unfold_monad. intros H.
  repeat (case_match; simplify_eq/=; try done).
Qed.

Lemma submitToIONNode_returned c r c' :
  Anchorer.submitToIONNode w c = (Returned r, c') →
  Anchorer.fireblocksSDK c' = Anchorer.fireblocksSDK c
  ∧ Anchorer.files c' = Anchorer.files c
  ∧ Anchorer.errors c' = Anchorer.errors c
  ∧ Anchorer.queries c' = Anchorer.queries c
  ∧ Anchorer.config c' = Anchorer.config c
  ∧ Anchorer.anchorResponse c' = r.
Proof.
  unfold Anchorer.submitToIONNode, Anchorer.recording, Anchorer.primary_tier,
    Anchorer.direct_tier, Anchorer.degraded_tier, Anchorer.clock. unfold_monad. intros H.
  repeat (case_match; simplify_eq/=; try done).
Qed.

Lemma createBitcoinTransaction_returned c tx c' :
  Anchorer.createBitcoinTransaction w c = (Returned tx, c') →
  Anchorer.fireblocksSDK c' = true
  ∧ Anchorer.bitcoinTransaction c' = tx
  ∧ Anchorer.files c' = Anchorer.files c
  ∧ Anchorer.errors c' = Anchorer.errors c
  ∧ Anchorer.queries c' = Anchorer.queries c
  ∧ Anchorer.config c' = Anchorer.config c
  ∧ Anchorer.anchorResponse c' = Anchorer.anchorResponse c.
Proof.
  unfold Anchorer.createBitcoinTransaction, Anchorer.recording, Anchorer.clock_ms, Anchorer.sdk.
  unfold_monad. intros H.
  repeat (case_match; simplify_eq/=; try done).
Qed.

Lemma anchoring_stages_returned f tx c5 :
  Pipeline.anchoring_stages w (Anchorer.new w f) = (Returned tx, c5) →
  Anchorer.fireblocksSDK c5 = true
  ∧ Anchorer.bitcoinTransaction c5 = tx
  ∧ Anchorer.files c5 = f
  ∧ Anchorer.errors c5 = ∅
  ∧ Anchorer.queries c5 = 0
  ∧ Anchorer.config c5 = Anchorer.config (Anchorer.new w f).
Proof.
  unfold Pipeline.anchoring_stages. intros H.
  apply bind_returned in H as (r1 & c1 & H1 & H).
  apply bind_returned in H as (r2 & c2 & H2 & H).
  apply bind_returned in H as (r3 & c3 & H3 & H).
  apply bind_returned in H as (r4 & c4 & H4 & H).
  pose proof (validateRequirements_state (Anchorer.new w f)) as Hv. rewrite H1 in Hv.
  cbn [snd] in Hv. subst c1.
  destruct (initializeFireblocks_returned _ _ _ H2) as (_ & F2 & E2 & Q2 & C2).
  destruct (loadDIDData_returned _ _ _ H3) as (_ & F3 & E3 & Q3 & C3).
  destruct (submitToIONNode_returned _ _ _ H4) as (_ & F4 & E4 & Q4 & C4 & _).
  destruct (createBitcoinTransaction_returned _ _ _ H) as (S5 & T5 & F5 & E5 & Q5 & C5 & _).
  split_and!; [done|done| | | |].
  - by rewrite F5, F4, F3, F2.
  - by rewrite E5, E4, E3, E2.
  - by rewrite Q5, Q4, Q3, Q2.
  - by rewrite C5, C4, C3, C2.
Qed.





(** [saveAnchoringResults] returns; either it wrote the result file and
    recorded nothing, or it recorded an error under [saveResults]. *)
Lemma saveAnchoringResults_outcome c :
  ∃ c', Anchorer.saveAnchoringResults w c = (Returned tt, c')
        ∧ Anchorer.queries c' = Anchorer.queries c
        ∧ Anchorer.fireblocksSDK c' = Anchorer.fireblocksSDK c
        ∧ Anchorer.config c' = Anchorer.config c
        ∧ Anchorer.bitcoinTransaction c' = Anchorer.bitcoinTransaction c
        ∧ Anchorer.anchorResponse c' = Anchorer.anchorResponse c
        ∧ ((Anchorer.errors c' = Anchorer.errors c
            ∧ env_file (Anchorer.files c') = env_file (Anchorer.files c)
            ∧ ∃ content,
                data_dir (Anchorer.files c')
                = Some (<["anchor-results-" +:+ Anchorer.investorId (Anchorer.config c) +:+ "-"
                          +:+ JsString.dashes (Anchorer.now w (Anchorer.ticks c)) +:+ ".json"
                          := content]> (default ∅ (data_dir (Anchorer.files c)))))
           ∨ (∃ e, Anchorer.errors c' = <["saveResults" := message e]> (Anchorer.errors c)
                   ∧ (is_Some (Anchorer.mkdir_fails w)
                      ∨ ∃ path, is_Some (Anchorer.write_fails w path)))).
Proof.
  unfold Anchorer.saveAnchoringResults, Anchorer.clock, Anchorer.write_data. unfold_monad.
  repeat (case_match; simplify_eq/=; try done).
  all: eexists; split; [reflexivity|]; split_and!; try done.
  all: try (left; split_and!; [done|done|by eexists]).
  all: right; eexists; split; [reflexivity|]; eauto.
Qed.

(** [updateEnvFile] returns; either it wrote [.env] and recorded nothing, or
    it recorded an error under [envUpdate]. *)
Lemma updateEnvFile_outcome c :
  ∃ c', Anchorer.updateEnvFile w c = (Returned tt, c')
        ∧ Anchorer.queries c' = Anchorer.queries c
        ∧ Anchorer.fireblocksSDK c' = Anchorer.fireblocksSDK c
        ∧ Anchorer.config c' = Anchorer.config c
        ∧ Anchorer.bitcoinTransaction c' = Anchorer.bitcoinTransaction c
        ∧ Anchorer.anchorResponse c' = Anchorer.anchorResponse c
        ∧ data_dir (Anchorer.files c') = data_dir (Anchorer.files c)
        ∧ ((Anchorer.errors c' = Anchorer.errors c ∧ is_Some (env_file (Anchorer.files c')))
           ∨ (∃ e, Anchorer.errors c' = <["envUpdate" := message e]> (Anchorer.errors c)
                   ∧ (is_Some (Anchorer.read_fails w ".env")
                      ∨ is_Some (Anchorer.write_fails w ".env")))).
Proof.
  unfold Anchorer.updateEnvFile, Anchorer.clock. unfold_monad.
  with_strategy opaque [Anchorer.apply_update foldl]
    (repeat (case_match; simplify_eq/=; try done)).
  all: eexists; split; [reflexivity|]; split_and!; try done.
  all: try (left; split; [done|by eexists]).
  all: right; eexists; split; [reflexivity|]; eauto.
Qed.

Lemma generateSummary_returns c :
  ∃ summary, Anchorer.generateSummary c = (Returned summary, c)
             ∧ Anchorer.success summary
               = (if (size (Anchorer.errors c) =? 0)%nat
                  then Anchorer.or_else (Anchorer.anchorResponse c) (Anchorer.bitcoinTransaction c)
                  else VBool false).
Proof. eexists. split; reflexivity. Qed.


(** The run, stage by stage. *)
Lemma run_stages f tx c5 :
  Pipeline.anchoring_stages w (Anchorer.new w f) = (Returned tx, c5) →
  ∃ b c6 c7 c8 summary,
    Anchorer.waitForConfirmation w c5 = (Returned b, c6)
    ∧ Anchorer.saveAnchoringResults w c6 = (Returned tt, c7)
    ∧ Anchorer.updateEnvFile w c7 = (Returned tt, c8)
    ∧ Anchorer.generateSummary c8 = (Returned summary, c8)
    ∧ Anchorer.run w (Anchorer.new w f) = (Returned summary, c8).
Proof.
  intros H.
  destruct (waitForConfirmation_any w c5) as ([b Hb] & _).
  destruct (Anchorer.waitForConfirmation w c5) as [r6 c6] eqn:H6. cbn [fst] in Hb. subst r6.
  destruct (saveAnchoringResults_outcome c6) as (c7 & H7 & _).
  destruct (updateEnvFile_outcome c7) as (c8 & H8 & _).
  destruct (generateSummary_returns c8) as (summary & H9 & _).
  exists b, c6, c7, c8, summary. split_and!; try done.
  unfold Pipeline.anchoring_stages in H.
  apply bind_returned in H as (r1 & c1 & H1 & H).
  apply bind_returned in H as (r2 & c2 & H2 & H).
  apply bind_returned in H as (r3 & c3 & H3 & H).
  apply bind_returned in H as (r4 & c4 & H4 & H).
  unfold Anchorer.run, try_catch, mbind, M_bind.
  by rewrite H1, H2, H3, H4, H, H6, H7, H8, H9.
Qed.

(** X8: a run that gets as far as [waitForConfirmation] ends with exit status
    0 when the transaction is never confirmed: the time-out is no error.  If
    the transaction has an id, none of the 20 queries settles anything, and
    the result file and [.env] can be written, then [main] exits with 0
    after the 20 queries, with no error recorded. *)
Theorem unconfirmed_run_exits_zero f tx c5 :
  Pipeline.anchoring_stages w (Anchorer.new w f) = (Returned tx, c5) →
  truthy (get_opt tx "id") = true →
  (∀ k, k < 20 → unsettled w k (get_opt tx "id")) →
  Anchorer.mkdir_fails w = None →
  (∀ path, Anchorer.write_fails w path = None) →
  Anchorer.read_fails w ".env" = None →
  (Anchorer.main w f).1 = 0%Z
  ∧ Anchorer.queries (Anchorer.main w f).2 = 20
  ∧ Anchorer.errors (Anchorer.main w f).2 = ∅
  ∧ (Anchorer.waitForConfirmation w c5).1 = Returned false.
Proof.
  intros Hstages Hid Hquiet Hmkdir Hwrite Hread.
  destruct (anchoring_stages_returned f tx c5 Hstages) as (Hsdk & Htx & Hf & He & Hq & Hc).
  assert (monitoring c5 (get_opt tx "id")) as Hmon.
  { split_and!; [done|done|]. rewrite Htx.
    destruct tx as [| | | | | |fields]; try done. by exists fields. }
  destruct (run_stages f tx c5 Hstages) as (b & c6 & c7 & c8 & summary & H6 & H7 & H8 & H9 & Hrun).
  rewrite (waitForConfirmation_monitoring w c5 _ Hmon) in H6.
  destruct (poll_rounds w Anchorer.maxAttempts 0 c5 _ Hmon eq_refl) as [_ Hrest].
  destruct Hrest as (c6' & Hpoll & Hmon6 & Hq6 & He6 & _).
  { intros k Hk. rewrite Hq. by apply Hquiet. }
  rewrite Hpoll in H6. injection H6 as <- <-.
  destruct (saveAnchoringResults_outcome c6') as (c7' & H7' & Q7 & _ & _ & T7 & _ & [(E7 & _)|Hfail]).
  2:{ destruct Hfail as (e & _ & [Hm|[path Hp]]).
      - rewrite Hmkdir in Hm. by destruct Hm.
      - rewrite Hwrite in Hp. by destruct Hp. }
  rewrite H7 in H7'. injection H7' as <-.
  destruct (updateEnvFile_outcome c7) as (c8' & H8' & Q8 & _ & _ & T8 & _ & _ & [(E8 & _)|Hfail]).
  2:{ destruct Hfail as (e & _ & [Hr|Hp]).
      - rewrite Hread in Hr. by destruct Hr.
      - rewrite Hwrite in Hp. by destruct Hp. }
  rewrite H8 in H8'. injection H8' as <-.
  destruct (generateSummary_returns c8) as (summary' & H9' & Hsuccess).
  rewrite H9 in H9'. injection H9' as <-.
  assert (Anchorer.errors c8 = ∅) as Herrors by (by rewrite E8, E7, He6, He).
  rewrite Herrors, map_size_empty in Hsuccess. cbn [Nat.eqb] in Hsuccess.
  unfold Anchorer.main. rewrite Hrun. cbn [fst snd Anchorer.exit_status].
  rewrite (waitForConfirmation_monitoring w c5 _ Hmon), Hpoll.
  split_and!; [|by rewrite Q8, Q7, Hq6, Hq|done|done].
  rewrite Hsuccess, T8, T7. unfold Anchorer.or_else.
  destruct Hmon6 as (_ & _ & fields & -> & _).
  destruct (truthy (Anchorer.anchorResponse c8)) eqn:Hresponse; [by rewrite Hresponse|done].
Qed.




(** X10: without its configuration the script does nothing: if one of the six
    required settings is missing, [main] exits with status 1 and leaves the
    object as the constructor made it - no call went out, no file was
    touched, and the error collection is empty. *)
Theorem run_without_configuration f :
  forallb (λ r, truthy r.2) (Anchorer.requirements w (Anchorer.new w f)) = false →
  Anchorer.main w f = (1%Z, Anchorer.new w f)
  ∧ ∃ summary, Anchorer.run w (Anchorer.new w f) = (Returned summary, Anchorer.new w f)
               ∧ Anchorer.mainError summary = Some (message Anchorer.missing_configuration)
               ∧ Anchorer.errorCount summary = 0.
Proof.
  intros Hmissing.
  assert (∃ summary, Anchorer.run w (Anchorer.new w f) = (Returned summary, Anchorer.new w f)
               ∧ Anchorer.success summary = VBool false
               ∧ Anchorer.mainError summary = Some (message Anchorer.missing_configuration)
               ∧ Anchorer.errorCount summary = 0) as (summary & Hrun & Hs & Hm & Hc).
  { unfold Anchorer.run, try_catch. unfold mbind at 1, M_bind at 1.
    unfold Anchorer.validateRequirements at 1. unfold_monad. rewrite Hmissing.
    eexists. split; [reflexivity|]. done. }
  split; [|by exists summary].
  unfold Anchorer.main. rewrite Hrun. cbn [Anchorer.exit_status]. by rewrite Hs.
Qed.

(** X11: with the configuration complete but no private key file at the
    configured path, [main] exits with status 1 before any call goes out:
    the SDK is not built, and the only trace is the message recorded under
    [fireblocksInit], which names the path. *)
Theorem run_without_key_file f path :
  forallb (λ r, truthy r.2) (Anchorer.requirements w (Anchorer.new w f)) = true →
  Anchorer.env w !! "FIREBLOCKS_SECRET_KEY_PATH" = Some path →
  Anchorer.key_file w path = None →
  Anchorer.main w f
  = (1%Z, Anchorer.set_error "fireblocksInit"
            (JsError ("Fireblocks private key file not found: " +:+ path)) (Anchorer.new w f))
  ∧ Anchorer.calls (Anchorer.main w f).2 = []
  ∧ Anchorer.fireblocksSDK (Anchorer.main w f).2 = false
  ∧ Anchorer.files (Anchorer.main w f).2 = f.
Proof.
  intros Hall Hpath Hkey.
  assert (Anchorer.main w f
          = (1%Z, Anchorer.set_error "fireblocksInit"
                    (JsError ("Fireblocks private key file not found: " +:+ path))
                    (Anchorer.new w f))) as ->; [|done].
  unfold Anchorer.main, Anchorer.run, try_catch. unfold mbind at 1, M_bind at 1.
  unfold Anchorer.validateRequirements at 1. unfold_monad. rewrite Hall.
  unfold Anchorer.initializeFireblocks, Anchorer.recording. unfold_monad.
  rewrite Hpath. cbn [mbind option_bind]. rewrite Hkey.
  cbn [Anchorer.generateSummary]. unfold Anchorer.generateSummary. unfold_monad.
  cbn [Anchorer.set_error Anchorer.errors Anchorer.new].
  rewrite insert_empty, map_size_singleton. done.
Qed.

End AnchorerRun.

(** X8 at the run of the examples in which no status query gets through. *)
Lemma unconfirmed_run_exits_zero_witness :
  (Anchorer.main Examples.outage_world Examples.inv1_files).1 = 0%Z
  ∧ Anchorer.queries (Anchorer.main Examples.outage_world Examples.inv1_files).2 = 20
  ∧ Anchorer.errors (Anchorer.main Examples.outage_world Examples.inv1_files).2 = ∅
  ∧ (Anchorer.waitForConfirmation Examples.outage_world
       (Examples.started Examples.outage_world)).1 = Returned false.
Proof.
  apply (unconfirmed_run_exits_zero Examples.outage_world Examples.inv1_files
           (VObj [("id", VStr "tx-1"); ("status", VStr "SUBMITTED")])
           (Examples.started Examples.outage_world)).
  - vm_compute. reflexivity.
  - reflexivity.
  - intros k Hk. left. exists Examples.unreachable. reflexivity.
  - reflexivity.
  - intros path. reflexivity.
  - reflexivity.
Defined.


(** X10 at a world where nothing is configured. *)
Lemma run_without_configuration_witness :
  Anchorer.main Examples.unconfigured_world Examples.inv1_files
  = (1%Z, Anchorer.new Examples.unconfigured_world Examples.inv1_files)
  ∧ ∃ summary,
      Anchorer.run Examples.unconfigured_world
        (Anchorer.new Examples.unconfigured_world Examples.inv1_files)
      = (Returned summary, Anchorer.new Examples.unconfigured_world Examples.inv1_files)
      ∧ Anchorer.mainError summary = Some (message Anchorer.missing_configuration)
      ∧ Anchorer.errorCount summary = 0.
Proof.
  apply (run_without_configuration Examples.unconfigured_world Examples.inv1_files).
  vm_compute. reflexivity.
Defined.

(** X11 at a world where the key file is not in its place. *)
Lemma run_without_key_file_witness :
  Anchorer.main Examples.no_key_world Examples.inv1_files
  = (1%Z, Anchorer.set_error "fireblocksInit"
            (JsError ("Fireblocks private key file not found: " +:+ "./fireblock.pem"))
            (Anchorer.new Examples.no_key_world Examples.inv1_files))
  ∧ Anchorer.calls (Anchorer.main Examples.no_key_world Examples.inv1_files).2 = []
  ∧ Anchorer.fireblocksSDK (Anchorer.main Examples.no_key_world Examples.inv1_files).2 = false
  ∧ Anchorer.files (Anchorer.main Examples.no_key_world Examples.inv1_files).2
    = Examples.inv1_files.
Proof.
  apply (run_without_key_file Examples.no_key_world Examples.inv1_files "./fireblock.pem").
  - vm_compute. reflexivity.
  - vm_compute. reflexivity.
  - reflexivity.
Defined.

(** * scripts/3-simple-anchor.js: the stages and the run *)

Section SimpleScript.
Variable w : SimpleRun.World.

(** X18: [submitToION] of the simple script.  Once the create request is
    loaded the method cannot fail: it calls [anchor] once and returns its
    answer, or, when [anchor] throws, the [submitted_longform] record built
    from the long-form DID and the clock; either way the result is kept in
    [anchorResponse] and no error is recorded.  Before the request is loaded
    it throws the type error of the first read, records it under
    [ionSubmission] and does not call [anchor]. *)
Theorem submitToION_outcome (c : Simple.t) :
  match get (Simple.createRequest c) "type" with
  | Returned _ =>
      ∃ r c', Simple.submitToION (SimpleRun.base w) c = (Returned r, c')
              ∧ Simple.anchored c' = S (Simple.anchored c)
              ∧ Simple.errors c' = Simple.errors c
              ∧ Simple.anchorResponse c' = r
              ∧ (Simple.anchor (SimpleRun.base w) (Simple.createRequest c) = Returned r
                 ∨ (∃ e, Simple.anchor (SimpleRun.base w) (Simple.createRequest c) = Thrown e)
                   ∧ r = Simple.longform_response (Simple.env_value (Simple.didLongForm c))
                           (Simple.now (SimpleRun.base w) (Simple.ticks c)))
  | Thrown e =>
      Simple.submitToION (SimpleRun.base w) c = (Thrown e, Simple.set_error "ionSubmission" e c)
      ∧ Simple.anchored (Simple.set_error "ionSubmission" e c) = Simple.anchored c
  end.
Proof.
  unfold Simple.submitToION, Simple.anchor_tier, Simple.longform_tier, Simple.clock.
  unfold_monad.
  destruct (get (Simple.createRequest c) "type") as [ty|e]; [|done].
  cbn [Simple.set_anchored Simple.createRequest].
  destruct (Simple.anchor (SimpleRun.base w) (Simple.createRequest c)) as [r|e] eqn:Hanchor.
  - eexists _, _. split; [reflexivity|]. split_and!; try done. by left.
  - eexists _, _. split; [reflexivity|]. split_and!; try done. right. split; [by eexists|done].
Qed.


(** X19: [testDIDResolution] never throws.  With a long-form DID in the
    environment it asks the resolver once, records no error and keeps what
    it returns in [resolvedDID].  It returns the resolver's answer exactly
    when the resolver answers and the answer can be read: it has a
    [didDocument] field to read, and the document is empty or its services
    can be searched for the investor profile.  In every other case - the
    resolver throws, the answer is null or undefined, [service] is not an
    array, or an entry before the profile is null or undefined - it returns
    the [resolution_pending] record.  Without a long-form DID the method
    returns [undefined] and records the type error under [resolution], and
    the resolver is not asked.  The search itself: no services is no
    profile; an array is gone through in order, up to the first entry whose
    [id] is the profile's, and the search throws at an entry that is null or
    undefined; so an array of objects can always be searched, and a service
    that is no array cannot. *)
Theorem testDIDResolution_settles (c : SimpleRun.t) :
  (∃ v c', SimpleRun.testDIDResolution w c = (Returned v, c')
           ∧ SimpleRun.files c' = SimpleRun.files c
           ∧ match Simple.didLongForm (SimpleRun.object c) with
             | Some did =>
                 Simple.errors (SimpleRun.object c') = Simple.errors (SimpleRun.object c)
                 ∧ SimpleRun.resolved c' = S (SimpleRun.resolved c)
                 ∧ Simple.resolvedDID (SimpleRun.object c') = v
                 ∧ v = match SimpleRun.resolve w (VStr did) with
                       | Returned answer =>
                           match get answer "didDocument" with
                           | Returned document =>
                               if truthy document then
                                 match SimpleRun.find_service (get_opt document "service") with
                                 | Returned _ => answer
                                 | Thrown _ => SimpleRun.pending_resolution (VStr did)
                                 end
                               else answer
                           | Thrown _ => SimpleRun.pending_resolution (VStr did)
                           end
                       | Thrown _ => SimpleRun.pending_resolution (VStr did)
                       end
             | None =>
                 v = VUndef
                 ∧ Simple.errors (SimpleRun.object c') !! "resolution"
                   = Some "Cannot read properties of undefined (reading 'substring')"
                 ∧ SimpleRun.resolved c' = SimpleRun.resolved c
             end)
  ∧ SimpleRun.find_service VUndef = Returned VUndef
  ∧ SimpleRun.find_service VNull = Returned VUndef
  ∧ (∀ items, Forall (λ item, ∃ fields, item = VObj fields) items →
              ∃ found, SimpleRun.find_service (VArr items) = Returned found)
  ∧ (∀ service, (∃ b, service = VBool b) ∨ (∃ z, service = VNum z) ∨ (∃ s, service = VStr s)
                ∨ (∃ fields, service = VObj fields) →
                ∃ e, SimpleRun.find_service service = Thrown e)
  ∧ (∀ item rest, (item = VUndef ∨ item = VNull) →
                  ∃ e, SimpleRun.find_service (VArr (item :: rest)) = Thrown e)
  ∧ SimpleRun.find_service (VArr []) = Returned VUndef
  ∧ (∀ item rest, item ≠ VUndef → item ≠ VNull →
                  SimpleRun.find_service (VArr (item :: rest))
                  = if Anchorer.strict_eq (get_opt item "id") (VStr "#investor-profile")
                    then Returned item
                    else SimpleRun.find_service (VArr rest)).
Proof.
  split_and!.
  - unfold SimpleRun.testDIDResolution, SimpleRun.resolve_tier, SimpleRun.pending_tier.
    unfold_monad.
    destruct (Simple.didLongForm (SimpleRun.object c)) as [did|] eqn:Hdid;
      cbn [Simple.env_value on_string].
    2:{ eexists _, _. split; [reflexivity|]. split_and!; try done.
        cbn [SimpleRun.set_error SimpleRun.with_object SimpleRun.object Simple.set_error
             Simple.errors message]. by rewrite lookup_insert_eq. }
    cbn [SimpleRun.with_resolved SimpleRun.object SimpleRun.with_object]. rewrite ?Hdid.
    cbn [Simple.env_value].
    assert (Simple.env_value
              (Simple.didLongForm
                 (SimpleRun.object (SimpleRun.with_resolved (S (SimpleRun.resolved c)) c)))
            = VStr did) as Hlong.
    { cbn [SimpleRun.with_resolved SimpleRun.object]. by rewrite Hdid. }
    destruct (SimpleRun.resolve w (VStr did)) as [answer|e] eqn:Hresolve.
    2:{ rewrite Hlong. eexists _, _. split; [reflexivity|]. done. }
    destruct (get answer "didDocument") as [document|e] eqn:Hdocument.
    2:{ cbn [SimpleRun.with_object SimpleRun.object SimpleRun.set_resolvedDID
             Simple.didLongForm]. rewrite Hdid.
        eexists _, _. split; [reflexivity|]. done. }
    destruct (truthy document) eqn:Htruthy.
    2:{ eexists _, _. split; [reflexivity|]. done. }
    assert (get document "service" = Returned (get_opt document "service")) as ->.
    { destruct document; try done. }
    destruct (SimpleRun.find_service (get_opt document "service")) as [found|e].
    + eexists _, _. split; [reflexivity|]. done.
    + cbn [SimpleRun.with_object SimpleRun.object SimpleRun.set_resolvedDID
           Simple.didLongForm]. rewrite Hdid.
      eexists _, _. split; [reflexivity|]. done.
  - done.
  - done.
  - intros items Hitems. cbn [SimpleRun.find_service].
    induction Hitems as [|item items [fields ->] _ IH]; [by eexists|].
    cbn [SimpleRun.find_profile get].
    destruct (Anchorer.strict_eq _ _); [by eexists|exact IH].
  - intros service [[b ->]|[[z ->]|[[s ->]|[fields ->]]]]; by eexists.
  - intros item rest [-> | ->]; by eexists.
  - done.
  - intros item rest Hundef Hnull. by destruct item.
Qed.









End SimpleScript.

(** * The strings in the file names and in the identifier *)

Section Strings.
Import JsString.

Lemma dashes_count s : count ":" (dashes s) = 0 ∧ count "." (dashes s) = 0.
Proof.
  induction s as [|a s [IH1 IH2]]; [done|]. simpl.
  rewrite IH1, IH2.
  destruct (Ascii.eqb_spec a ":") as [->|H1]; [done|].
  destruct (Ascii.eqb_spec a ".") as [->|H2]; [done|]. simpl.
  destruct (Ascii.eqb_spec a ":"); [done|]. by destruct (Ascii.eqb_spec a ".").
Qed.

Lemma dashes_length s : String.length (dashes s) = String.length s.
Proof. induction s as [|a s IH]; [done|]. simpl. by rewrite IH. Qed.

Lemma digit_plain a :
  Pipeline.digit a = true →
  Ascii.eqb a ":" = false ∧ Ascii.eqb a "." = false ∧ Pipeline.stamp_char a = true.
Proof.
  unfold Pipeline.digit, Pipeline.stamp_char. intros H. rewrite H.
  apply andb_true_iff in H as [H1%Nat.leb_le H2%Nat.leb_le].
  split_and!; [| |done].
  - destruct (Ascii.eqb_spec a ":") as [->|]; [|done].
    change (nat_of_ascii ":") with 58 in H2. lia.
  - destruct (Ascii.eqb_spec a ".") as [->|]; [|done].
    change (nat_of_ascii ".") with 46 in H1. lia.
Qed.

(** On strings of one shape, the replacement changes nothing about their
    order. *)
Lemma dashes_compare shape : ∀ s t,
  Pipeline.has_shape shape s = true → Pipeline.has_shape shape t = true →
  String.compare (dashes s) (dashes t) = String.compare s t.
Proof.
  induction shape as [|[c|] shape IH]; intros [|a s] [|b t]; simpl; try done.
  - intros [Ha%Ascii.eqb_eq Hs]%andb_true_iff [Hb%Ascii.eqb_eq Ht]%andb_true_iff. subst a b.
    unfold Ascii.compare. rewrite !N.compare_refl. by apply IH.
  - intros [Ha Hs]%andb_true_iff [Hb Ht]%andb_true_iff.
    destruct (digit_plain a Ha) as (-> & -> & _), (digit_plain b Hb) as (-> & -> & _). simpl.
    by rewrite (IH s t).
Qed.

Lemma dashes_shape shape : ∀ s,
  Pipeline.has_shape shape s = true →
  forallb Pipeline.stamp_char (String.list_ascii_of_string (dashes s)) = true
  ∨ ∃ c, Some c ∈ shape ∧ Pipeline.stamp_char (if Ascii.eqb c ":" || Ascii.eqb c "." then "-"%char else c) = false.
Proof.
  induction shape as [|[c|] shape IH]; intros [|a s]; simpl; try done; [by left| |].
  - intros [Ha%Ascii.eqb_eq Hs]%andb_true_iff. subst a.
    destruct (Pipeline.stamp_char (if Ascii.eqb c ":" || Ascii.eqb c "." then "-"%char else c))
      eqn:Hc.
    + destruct (IH s Hs) as [->|(c' & Hin & Hc')]; [by left|].
      right. exists c'. split; [by apply list_elem_of_further|done].
    + right. exists c. split; [apply list_elem_of_here|done].
  - intros [Ha Hs]%andb_true_iff.
    destruct (digit_plain a Ha) as (-> & -> & Hstamp). simpl. rewrite Hstamp. simpl.
    destruct (IH s Hs) as [->|(c' & Hin & Hc')]; [by left|].
    right. exists c'. split; [by apply list_elem_of_further|done].
Qed.

Lemma has_shape_length shape : ∀ s, Pipeline.has_shape shape s = true → String.length s = length shape.
Proof.
  induction shape as [|[c|] shape IH]; intros [|a s]; simpl; try done.
  - intros [_ Hs]%andb_true_iff. by rewrite (IH s).
  - intros [_ Hs]%andb_true_iff. by rewrite (IH s).
Qed.

(** X21: the time stamp in the file names.  The replacement keeps the length and
    leaves no colon and no full stop, so the stamp can stand in a file name.
    For a clock reading of the ISO shape the stamp has the 24 characters
    [loadDIDData]'s choice relies on, and two such stamps compare as the
    readings they come from: sorting the names sorts the bundles by time. *)
Theorem dashes_iso_stamp iso :
  Pipeline.is_iso iso = true →
  Pipeline.is_stamp (dashes iso) = true
  ∧ String.length (dashes iso) = String.length iso
  ∧ count ":" (dashes iso) = 0
  ∧ count "." (dashes iso) = 0
  ∧ ∀ iso', Pipeline.is_iso iso' = true →
            String.leb (dashes iso) (dashes iso') = String.leb iso iso'.
Proof.
  intros Hiso. split_and!.
  - unfold Pipeline.is_stamp. rewrite dashes_length, (has_shape_length Pipeline.iso_shape iso Hiso).
    destruct (dashes_shape Pipeline.iso_shape iso Hiso) as [->|(c & Hin & Hc)]; [done|].
    exfalso. unfold Pipeline.iso_shape in Hin.
    repeat (apply elem_of_cons in Hin as [Hin|Hin]; [try done; injection Hin as ->; done|]).
    by apply elem_of_nil in Hin.
  - apply dashes_length.
  - apply dashes_count.
  - apply dashes_count.
  - intros iso' Hiso'. unfold String.leb. by rewrite (dashes_compare Pipeline.iso_shape).
Qed.

Lemma after_last_none c s : count c s = 0 → after_last c s = s.
Proof.
  destruct s as [|a s]; [done|]. simpl.
  destruct (Ascii.eqb a c); [done|]. simpl. by intros ->.
Qed.

Lemma after_last_count c s : count c (after_last c s) = 0.
Proof.
  induction s as [|a s IH]; [done|]. simpl.
  destruct (Ascii.eqb a c) eqn:Ha; simpl; [done|].
  destruct (count c s =? 0)%nat eqn:Hs; simpl; [|done].
  apply Nat.eqb_eq in Hs. by rewrite Ha, Hs.
Qed.

Lemma after_last_app c : ∀ a b,
  count c b = 0 → after_last c (a +:+ String c b) = b.
Proof.
  intros a b Hb. induction a as [|x a IH].
  - change (after_last c (String c b) = b). simpl. rewrite Ascii.eqb_refl. simpl.
    by apply after_last_none.
  - change (after_last c (String x (a +:+ String c b)) = b). simpl.
    rewrite count_app. simpl. rewrite Ascii.eqb_refl.
    replace (count c a + (1 + count c b) =? 0)%nat with false
      by (symmetry; apply Nat.eqb_neq; lia).
    rewrite orb_true_r. exact IH.
Qed.

Lemma append_assoc a b c : (a +:+ b) +:+ c = a +:+ (b +:+ c).
Proof.
  induction a as [|x a IH]; [done|].
  change (String x ((a +:+ b) +:+ c) = String x (a +:+ (b +:+ c))). by rewrite IH.
Qed.

(** X22: the identifier [saveDIDData] and [updateEnvFile] derive from the short
    form is what stands after its last colon: it holds no colon, it is the
    whole short form when that has none, and for [head:tail] with no colon in
    [tail] it is [tail].  So when the long form is the suffix and the
    encoded state joined by a colon, with no question mark, the identifier
    is the encoded state and not the suffix. *)
Theorem did_identifier_is_last_segment :
  (∀ short, count ":" (after_last ":" short) = 0)
  ∧ (∀ short, count ":" short = 0 → after_last ":" short = short)
  ∧ (∀ head tail, count ":" tail = 0 → after_last ":" (head +:+ String ":" tail) = tail)
  ∧ (∀ suffix state,
       count "?" suffix = 0 → count "?" state = 0 → count ":" state = 0 →
       after_last ":" (before_first "?" ("did:ion:" +:+ suffix +:+ String ":" state)) = state).
Proof.
  split_and!.
  - apply after_last_count.
  - apply after_last_none.
  - apply after_last_app.
  - intros suffix state Hs Ht Hc.
    rewrite before_first_id.
    + rewrite <-append_assoc. by apply after_last_app.
    + rewrite !count_app. simpl. rewrite Hs, Ht. done.
Qed.

End Strings.

(** X21 at the clock reading of the examples. *)
Lemma dashes_iso_stamp_witness :
  Pipeline.is_stamp (JsString.dashes "2024-01-02T03:04:05.678Z") = true
  ∧ String.length (JsString.dashes "2024-01-02T03:04:05.678Z")
    = String.length "2024-01-02T03:04:05.678Z"
  ∧ JsString.count ":" (JsString.dashes "2024-01-02T03:04:05.678Z") = 0
  ∧ JsString.count "." (JsString.dashes "2024-01-02T03:04:05.678Z") = 0
  ∧ ∀ iso', Pipeline.is_iso iso' = true →
            String.leb (JsString.dashes "2024-01-02T03:04:05.678Z") (JsString.dashes iso')
            = String.leb "2024-01-02T03:04:05.678Z" iso'.
Proof.
  apply (dashes_iso_stamp "2024-01-02T03:04:05.678Z"). reflexivity.
Defined.

(** * Runs that stop early *)

Section EarlyExit.

Lemma anchorer_stage_files (w : Anchorer.World) c :
  Anchorer.files (Anchorer.initializeFireblocks w c).2 = Anchorer.files c
  ∧ Anchorer.files (Anchorer.loadDIDData w c).2 = Anchorer.files c
  ∧ Anchorer.files (Anchorer.submitToIONNode w c).2 = Anchorer.files c
  ∧ Anchorer.files (Anchorer.createBitcoinTransaction w c).2 = Anchorer.files c
  ∧ Anchorer.queries (Anchorer.initializeFireblocks w c).2 = Anchorer.queries c
  ∧ Anchorer.queries (Anchorer.loadDIDData w c).2 = Anchorer.queries c
  ∧ Anchorer.queries (Anchorer.submitToIONNode w c).2 = Anchorer.queries c
  ∧ Anchorer.queries (Anchorer.createBitcoinTransaction w c).2 = Anchorer.queries c.
Proof.
  split_and!.
  all: unfold Anchorer.initializeFireblocks, Anchorer.loadDIDData, Anchorer.submitToIONNode,
         Anchorer.createBitcoinTransaction, Anchorer.recording, Anchorer.primary_tier,
         Anchorer.direct_tier, Anchorer.degraded_tier, Anchorer.clock, Anchorer.clock_ms,
         Anchorer.sdk; unfold_monad.
  all: repeat (case_match; simplify_eq/=; try done).
Qed.

(** X23: a run of script 3 that fails before [waitForConfirmation] writes
    nothing.  When one of the five stages from [validateRequirements] to
    [createBitcoinTransaction] throws, the later stages are skipped: [main]
    exits with status 1, the summary carries the message as [mainError], no
    status query was sent, and neither a result file nor [.env] was written. *)
Theorem failed_stage_writes_nothing (w : Anchorer.World) f e c5 :
  Pipeline.anchoring_stages w (Anchorer.new w f) = (Thrown e, c5) →
  Anchorer.main w f = (1%Z, c5)
  ∧ (∃ summary, Anchorer.run w (Anchorer.new w f) = (Returned summary, c5)
                ∧ Anchorer.mainError summary = Some (message e))
  ∧ Anchorer.files c5 = f
  ∧ Anchorer.queries c5 = 0.
Proof.
  intros Hstages.
  assert (∃ summary, Anchorer.run w (Anchorer.new w f) = (Returned summary, c5)
                     ∧ Anchorer.success summary = VBool false
                     ∧ Anchorer.mainError summary = Some (message e)) as (summary & Hrun & Hs & Hm).
  { revert Hstages. unfold Pipeline.anchoring_stages, Anchorer.run, try_catch.
    unfold mbind, M_bind.
    destruct (Anchorer.validateRequirements w _) as [[r1|e1] c1].
    2:{ intros [= <- <-]. eexists. split; [reflexivity|]. done. }
    destruct (Anchorer.initializeFireblocks w c1) as [[r2|e2] c2].
    2:{ intros [= <- <-]. eexists. split; [reflexivity|]. done. }
    destruct (Anchorer.loadDIDData w c2) as [[r3|e3] c3].
    2:{ intros [= <- <-]. eexists. split; [reflexivity|]. done. }
    destruct (Anchorer.submitToIONNode w c3) as [[r4|e4] c4].
    2:{ intros [= <- <-]. eexists. split; [reflexivity|]. done. }
    destruct (Anchorer.createBitcoinTransaction w c4) as [[r5|e5] c5']; [done|].
    intros [= <- <-]. eexists. split; [reflexivity|]. done. }
  assert (Anchorer.files c5 = f ∧ Anchorer.queries c5 = 0) as [Hf Hq].
  { revert Hstages. unfold Pipeline.anchoring_stages. unfold mbind, M_bind.
    pose proof (validateRequirements_state w (Anchorer.new w f)) as H1.
    destruct (Anchorer.validateRequirements w _) as [r1 c1]. cbn [snd] in H1. subst c1.
    pose proof (anchorer_stage_files w (Anchorer.new w f)) as (F2 & _ & _ & _ & Q2 & _).
    change (Anchorer.files (Anchorer.new w f)) with f in F2.
    change (Anchorer.queries (Anchorer.new w f)) with 0 in Q2.
    assert (∀ c, Anchorer.files c = f → Anchorer.queries c = 0 →
                 Anchorer.files c = f ∧ Anchorer.queries c = 0) as Hdone by done.
    destruct r1 as [r1|e1]; [|by intros [= <- <-]].
    destruct (Anchorer.initializeFireblocks w _) as [[r2|e2] c2]; cbn [snd] in *;
      [|intros [= <- <-]; by apply Hdone].
    pose proof (anchorer_stage_files w c2) as (_ & F3 & _ & _ & _ & Q3 & _).
    destruct (Anchorer.loadDIDData w c2) as [[r3|e3] c3]; cbn [snd] in *;
      [|intros [= <- <-]; apply Hdone; congruence].
    pose proof (anchorer_stage_files w c3) as (_ & _ & F4 & _ & _ & _ & Q4 & _).
    destruct (Anchorer.submitToIONNode w c3) as [[r4|e4] c4]; cbn [snd] in *;
      [|intros [= <- <-]; apply Hdone; congruence].
    pose proof (anchorer_stage_files w c4) as (_ & _ & _ & F5 & _ & _ & _ & Q5).
    destruct (Anchorer.createBitcoinTransaction w c4) as [[r5|e5] c5']; cbn [snd] in *;
      [done|intros [= <- <-]; apply Hdone; congruence]. }
  split_and!; [|by exists summary|done|done].
  unfold Anchorer.main. rewrite Hrun. cbn [Anchorer.exit_status]. by rewrite Hs.
Qed.

Lemma creator_stage_env (w : Creator.World) c :
  env_file (Creator.files (Creator.generateDIDKeys w c).2) = env_file (Creator.files c)
  ∧ env_file (Creator.files (Creator.createDIDInstance w c).2) = env_file (Creator.files c)
  ∧ env_file (Creator.files (Creator.saveDIDData w c).2) = env_file (Creator.files c).
Proof.
  split_and!.
  all: unfold Creator.generateDIDKeys, Creator.createDIDInstance, Creator.saveDIDData,
         Creator.getCreateRequest, Creator.recording, Creator.next_key_pair,
         Creator.ensure_data_dir, Creator.clock, Creator.instance, Creator.key_field,
         Creator.write_data; unfold_monad.
  all: repeat (case_match; simplify_eq/=; try done).
Qed.

(** X24: a run of script 2 that fails before [updateEnvFile] leaves [.env]
    alone.  When one of the five stages from [validateWalletAddresses] to
    [saveDIDData] throws, [updateEnvFile] is skipped: [main] exits with
    status 1 and [.env] is as it was. *)
Theorem failed_identity_stage_keeps_env (w : Creator.World) f e c5 :
  Pipeline.identity_stages w (Creator.new w f) = (Thrown e, c5) →
  Creator.main w f = (1%Z, c5)
  ∧ env_file (Creator.files c5) = env_file f.
Proof.
  intros Hstages.
  assert (Creator.run w (Creator.new w f)
          = (summary ← Creator.generateSummary; mret (Creator.failed e summary)) c5) as Hrun.
  { revert Hstages. unfold Pipeline.identity_stages, Creator.run, try_catch.
    unfold mbind, M_bind.
    destruct (Creator.validateWalletAddresses _) as [[r1|e1] c1]; [|by intros [= <- <-]].
    destruct (Creator.generateDIDKeys w c1) as [[r2|e2] c2]; [|by intros [= <- <-]].
    destruct (Creator.createDIDInstance w c2) as [[r3|e3] c3]; [|by intros [= <- <-]].
    destruct (Creator.generateLongFormDID c3) as [[r4|e4] c4]; [|by intros [= <- <-]].
    destruct (Creator.saveDIDData w c4) as [[r5|e5] c5']; [done|by intros [= <- <-]]. }
  split.
  - unfold Creator.main. rewrite Hrun. unfold mbind, M_bind, mret, M_ret.
    pose proof (generateSummary_state c5) as Hstate.
    destruct (Creator.generateSummary c5) as [[summary|e'] c6]; cbn [snd] in Hstate; by subst c6.
  - revert Hstages. unfold Pipeline.identity_stages. unfold mbind, M_bind.
    pose proof (validateWalletAddresses_frame (Creator.new w f)) as (_ & F1 & _).
    destruct (Creator.validateWalletAddresses _) as [[r1|e1] c1]; cbn [snd] in *;
      [|intros [= <- <-]; by rewrite F1].
    pose proof (creator_stage_env w c1) as (F2 & _ & _).
    destruct (Creator.generateDIDKeys w c1) as [[r2|e2] c2]; cbn [snd] in *;
      [|intros [= <- <-]; by rewrite F2, F1].
    pose proof (creator_stage_env w c2) as (_ & F3 & _).
    destruct (Creator.createDIDInstance w c2) as [[r3|e3] c3]; cbn [snd] in *;
      [|intros [= <- <-]; by rewrite F3, F2, F1].
    pose proof (generateLongFormDID_frame c3) as (_ & F4 & _).
    destruct (Creator.generateLongFormDID c3) as [[r4|e4] c4]; cbn [snd] in *;
      [|intros [= <- <-]; by rewrite F4, F3, F2, F1].
    pose proof (creator_stage_env w c4) as (_ & _ & F5).
    destruct (Creator.saveDIDData w c4) as [[r5|e5] c5']; cbn [snd] in *;
      [done|intros [= <- <-]; by rewrite F5, F4, F3, F2, F1].
Qed.

(** X25: without a long-form DID the simple script does nothing.  When
    [DID_LONG_FORM] is not set or empty, [main] exits with status 1 and the
    object is as the constructor made it: neither [anchor] nor [resolve] was
    called, no file was touched, and the error collection is empty. *)
Theorem simple_run_without_long_form (w : SimpleRun.World) f :
  truthy (Simple.env_value (Simple.env (SimpleRun.base w) !! "DID_LONG_FORM")) = false →
  SimpleRun.main w f = (1%Z, SimpleRun.new w f)
  ∧ Simple.anchored (SimpleRun.object (SimpleRun.main w f).2) = 0
  ∧ SimpleRun.resolved (SimpleRun.main w f).2 = 0
  ∧ Simple.errors (SimpleRun.object (SimpleRun.main w f).2) = ∅
  ∧ SimpleRun.files (SimpleRun.main w f).2 = f.
Proof.
  intros Hmissing.
  assert (SimpleRun.main w f = (1%Z, SimpleRun.new w f)) as ->; [|done].
  unfold SimpleRun.main, SimpleRun.run, try_catch. unfold mbind at 1, M_bind at 1.
  unfold SimpleRun.on_object at 1, Simple.validateRequirements. unfold_monad.
  cbn [SimpleRun.new SimpleRun.object Simple.new Simple.didLongForm]. rewrite Hmissing.
  done.
Qed.

End EarlyExit.

(** X23 at a world where the key file is not in its place. *)
Lemma failed_stage_writes_nothing_witness :
  Anchorer.main Examples.no_key_world Examples.inv1_files
  = (1%Z, (Pipeline.anchoring_stages Examples.no_key_world
             (Anchorer.new Examples.no_key_world Examples.inv1_files)).2)
  ∧ (∃ summary,
       Anchorer.run Examples.no_key_world (Anchorer.new Examples.no_key_world Examples.inv1_files)
       = (Returned summary,
          (Pipeline.anchoring_stages Examples.no_key_world
             (Anchorer.new Examples.no_key_world Examples.inv1_files)).2)
       ∧ Anchorer.mainError summary
         = Some (message (JsError "Fireblocks private key file not found: ./fireblock.pem")))
  ∧ Anchorer.files (Pipeline.anchoring_stages Examples.no_key_world
                      (Anchorer.new Examples.no_key_world Examples.inv1_files)).2
    = Examples.inv1_files
  ∧ Anchorer.queries (Pipeline.anchoring_stages Examples.no_key_world
                        (Anchorer.new Examples.no_key_world Examples.inv1_files)).2 = 0.
Proof.
  apply (failed_stage_writes_nothing Examples.no_key_world Examples.inv1_files).
  vm_compute. reflexivity.
Defined.

(** X24 at a world where no wallet address was extracted. *)
Lemma failed_identity_stage_keeps_env_witness :
  Creator.main Examples.no_wallets_world no_files
  = (1%Z, (Pipeline.identity_stages Examples.no_wallets_world
             (Creator.new Examples.no_wallets_world no_files)).2)
  ∧ env_file (Creator.files (Pipeline.identity_stages Examples.no_wallets_world
                               (Creator.new Examples.no_wallets_world no_files)).2)
    = env_file no_files.
Proof.
  apply (failed_identity_stage_keeps_env Examples.no_wallets_world no_files
           Creator.missing_addresses).
  vm_compute. reflexivity.
Defined.

(** X25 at a world whose environment is empty. *)
Lemma simple_run_without_long_form_witness :
  SimpleRun.main Examples.blank_simple_world Examples.inv1_files
  = (1%Z, SimpleRun.new Examples.blank_simple_world Examples.inv1_files)
  ∧ Simple.anchored (SimpleRun.object
                       (SimpleRun.main Examples.blank_simple_world Examples.inv1_files).2) = 0
  ∧ SimpleRun.resolved (SimpleRun.main Examples.blank_simple_world Examples.inv1_files).2 = 0
  ∧ Simple.errors (SimpleRun.object
                     (SimpleRun.main Examples.blank_simple_world Examples.inv1_files).2) = ∅
  ∧ SimpleRun.files (SimpleRun.main Examples.blank_simple_world Examples.inv1_files).2
    = Examples.inv1_files.
Proof.
  apply (simple_run_without_long_form Examples.blank_simple_world Examples.inv1_files).
  vm_compute. reflexivity.
Defined.
